(* ===== verification/_CoqProject ===== *)
-Q . S2P
Prelude.v
PyStr.v
PyInt.v
PyIntSpec.v
PyDate.v
PyDateSpec.v
Fields.v
Db.v
Forms.v
Suggest.v
App.v
