(* ===== verification/Prelude.v ===== *)
(** * A verified model of the LibraryRecommendation web application

    The program (src/app.py) is a Flask application backed by a SQLite file
    through Flask-SQLAlchemy, with three Flask-WTF forms.  A request reaches a
    view function through the URL map; the view builds its form from the
    request, runs [form.validate_on_submit()], and on success either inserts
    a row and redirects with a flashed message ([add_book], [book_borrow]) or
    runs the suggestion query and renders it ([book_suggestions]); otherwise
    it re-renders the form with its errors.  The model follows this
    composition, one file per part, each requiring the parts it calls:

    - [Prelude] (this file): the [py_scope] notations ([x == y] for Python's
      [==], [+s+] for string concatenation), the [result] error monad with
      stdpp's [MRet]/[MBind]/[FMap] instances (an [Err] is a raised
      exception), Python's [sep.join], the hint databases [pylib] and
      [pylib_rw], the tactics [invc], [simpl_result], [decide_prop] and
      [enumerate_range], and the list, option and range lemmas shared by
      the components.
    - [PyStr]: [str.isspace], [str.strip] and truthiness of a [str], the
      decimal-digit class, over Latin-1 code points.
    - [PyInt]: [int(s)] as CPython computes it ([coerce=int] on lines 39,
      46, 47, 55): the Unicode-to-ASCII transform, [PyLong_FromString] in
      base 10 (C whitespace, sign, single underscores, the 4300-digit limit,
      trailing whitespace, NUL), and [str(z)].
    - [PyIntSpec]: the grammar of the literals [int()] accepts ([numeral],
      [sign_part], [int_literal]), as the Python documentation states it,
      and the proof that the scanner of PyInt accepts exactly that
      language with the value it denotes.
    - [PyDate]: [datetime.strptime(s, "%Y-%m-%d").date()] ([DateField],
      line 48): the regular expression [_strptime] compiles, matched with
      backtracking in the list monad, "unconverted data remains", [int] on
      the groups and [_check_date_fields]; and [date.isoformat()].
    - [PyDateSpec]: the language of "%Y-%m-%d" as a declarative relation
      ([year_text], [month_text], [day_text], [date_text]) and the proof
      that the first-match regex with its unconverted-data check accepts
      exactly that language.
    - [Fields]: the WTForms fields [StringField], [SelectField] and
      [DateField] ([process_formdata], [pre_validate]) and [DataRequired];
      the interfaces [DataRequiredTest] (the truthiness of a field's data)
      and [Coerce] (a [coerce] function) as type classes, one instance per
      Python type, so the field lemmas are proved once against them.
    - [Db]: the models [Book] and [BookBorrow] (lines 14-30) as records, the
      store [Db] as the two tables in rowid order, and the two INSERTs the
      handlers commit (lines 67-76, 86-95): rowid allocation (interface
      [HasRowId], proved once in the section [RowidTable]), the UNIQUE
      constraint on [serial_number] and its [IntegrityError], the foreign
      key SQLite does not enforce; the table invariant [db_wf].
    - [Forms]: the modules [AddBookForm], [BookBorrowForm] and
      [BookSuggestionForm] (lines 33-56): [process], [errors], [validate]
      and [submitted_data], i.e. [validate_on_submit()] and the reads of
      [form.<field>.data].
    - [Suggest]: the query of [book_suggestions] (lines 105-118), with its
      contract [suggestion_spec] and SQLite's limit on bound parameters.
    - [App]: the requests, responses and application state (database and
      flash queue), the five view functions, the URL map with HEAD, OPTIONS,
      404 and 405, Werkzeug's path handling ([path_part]: the leading
      slashes [MapAdapter.match] strips; [merge_slash_pairs]: the
      [merge_slashes] retry and its 308 redirect), [dispatch] (one
      request), [run] (a sequence of requests) and the reachable states as
      an inductive relation.

    What the theorems show.
    - Handlers (App, C1-C5, C12, C15, C26, C33, C36, C37): a valid add-book or borrow submission
      appends exactly the submitted row with the next rowid, flashes and
      redirects; a repeated serial number answers 500 and changes nothing;
      a borrow naming no current book, an add-book with a malformed year
      and a borrow with a date that does not parse are refused with the
      messages WTForms gives; each form page writes exactly when its
      form validates (and, for a book, its serial is new); the same
      borrow sent twice is recorded twice,
      nothing marking a book as borrowed (spec.md 5 and 9); a suggestion submission
      renders exactly the books the contract describes, and one with a
      year outside the choices renders no suggestions and the field's
      error (C37).
    - Invariant and state (App, C7, C11, C27): every reachable state
      satisfies [app_wf] (dense rowids, unique serials, borrows naming
      existing books, stored values that passed the forms' checks), proved
      by induction on [reachable]; only a POST to [/add_book] or
      [/book_borrow] changes the state, and then by exactly one row and
      one success message.
    - Routing (App, C10, C21-C25): 404 exactly for a path that, leading
      slashes stripped, is no rule's; the [merge_slashes] 308 redirect
      never fires for this URL map; 405 for a method a rule does not
      allow; OPTIONS answered by Flask with the exact Allow lists; GET and
      HEAD rendering forms without errors; and no write at all when the
      CSRF check failed.
    - Suggestions (Suggest, C6, C8, C9, C16): the refinement of the
      contract of spec.md 4.3, exclusion of borrowed books, the case of a
      student without history, and the [OperationalError] for a student
      with 32765 or more borrow rows.
    - Forms (Forms, C13, C14): the exact conditions on the request under
      which each form validates and which values it yields.
    - Library behaviour (PyInt, PyIntSpec, PyDate, PyDateSpec, C17-C20,
      C29, C32): [int(str(z)) = z] within the digit limit, the limit
      itself, [int()] on ASCII text equivalent to its reference grammar,
      [strptime] of [isoformat] is the identity on valid dates, the parse
      accepts exactly the days of the Gregorian calendar (stated with
      divisibility, independently of [is_leap]), and the parse equivalent
      to its declarative language.
    - Composition, ordering and progress (App, Suggest, C28, C30, C31,
      C34, C35, C38, C39): a book just added is offered by the next borrow
      form, and posting back the offered option value [str(id)] selects
      that book; a book just added is suggested to every student for its
      department and year; once a borrow is accepted the student's
      suggestions never list that book; two add-book submissions with
      different new serials commute up to the rowids they get
      ([book_values], a permutation of the rows without ids); the
      suggestions read a borrow row only through its student and book; and
      from every well-formed state below the rowid limit some request adds
      a book.

    Bounds.  Integers are Rocq [Z]: Python's [int] is unbounded, and the
    only bounds that matter are those the code meets, each written out:
    CPython's 4300-digit limit on [int(str)] ([int_max_str_digits]),
    SQLite's largest rowid 2^63-1 ([max_rowid]; the invariant's dense
    rowids keep the tables below it while they hold fewer rows), SQLite's
    32766 bound parameters per statement ([sqlite_max_variable_number]),
    and dates within years 1..9999 ([MINYEAR], [MAXYEAR]).  No definition
    uses fuel: every function is structural, since the program has no loop
    that is not over a finite list (the comprehensions of lines 84 and 111,
    the query's filter) and no recursion; termination is therefore by
    construction and no termination theorem is stated.

    Assumptions on the environment: Werkzeug 2.2 or later (the state
    machine matcher), WTForms 3.x and Flask-WTF field
    semantics, CPython 3.11 or later ([int] digit limit), SQLite 3.32 or
    later (parameter limit) with foreign keys off, strings whose characters
    are Latin-1 code points.

    Not modelled.  The Jinja templates (not in the repository): a rendered
    response is the template's context ([View]).  Flask-WTF's CSRF token
    check is an input of each request ([csrf]), its outcome, not its HMAC.
    The submit fields (no validator).  JSON and file uploads (the forms read
    [request.form] only).  [app.run(debug=True)] and the Werkzeug
    debugger it serves on uncaught exceptions (the 500 answers of the
    model), and the hard-coded [SECRET_KEY]: server plumbing; the
    start-up [db.create_all()] is the initial state [init_state].  The
    consumption of flashed messages by the templates.  The query string
    and the host of a redirect URL ([make_redirect_url]): a redirect is
    modelled by its path.  An empty PATH_INFO, which no HTTP request line
    produces, is answered 404 here; Werkzeug may redirect it to [/].  Every other line of
    src/app.py is modelled; the lines no definition names are imports and
    blank lines. *)

From Stdlib Require Export ZArith Ascii String Lia.
From stdpp Require Export base list strings decidable.

(** [naive_solver] and [simplify_eq] clear hypotheses that may be gone. *)
#[export] Set Warnings "-clear-no-such-hyp".

(** ** Notation scope of the development *)

Declare Scope py_scope.
Delimit Scope py_scope with py.
Open Scope py_scope.

(** Python's [==] on values with decidable equality, as a boolean. *)
Notation "x == y" := (bool_decide (x = y)) (at level 70, no associativity) : py_scope.
(** String concatenation, as Python's [+] on [str] and f-strings use it. *)
Notation "s1 +s+ s2" := (String.append s1 s2) (at level 60, right associativity) : py_scope.

(** ** Results: a value or a Python exception *)

(** [Err e] is a raised exception carrying [e]; [Ok a] a normal return. *)
Inductive result (E A : Type) : Type :=
| Ok (a : A)
| Err (e : E).
Arguments Ok {E A} a.
Arguments Err {E A} e.

#[export] Instance result_ret E : MRet (result E) := fun A a => Ok a.
#[export] Instance result_bind E : MBind (result E) :=
  fun A B f m => match m with Ok a => f a | Err e => Err e end.
#[export] Instance result_fmap E : FMap (result E) :=
  fun A B f m => match m with Ok a => Ok (f a) | Err e => Err e end.

Definition is_ok {E A} (r : result E A) : bool :=
  match r with Ok _ => true | Err _ => false end.

Definition result_of_option {E A} (e : E) (o : option A) : result E A :=
  match o with Some a => Ok a | None => Err e end.

Definition option_of_result {E A} (r : result E A) : option A :=
  match r with Ok a => Some a | Err _ => None end.

(** ** Lists and strings as Python uses them *)

(** The first element of a list, as Python's [valuelist[0]] guarded by a
    non-empty test. *)
Definition head_opt {A} (l : list A) : option A :=
  match l with [] => None | x :: _ => Some x end.

(** [join sep l]: Python's [sep.join(l)] on a list of strings. *)
Fixpoint join (sep : string) (l : list string) : string :=
  match l with
  | [] => ""
  | [s] => s
  | s :: l' => s +s+ sep +s+ join sep l'
  end.

(** ** The development's hint database and tactics *)

Create HintDb pylib discriminated.
Create Rewrite HintDb pylib_rw.

Ltac invc H := inversion H; subst; clear H.

(** Split a hypothesis [m ≫= f = Ok b] (or a [match] on a result or an
    option that must have taken its success branch) into its parts. *)
Ltac simpl_result :=
  repeat match goal with
  | H : Ok _ = Ok _ |- _ => injection H as H; subst
  | H : Err _ = Err _ |- _ => injection H as H; subst
  | H : Ok _ = Err _ |- _ => discriminate H
  | H : Err _ = Ok _ |- _ => discriminate H
  | H : Some _ = Some _ |- _ => injection H as H; subst
  | H : Some _ = None |- _ => discriminate H
  | H : None = Some _ |- _ => discriminate H
  | H : context [match ?m with Ok _ => _ | Err _ => _ end] |- _ =>
      let E := fresh "E" in destruct m eqn:E
  | H : context [match ?m with Some _ => _ | None => _ end] |- _ =>
      let E := fresh "E" in destruct m eqn:E
  end.

(** Prove a decidable proposition on concrete data by evaluating its
    decision procedure. *)
Ltac decide_prop := apply (bool_decide_unpack _); vm_compute; exact I.

(** ** Generic lemmas on results *)

Lemma bind_Ok_iff {E A B} (m : result E A) (f : A -> result E B) b :
  (m ≫= f) = Ok b <-> exists a, m = Ok a /\ f a = Ok b.
Proof.
  destruct m as [a|e]; simpl; split.
  - eauto.
  - intros (a' & Ha & Hf). by injection Ha as ->.
  - discriminate.
  - by intros (a' & Ha & _).
Qed.

Lemma bind_Err {E A B} (e : E) (f : A -> result E B) :
  (Err e ≫= f) = Err e.
Proof. reflexivity. Qed.

Lemma bind_Ok {E A B} (a : A) (f : A -> result E B) :
  (Ok a ≫= f) = f a.
Proof. reflexivity. Qed.

Lemma result_of_option_Ok {E A} (e : E) (o : option A) a :
  result_of_option e o = Ok a <-> o = Some a.
Proof. destruct o; simpl; split; congruence. Qed.

#[export] Hint Rewrite @bind_Err @bind_Ok : pylib_rw.

(** ** Generic lemmas on lists *)

(** Membership in a [filter] with a boolean predicate. *)
Lemma In_filter_iff {A} (p : A -> bool) (l : list A) x :
  In x (List.filter p l) <-> In x l /\ p x = true.
Proof. apply filter_In. Qed.

Lemma rev_nil_iff {A} (l : list A) : rev l = [] <-> l = [].
Proof.
  split; [|by intros ->].
  intros H. apply (f_equal (@rev A)) in H. by rewrite rev_involutive in H.
Qed.

Lemma Forall_rev_iff {A} (P : A -> Prop) (l : list A) : Forall P (rev l) <-> Forall P l.
Proof.
  split; [|apply Forall_rev].
  intros H. rewrite <-(rev_involutive l). by apply Forall_rev.
Qed.

(** [any(f(x) == k for x in l)]: a key occurs in a column. *)
Lemma existsb_key_iff {A K} `{EqDecision K} (f : A -> K) (l : list A) (k : K) :
  existsb (fun x => f x == k) l = true <-> k ∈ map f l.
Proof.
  rewrite existsb_exists, list_elem_of_In, in_map_iff.
  split; intros (x & ? & ?); exists x; split; try done; by case_bool_decide.
Qed.

Lemma existsb_key_false {A K} `{EqDecision K} (f : A -> K) (l : list A) (k : K) :
  existsb (fun x => f x == k) l = false <-> k ∉ map f l.
Proof. rewrite <-existsb_key_iff. destruct existsb; split; congruence. Qed.

Lemma head_opt_app_cons {A} (l : list A) x r :
  head_opt (l ++ x :: r) = Some (default x (head_opt l)).
Proof. by destruct l. Qed.

Lemma head_opt_Some {A} (l : list A) x : head_opt l = Some x -> exists tl, l = x :: tl.
Proof. destruct l; simpl; [discriminate|]. intros [= ->]. eauto. Qed.

Lemma head_opt_app_l {A} (l1 l2 : list A) x :
  head_opt l1 = Some x -> head_opt (l1 ++ l2) = Some x.
Proof. by destruct l1. Qed.

(** The first result of a list-monad computation, as backtracking finds it:
    if [l] starts with [x] and [f x] has a first result, that result comes
    first. *)
Lemma head_opt_bind {A B} (l : list A) (f : A -> list B) x v :
  head_opt l = Some x -> head_opt (f x) = Some v -> head_opt (l ≫= f) = Some v.
Proof.
  intros [tl ->]%head_opt_Some Hf. simpl. by apply head_opt_app_l.
Qed.

(** Proving a statement for each integer of a range by enumerating it. *)
Lemma Z_range_Forall (P : Z -> Prop) (lo : Z) (n : nat) :
  Forall P (map (fun i => lo + Z.of_nat i)%Z (seq 0 n)) ->
  forall x, (lo <= x < lo + Z.of_nat n)%Z -> P x.
Proof.
  intros H x Hx. rewrite Forall_forall in H. apply H, in_map_iff.
  exists (Z.to_nat (x - lo)). split; [lia|]. apply in_seq. lia.
Qed.

Ltac enumerate_range :=
  cbv [map seq]; repeat constructor.

Example join_two : join " " ["a"; "b"] = "a b".
Proof. reflexivity. Qed.

(** ** Generic lemmas on strings *)

Lemma string_length_append s1 s2 :
  String.length (s1 +s+ s2) = (String.length s1 + String.length s2)%nat.
Proof. induction s1 as [|c s1 IH]; simpl; [done|]. by rewrite IH. Qed.

(** Every string of a list is at most as long as their concatenation. *)
Lemma length_le_concat (l : list string) x :
  x ∈ l -> (String.length x <= String.length (foldr String.append "" l))%nat.
Proof.
  induction l as [|y l IH]; [by intros ?%not_elem_of_nil|].
  rewrite elem_of_cons. simpl. rewrite string_length_append. intros [->|Hx]; [lia|].
  specialize (IH Hx). lia.
Qed.
