(* ===== verification/PyStr.v ===== *)
(** * PyStr: Python [str] character classes used by the application

    A Python [str] is a sequence of Unicode code points.  The model
    represents it as a Rocq [string], one [ascii] per character, reading
    each byte as the code point U+0000..U+00FF (Latin-1).  On this range
    the predicates below coincide with CPython's: [is_space] is
    [str.isspace] (the set [str.strip()] removes), [c_isspace] is the
    C-level [Py_ISSPACE] that [int()] uses after its Unicode transform,
    and [is_decimal] is [str.isdecimal] ([\d] in a [re] pattern): the only
    decimal digits below U+0100 are '0'..'9'. *)

From S2P Require Import Prelude.


(** The code point of a character. *)
Definition code (c : ascii) : N := N_of_ascii c.

(** [str.isspace] on U+0000..U+00FF: TAB, LF, VT, FF, CR, the four
    information separators U+001C..U+001F, SPACE, NEL (U+0085) and
    NO-BREAK SPACE (U+00A0). *)
Definition is_space (c : ascii) : bool :=
  let n := code c in
  ((9 <=? n) && (n <=? 13))%N || ((28 <=? n) && (n <=? 32))%N
  || (n =? 133)%N || (n =? 160)%N.

(** [Py_ISSPACE] of pyctype.h: the C locale's [isspace]. *)
Definition c_isspace (c : ascii) : bool :=
  let n := code c in ((9 <=? n) && (n <=? 13))%N || (n =? 32)%N.

(** '0'..'9'. *)
Definition is_decimal (c : ascii) : bool :=
  let n := code c in ((48 <=? n) && (n <=? 57))%N.

(** The value of a decimal digit. *)
Definition digit_value (c : ascii) : Z := Z.of_N (code c - 48).

(** The character of a digit value 0..9. *)
Definition digit_char (d : Z) : ascii := ascii_of_N (Z.to_N d + 48).

(** [str.lstrip()] and [str.strip()] with no argument. *)
Fixpoint lstrip (s : list ascii) : list ascii :=
  match s with
  | c :: s' => if is_space c then lstrip s' else s
  | [] => []
  end.

Definition strip (s : list ascii) : list ascii := rev (lstrip (rev (lstrip s))).

(** The truth value of [s.strip()]: [s] has a non-whitespace character. *)
Definition strip_truthy (s : string) : bool :=
  negb (bool_decide (strip (list_ascii_of_string s) = [])).

(** ** Lemmas *)

Lemma lstrip_nil_iff s : lstrip s = [] <-> Forall (fun c => is_space c = true) s.
Proof.
  induction s as [|c s IH]; simpl.
  - split; constructor.
  - destruct (is_space c) eqn:Hc.
    + rewrite IH. split; [by constructor | by inversion 1].
    + split; [discriminate | inversion 1; congruence].
Qed.

Lemma lstrip_app_not_space s c r :
  Forall (fun c => is_space c = true) s -> is_space c = false ->
  lstrip (s ++ c :: r) = c :: r.
Proof. induction 1 as [|x s Hx _ IH]; simpl; [by intros -> | by rewrite Hx]. Qed.

Lemma lstrip_cons s c r : lstrip s = c :: r -> is_space c = false.
Proof.
  induction s as [|x s IH]; simpl; [discriminate|].
  destruct (is_space x) eqn:Hx; [done|]. by intros [= -> _].
Qed.

Lemma Forall_space_lstrip s :
  Forall (fun c => is_space c = true) (lstrip s) <-> lstrip s = [].
Proof.
  split; [|intros ->; constructor].
  destruct (lstrip s) as [|c r] eqn:E; [done|].
  inversion 1 as [|? ? Hc _]. by rewrite (lstrip_cons _ _ _ E) in Hc.
Qed.

(** [s.strip()] is empty exactly when every character is whitespace. *)
Lemma strip_nil_iff s : strip s = [] <-> Forall (fun c => is_space c = true) s.
Proof.
  unfold strip. rewrite rev_nil_iff, lstrip_nil_iff, Forall_rev_iff.
  rewrite Forall_space_lstrip. apply lstrip_nil_iff.
Qed.

(** The check [DataRequired] makes on a [str]: [s.strip()] is non-empty
    exactly when [s] has a character that is not whitespace. *)
Lemma strip_truthy_iff s :
  strip_truthy s = true <->
  ~ Forall (fun c => is_space c = true) (list_ascii_of_string s).
Proof.
  unfold strip_truthy. by rewrite negb_true_iff, bool_decide_eq_false, strip_nil_iff.
Qed.

Lemma is_decimal_digit_char (d : Z) : (0 <= d <= 9)%Z -> is_decimal (digit_char d) = true.
Proof.
  intros Hd. unfold is_decimal, code, digit_char.
  rewrite N_ascii_embedding by lia. apply andb_true_intro; split; apply N.leb_le; lia.
Qed.

Lemma digit_value_char (d : Z) : (0 <= d <= 9)%Z -> digit_value (digit_char d) = d.
Proof.
  intros Hd. unfold digit_value, code, digit_char.
  rewrite N_ascii_embedding by lia. lia.
Qed.

