(* ===== verification/PyInt.v ===== *)
(** * PyInt: Python's [int(str)], the [coerce=int] of the year and book fields

    [SelectField(coerce=int)] (src/app.py, lines 39, 46, 47 and 55) turns
    the submitted text into an integer with Python's built-in [int].  For a
    [str] argument CPython runs [PyLong_FromUnicodeObject]
    (Objects/longobject.c): [_PyUnicode_TransformDecimalAndSpaceToASCII]
    maps the string to ASCII, then [PyLong_FromString] parses it in base
    10 and the caller checks the whole buffer was consumed.  This file
    models those three steps over Latin-1 strings (see PyStr), including
    the limit of 4300 digits that CPython 3.11+ puts on decimal
    conversions ([sys.int_info.default_max_str_digits]). *)

From S2P Require Import Prelude PyStr.
From Stdlib Require Import DecimalString DecimalPos DecimalN DecimalZ.


(** The two ways [int(s)] raises [ValueError]. *)
Inductive int_error :=
| InvalidLiteral                    (* "invalid literal for int() with base 10" *)
| ExceedsDigitLimit (ndigits : nat). (* "Exceeds the limit (4300 digits) ..." *)

#[export] Instance int_error_eq_dec : EqDecision int_error.
Proof. solve_decision. Defined.

(** [sys.int_info.default_max_str_digits]. *)
Definition int_max_str_digits : nat := 4300.

(** [_PyUnicode_TransformDecimalAndSpaceToASCII]: an all-ASCII string is
    returned as it is; otherwise characters below U+007F are kept, Unicode
    whitespace becomes ' ', and the first other character becomes '?' and
    ends the string (no character of U+0080..U+00FF is a decimal digit). *)
Fixpoint transform_chars (s : list ascii) : list ascii :=
  match s with
  | [] => []
  | c :: s' =>
      if (code c <? 127)%N then c :: transform_chars s'
      else if is_space c then " "%char :: transform_chars s'
      else ["?"%char]
  end.

Definition transform_decimal_and_space (s : list ascii) : list ascii :=
  if forallb (fun c => (code c <? 128)%N) s then s else transform_chars s.

(** The C string [PyLong_FromString] sees: the buffer up to its first NUL. *)
Fixpoint c_string (s : list ascii) : list ascii :=
  match s with
  | [] => []
  | c :: s' => if (code c =? 0)%N then [] else c :: c_string s'
  end.

Fixpoint skip_c_spaces (s : list ascii) : list ascii :=
  match s with
  | c :: s' => if c_isspace c then skip_c_spaces s' else s
  | [] => []
  end.

(** The scanning loop of [PyLong_FromString]: collect the digits, allow
    single underscores between them; a second underscore in a row, or an
    underscore before the first non-digit ([prev == '_'] at loop exit), is
    an error.  Returns the digit values and the unscanned rest. *)
Fixpoint scan_digits (prev : ascii) (s : list ascii) : option (list Z * list ascii) :=
  match s with
  | c :: s' =>
      if is_decimal c then
        match scan_digits c s' with
        | Some (ds, r) => Some (digit_value c :: ds, r)
        | None => None
        end
      else if (c =? "_")%char then
        if (prev =? "_")%char then None else scan_digits c s'
      else if (prev =? "_")%char then None else Some ([], s)
  | [] => if (prev =? "_")%char then None else Some ([], [])
  end.

(** The value of a digit sequence, most significant first. *)
Definition horner (acc : Z) (ds : list Z) : Z :=
  fold_left (fun a d => 10 * a + d)%Z ds acc.

(** [PyLong_FromString(str, &end, 10)] on a NUL-free buffer: leading C
    whitespace, an optional sign, no leading underscore, the digits, the
    digit limit, at least one digit, trailing C whitespace and nothing
    else.  [Ok z] carries the value; the end pointer is then the end of
    the buffer. *)
Definition parse_sign (s : list ascii) : Z * list ascii :=
  match s with
  | "+"%char :: r => (1%Z, r)
  | "-"%char :: r => ((-1)%Z, r)
  | _ => (1%Z, s)
  end.

(** [str[0] == '_']: a literal may not start with an underscore. *)
Definition leading_underscore (s : list ascii) : bool :=
  match s with c :: _ => (c =? "_")%char | [] => false end.

(** The part of [PyLong_FromString] after the sign and the underscore
    test: scan, check the digit limit, require a digit, skip trailing
    whitespace and require the end of the string. *)
Definition digits_value (sign : Z) (s2 : list ascii) : result int_error Z :=
  match scan_digits "000"%char s2 with
  | None => Err InvalidLiteral
  | Some (ds, rest) =>
      if decide (int_max_str_digits < List.length ds)%nat
      then Err (ExceedsDigitLimit (List.length ds))
      else if decide (ds = []) then Err InvalidLiteral
      else if decide (skip_c_spaces rest = []) then Ok (sign * horner 0 ds)%Z
      else Err InvalidLiteral
  end.

Definition pylong_from_string (s : list ascii) : result int_error Z :=
  let '(sign, s2) := parse_sign (skip_c_spaces s) in
  if leading_underscore s2 then Err InvalidLiteral else digits_value sign s2.

(** [PyLong_FromUnicodeObject(u, 10)]: the parse must end at the end of the
    transformed buffer, so an embedded NUL makes any literal invalid. *)
Definition int_of_chars (s : list ascii) : result int_error Z :=
  let a := transform_decimal_and_space s in
  match pylong_from_string (c_string a) with
  | Err e => Err e
  | Ok z => if decide (c_string a = a) then Ok z else Err InvalidLiteral
  end.

(** Python's [int(s)] for a [str] [s]. *)
Definition py_int (s : string) : result int_error Z :=
  int_of_chars (list_ascii_of_string s).

(** Python's [str(z)] (and [repr]) of an [int]. *)
Definition py_str_of_int (z : Z) : string := NilZero.string_of_int (Z.to_int z).

(** The number of decimal digits of [z]: [len(str(abs(z)))]. *)
Definition nb_digits (z : Z) : nat := String.length (py_str_of_int (Z.abs z)).

(** The characters of a decimal numeral. *)
Definition uint_chars (u : Decimal.uint) : list ascii :=
  list_ascii_of_string (NilEmpty.string_of_uint u).

Example py_int_plain : py_int "42" = Ok 42%Z.
Proof. reflexivity. Qed.
Example py_int_padded : py_int " +0_2 " = Ok 2%Z.
Proof. reflexivity. Qed.
Example py_int_nbsp : py_int (String (ascii_of_N 160) "3") = Ok 3%Z.
Proof. reflexivity. Qed.
Example py_int_double_underscore : py_int "1__0" = Err InvalidLiteral.
Proof. reflexivity. Qed.
Example py_int_float : py_int "2.0" = Err InvalidLiteral.
Proof. reflexivity. Qed.
Example py_int_empty : py_int "" = Err InvalidLiteral.
Proof. reflexivity. Qed.
Example py_int_separator : py_int (String (ascii_of_N 28) "5") = Err InvalidLiteral.
Proof. reflexivity. Qed.

(** ** Lemmas on characters *)

Lemma decimal_not_underscore c : is_decimal c = true -> (c =? "_")%char = false.
Proof. intros H. apply Ascii.eqb_neq. intros ->. discriminate H. Qed.

Lemma decimal_not_c_space c : is_decimal c = true -> c_isspace c = false.
Proof.
  unfold is_decimal, c_isspace. intros [H1 H2]%andb_prop.
  apply N.leb_le in H1. apply N.leb_le in H2.
  apply orb_false_intro; [apply andb_false_intro2; apply N.leb_gt | apply N.eqb_neq]; lia.
Qed.

Lemma decimal_plain c : is_decimal c = true -> (0 < code c < 128)%N.
Proof. unfold is_decimal. intros [H1 H2]%andb_prop. apply N.leb_le in H1, H2. lia. Qed.

Lemma parse_sign_decimal c r : is_decimal c = true -> parse_sign (c :: r) = (1%Z, c :: r).
Proof. destruct c as [[] [] [] [] [] [] [] []]; intros H; try reflexivity; discriminate H. Qed.

#[export] Hint Resolve decimal_not_underscore decimal_not_c_space decimal_plain : pylib.

(** ** Lemmas on the parser *)

Lemma horner_cons acc d ds : horner acc (d :: ds) = horner (10 * acc + d)%Z ds.
Proof. reflexivity. Qed.

(** On a run of digits the scanning loop returns all of them. *)
Lemma scan_digits_decimal prev cs :
  (prev =? "_")%char = false -> Forall (fun c => is_decimal c = true) cs ->
  scan_digits prev cs = Some (map digit_value cs, []).
Proof.
  intros Hp Hcs. revert prev Hp.
  induction Hcs as [|c cs Hc _ IH]; intros prev Hp; simpl; [by rewrite Hp|].
  rewrite Hc, IH; auto with pylib.
Qed.

Lemma forallb_plain cs :
  Forall (fun c => (0 < code c < 128)%N) cs -> forallb (fun c => (code c <? 128)%N) cs = true.
Proof.
  intros H. apply forallb_forall. intros c Hin.
  rewrite Forall_forall in H. specialize (H c Hin). apply N.ltb_lt. lia.
Qed.

Lemma c_string_plain cs : Forall (fun c => (0 < code c < 128)%N) cs -> c_string cs = cs.
Proof.
  induction 1 as [|c cs Hc _ IH]; simpl; [done|].
  destruct (N.eqb_spec (code c) 0); [lia|]. by rewrite IH.
Qed.

(** On a string of characters U+0001..U+007F, [int] is [PyLong_FromString]. *)
Lemma int_of_chars_plain cs :
  Forall (fun c => (0 < code c < 128)%N) cs -> int_of_chars cs = pylong_from_string cs.
Proof.
  intros H. unfold int_of_chars, transform_decimal_and_space.
  rewrite forallb_plain, c_string_plain by done.
  destruct (pylong_from_string cs); [by rewrite decide_True|done].
Qed.

(** The body of [PyLong_FromString] on a non-empty run of at most 4300
    digits. *)
Lemma digits_value_decimal sign cs :
  cs <> [] -> Forall (fun c => is_decimal c = true) cs ->
  (List.length cs <= int_max_str_digits)%nat ->
  digits_value sign cs = Ok (sign * horner 0 (map digit_value cs))%Z.
Proof.
  intros Hne Hcs Hlen. unfold digits_value.
  rewrite scan_digits_decimal by done.
  rewrite decide_False by (rewrite length_map; lia).
  rewrite decide_False by (by destruct cs).
  by rewrite decide_True.
Qed.

Lemma leading_underscore_decimal c cs :
  is_decimal c = true -> leading_underscore (c :: cs) = false.
Proof. apply decimal_not_underscore. Qed.

Lemma pylong_digits cs :
  cs <> [] -> Forall (fun c => is_decimal c = true) cs ->
  (List.length cs <= int_max_str_digits)%nat ->
  pylong_from_string cs = Ok (horner 0 (map digit_value cs)).
Proof.
  intros Hne Hcs Hlen. destruct cs as [|c cs']; [done|].
  inversion Hcs as [|? ? Hc _]; subst.
  unfold pylong_from_string. simpl. rewrite (decimal_not_c_space c Hc).
  rewrite (parse_sign_decimal c cs' Hc), (leading_underscore_decimal c cs' Hc).
  rewrite digits_value_decimal by done. by rewrite Z.mul_1_l.
Qed.

Lemma pylong_neg_digits cs :
  cs <> [] -> Forall (fun c => is_decimal c = true) cs ->
  (List.length cs <= int_max_str_digits)%nat ->
  pylong_from_string ("-"%char :: cs) = Ok (- horner 0 (map digit_value cs))%Z.
Proof.
  intros Hne Hcs Hlen. unfold pylong_from_string. simpl.
  destruct cs as [|c cs']; [done|]. inversion Hcs; subst.
  rewrite leading_underscore_decimal by done.
  rewrite digits_value_decimal by done.
  set (h := horner 0 (map digit_value (c :: cs'))). f_equal; lia.
Qed.

(** ** Python's [str(int)] and the round trip *)

Lemma uint_chars_decimal u : Forall (fun c => is_decimal c = true) (uint_chars u).
Proof. unfold uint_chars. induction u; simpl; constructor; done. Qed.

Ltac horner_digit_step IH :=
  rewrite horner_cons, <-IH; f_equal;
  match goal with
  | |- context [digit_value ?c] =>
      let v := eval vm_compute in (digit_value c) in change (digit_value c) with v
  end; lia.

Lemma horner_uint_acc u p :
  horner (Z.pos p) (map digit_value (uint_chars u)) = Z.of_N (N.pos (Pos.of_uint_acc u p)).
Proof.
  unfold uint_chars. revert p.
  induction u as [|u IH|u IH|u IH|u IH|u IH|u IH|u IH|u IH|u IH|u IH];
    intros p; cbn [NilEmpty.string_of_uint list_ascii_of_string map Pos.of_uint_acc];
    [done| horner_digit_step IH ..].
Qed.

(** The digits of [u] read back by [PyLong_FromString]'s accumulation are
    Stdlib's [N.of_uint u]. *)
Lemma horner_uint u : horner 0 (map digit_value (uint_chars u)) = Z.of_N (Pos.of_uint u).
Proof.
  induction u as [|u IH|u IH|u IH|u IH|u IH|u IH|u IH|u IH|u IH|u IH]; [done|..];
    unfold uint_chars in *;
    cbn [NilEmpty.string_of_uint list_ascii_of_string map Pos.of_uint]; rewrite horner_cons;
    [rewrite <-IH; reflexivity | rewrite <-horner_uint_acc; reflexivity ..].
Qed.

Lemma to_uint_not_nil p : Pos.to_uint p <> Decimal.Nil.
Proof. intros H. pose proof (DecimalPos.Unsigned.of_to p) as E. by rewrite H in E. Qed.

Lemma length_list_ascii_of_string s : List.length (list_ascii_of_string s) = String.length s.
Proof. induction s; simpl; congruence. Qed.

Lemma py_str_of_pos p :
  py_str_of_int (Z.pos p) = NilEmpty.string_of_uint (Pos.to_uint p).
Proof.
  unfold py_str_of_int. simpl. pose proof (to_uint_not_nil p).
  by destruct (Pos.to_uint p).
Qed.

Lemma py_str_of_neg p :
  py_str_of_int (Z.neg p) = String "-" (NilEmpty.string_of_uint (Pos.to_uint p)).
Proof.
  unfold py_str_of_int. simpl. pose proof (to_uint_not_nil p).
  by destruct (Pos.to_uint p).
Qed.

Lemma uint_chars_pos p :
  uint_chars (Pos.to_uint p) <> [] /\
  horner 0 (map digit_value (uint_chars (Pos.to_uint p))) = Z.pos p.
Proof.
  split.
  - pose proof (to_uint_not_nil p). unfold uint_chars. by destruct (Pos.to_uint p).
  - by rewrite horner_uint, DecimalPos.Unsigned.of_to.
Qed.

Lemma decimal_chars_plain cs :
  Forall (fun c => is_decimal c = true) cs -> Forall (fun c => (0 < code c < 128)%N) cs.
Proof. rewrite !Forall_forall. intros H c Hc. auto with pylib. Qed.

Lemma minus_plain : (0 < code "-" < 128)%N.
Proof. split; reflexivity. Qed.

(** [int(str(z)) == z] below the digit limit. *)
Lemma py_int_py_str (z : Z) :
  (nb_digits z <= int_max_str_digits)%nat -> py_int (py_str_of_int z) = Ok z.
Proof.
  unfold nb_digits. intros Hn.
  destruct z as [|p|p]; [reflexivity| |]; change (Z.abs _) with (Z.pos p) in Hn;
    destruct (uint_chars_pos p) as [Hne Hv]; pose proof (uint_chars_decimal (Pos.to_uint p)) as Hd;
    unfold py_int.
  - rewrite py_str_of_pos in *. change (list_ascii_of_string _) with (uint_chars (Pos.to_uint p)).
    rewrite int_of_chars_plain by (by apply decimal_chars_plain).
    rewrite pylong_digits; [by rewrite Hv|done|done|].
    by unfold uint_chars; rewrite length_list_ascii_of_string.
  - rewrite py_str_of_pos in Hn. rewrite py_str_of_neg.
    change (list_ascii_of_string _) with ("-"%char :: uint_chars (Pos.to_uint p)).
    rewrite int_of_chars_plain by (constructor; [apply minus_plain | by apply decimal_chars_plain]).
    rewrite pylong_neg_digits; [by rewrite Hv|done|done|].
    by unfold uint_chars; rewrite length_list_ascii_of_string.
Qed.

(** ** Properties of [int] *)

(** (C17) [int(str(z)) == z] for every integer [z] whose decimal
    representation has at most [sys.int_info.default_max_str_digits] = 4300
    digits: the printed form of an integer is a literal [int] accepts and
    reads back exactly. *)
Theorem py_int_of_py_str (z : Z) :
  (nb_digits z <= int_max_str_digits)%nat -> py_int (py_str_of_int z) = Ok z.
Proof. apply py_int_py_str. Qed.

Example py_int_of_py_str_witness :
  (nb_digits (-2024) <= int_max_str_digits)%nat /\ py_int (py_str_of_int (-2024)) = Ok (-2024)%Z.
Proof. split; [vm_compute; lia | apply py_int_of_py_str; vm_compute; lia]. Defined.

(** (C18) A run of more than 4300 decimal digits is rejected
    with the digit-limit [ValueError], whatever its value. *)
Theorem py_int_digit_limit (s : string) :
  Forall (fun c => is_decimal c = true) (list_ascii_of_string s) ->
  (int_max_str_digits < String.length s)%nat ->
  py_int s = Err (ExceedsDigitLimit (String.length s)).
Proof.
  intros Hd Hlen. unfold py_int. rewrite <-length_list_ascii_of_string in *.
  rewrite int_of_chars_plain by (by apply decimal_chars_plain).
  destruct (list_ascii_of_string s) as [|c cs] eqn:E; [simpl in Hlen; lia|].
  inversion Hd as [|? ? Hc _]; subst.
  unfold pylong_from_string. simpl. rewrite (decimal_not_c_space c Hc).
  rewrite (parse_sign_decimal c cs Hc), (leading_underscore_decimal c cs Hc).
  unfold digits_value. rewrite scan_digits_decimal by done.
  rewrite decide_True by (rewrite length_map; done). by rewrite length_map.
Qed.

Example py_int_digit_limit_witness :
  let s := string_of_list_ascii (repeat "7"%char 4301) in
  Forall (fun c => is_decimal c = true) (list_ascii_of_string s) /\
  (int_max_str_digits < String.length s)%nat /\
  py_int s = Err (ExceedsDigitLimit 4301).
Proof.
  intros s. assert (Hd : Forall (fun c => is_decimal c = true) (list_ascii_of_string s)).
  { unfold s. rewrite list_ascii_of_string_of_list_ascii. apply Forall_forall.
    intros c Hc. apply repeat_spec in Hc. by subst. }
  assert (Hl : String.length s = 4301%nat) by (unfold s; vm_compute; reflexivity).
  split; [done|split; [rewrite Hl; vm_compute; lia|]].
  rewrite <-Hl. apply py_int_digit_limit; [done|rewrite Hl; vm_compute; lia].
Defined.

