(* ===== verification/PyIntSpec.v ===== *)
(** * PyIntSpec: the integer literals [int()] accepts, as a grammar

    [PyLong_FromString] (modelled in PyInt by [pylong_from_string]) is a
    hand-written scanner.  This file states, as an inductive grammar, the
    language the Python documentation gives for [int(x)] in base 10:
    optional whitespace, an optional sign, decimal digits with single
    underscores allowed between digits, optional whitespace; CPython 3.11+
    adds the limit of 4300 digits.  The main theorem is that the scanner
    accepts exactly these literals, with the value the grammar gives, so
    the year and book fields of src/app.py (lines 39, 46, 47 and 55)
    accept exactly the texts of this grammar. *)

From S2P Require Import Prelude PyStr PyInt.


(** A run of digits with single underscores between digits, and the digit
    values it denotes: [digit (["_"] digit)*]. *)
Inductive numeral : list ascii -> list Z -> Prop :=
| numeral_digit c :
    is_decimal c = true -> numeral [c] [digit_value c]
| numeral_cons c s ds :
    is_decimal c = true -> numeral s ds -> numeral (c :: s) (digit_value c :: ds)
| numeral_sep c s ds :
    is_decimal c = true -> numeral s ds -> numeral (c :: "_"%char :: s) (digit_value c :: ds).

(** The optional sign and its factor. *)
Inductive sign_part : list ascii -> Z -> Prop :=
| sign_none : sign_part [] 1
| sign_plus : sign_part ["+"%char] 1
| sign_minus : sign_part ["-"%char] (-1).

(** A C whitespace run, as [Py_ISSPACE] tests it. *)
Definition c_spaces (w : list ascii) : Prop := Forall (fun c => c_isspace c = true) w.

(** The base-10 literals [int()] accepts and their values. *)
Definition int_literal (s : list ascii) (z : Z) : Prop :=
  exists w1 sg sv body ds w2,
    s = w1 ++ sg ++ body ++ w2 /\ c_spaces w1 /\ sign_part sg sv /\ numeral body ds /\
    (List.length ds <= int_max_str_digits)%nat /\ c_spaces w2 /\ z = (sv * horner 0 ds)%Z.

(** ** Lemmas on whitespace *)

Lemma skip_c_spaces_split s : exists w, s = w ++ skip_c_spaces s /\ c_spaces w.
Proof.
  unfold c_spaces. induction s as [|c s (w & Hs & Hw)]; [by exists []|]. simpl.
  destruct (c_isspace c) eqn:Hc.
  - exists (c :: w). simpl. rewrite <-Hs. split; [done|by constructor].
  - by exists [].
Qed.

Lemma skip_c_spaces_app w t : c_spaces w -> skip_c_spaces (w ++ t) = skip_c_spaces t.
Proof. induction 1 as [|c w Hc _ IH]; simpl; [done|]. by rewrite Hc. Qed.

Lemma skip_c_spaces_stop c t : c_isspace c = false -> skip_c_spaces (c :: t) = c :: t.
Proof. simpl. by intros ->. Qed.

Lemma skip_c_spaces_nil_iff s : skip_c_spaces s = [] <-> c_spaces s.
Proof.
  unfold c_spaces. induction s as [|c s IH]; simpl; [split; constructor|].
  destruct (c_isspace c) eqn:Hc.
  - rewrite IH. split; [by constructor | by inversion 1].
  - split; [discriminate | inversion 1; congruence].
Qed.

(** ** Lemmas on the sign *)

Lemma parse_sign_split t sv t2 :
  parse_sign t = (sv, t2) -> exists sg, t = sg ++ t2 /\ sign_part sg sv.
Proof.
  destruct t as [|c r]; simpl; [intros [= <- <-]; exists []; split; [done|constructor]|].
  destruct c as [[] [] [] [] [] [] [] []]; simpl; intros [= <- <-];
    first [ exists []; split; [done|constructor]
          | exists ["+"%char]; split; [done|constructor]
          | exists ["-"%char]; split; [done|constructor] ].
Qed.

Lemma parse_sign_part sg sv c t :
  sign_part sg sv -> is_decimal c = true -> parse_sign (sg ++ c :: t) = (sv, c :: t).
Proof. destruct 1; intros Hc; [by apply parse_sign_decimal | done | done]. Qed.

(** ** The scanning loop against the grammar *)

Lemma numeral_head body ds :
  numeral body ds -> exists c b, body = c :: b /\ is_decimal c = true /\ ds <> [].
Proof. destruct 1; eexists _, _; done. Qed.

(** What the loop scanned, when it stops: after a digit [prev] the digits
    scanned continue a numeral that starts with [prev]; after an
    underscore they form a numeral of their own. *)
Lemma scan_digits_numeral s : forall prev ds r,
  scan_digits prev s = Some (ds, r) ->
  ((prev =? "_")%char = true -> exists body, s = body ++ r /\ numeral body ds) /\
  (is_decimal prev = true ->
   exists body, s = body ++ r /\ numeral (prev :: body) (digit_value prev :: ds)).
Proof.
  induction s as [|x s IH]; intros prev ds r; simpl.
  - destruct (prev =? "_")%char eqn:Hp; [discriminate|]. intros [= <- <-].
    split; [done|]. intros Hd. exists []. split; [done|by constructor].
  - destruct (is_decimal x) eqn:Hx.
    + destruct (scan_digits x s) as [[ds' r']|] eqn:E; [|discriminate]. intros [= <- <-].
      destruct (IH _ _ _ E) as [_ IHd]. destruct (IHd Hx) as (b & -> & Hb).
      split; [intros _ | intros Hd]; exists (x :: b); (split; [done|]); [done|by apply numeral_cons].
    + destruct (x =? "_")%char eqn:Hu.
      * apply Ascii.eqb_eq in Hu as ->.
        destruct (prev =? "_")%char eqn:Hp; [discriminate|]. intros E.
        destruct (IH _ _ _ E) as [IHu _]. destruct (IHu eq_refl) as (b & -> & Hb).
        split; [done|]. intros Hd. exists ("_"%char :: b). split; [done|by constructor].
      * destruct (prev =? "_")%char eqn:Hp; [discriminate|]. intros [= <- <-].
        split; [done|]. intros Hd. exists []. split; [done|by constructor].
Qed.

(** Conversely the loop scans a whole numeral and stops at a character
    that is neither a digit nor an underscore. *)
Lemma numeral_scan_digits body ds r :
  numeral body ds ->
  (forall x r', r = x :: r' -> is_decimal x = false /\ (x =? "_")%char = false) ->
  forall prev, scan_digits prev (body ++ r) = Some (ds, r).
Proof.
  intros Hn Hr. induction Hn as [c Hc|c s ds Hc _ IH|c s ds Hc _ IH]; intros prev; simpl; rewrite Hc.
  - destruct r as [|x r']; simpl.
    + by rewrite decimal_not_underscore.
    + destruct (Hr x r' eq_refl) as [-> ->]. by rewrite decimal_not_underscore.
  - by rewrite IH.
  - by rewrite decimal_not_underscore, IH.
Qed.

Lemma c_spaces_stop w :
  c_spaces w -> forall x r', w = x :: r' -> is_decimal x = false /\ (x =? "_")%char = false.
Proof.
  intros Hw x r' ->. inversion Hw as [|? ? Hx _]; subst.
  split; [destruct (is_decimal x) eqn:Hd; [|done]; by rewrite decimal_not_c_space in Hx|].
  apply Ascii.eqb_neq. intros ->. discriminate Hx.
Qed.

(** ** Both directions *)

Lemma pylong_from_string_literal s z : pylong_from_string s = Ok z -> int_literal s z.
Proof.
  unfold pylong_from_string. destruct (skip_c_spaces_split s) as (w1 & Hs & Hw1).
  destruct (parse_sign (skip_c_spaces s)) as [sv s2] eqn:Hsg.
  destruct (parse_sign_split _ _ _ Hsg) as (sg & Hs2 & Hsv).
  destruct s2 as [|c s2']; [done|]. simpl. destruct (c =? "_")%char eqn:Hu; [done|].
  unfold digits_value. cbn [scan_digits].
  destruct (is_decimal c) eqn:Hc; [|by rewrite Hu].
  destruct (scan_digits c s2') as [[ds' r]|] eqn:E; [|done].
  destruct (proj2 (scan_digits_numeral _ _ _ _ E) Hc) as (b & -> & Hb).
  repeat case_decide; intros; simplify_eq.
  exists w1, sg, sv, (c :: b), (digit_value c :: ds'), r.
  repeat split; try done; [| lia | by apply skip_c_spaces_nil_iff].
  rewrite Hs at 1. by rewrite Hs2.
Qed.

Lemma int_literal_pylong_from_string s z : int_literal s z -> pylong_from_string s = Ok z.
Proof.
  intros (w1 & sg & sv & body & ds & w2 & -> & Hw1 & Hsv & Hn & Hlen & Hw2 & ->).
  destruct (numeral_head _ _ Hn) as (c & b & -> & Hc & Hds).
  change ((c :: b) ++ w2) with (c :: b ++ w2).
  unfold pylong_from_string. rewrite skip_c_spaces_app by done.
  assert (Hstop : skip_c_spaces (sg ++ c :: b ++ w2) = sg ++ c :: b ++ w2).
  { destruct Hsv; simpl; [by rewrite decimal_not_c_space | done | done]. }
  rewrite Hstop, (parse_sign_part _ _ c (b ++ w2) Hsv Hc). simpl.
  rewrite decimal_not_underscore by done. unfold digits_value.
  change (c :: b ++ w2) with ((c :: b) ++ w2).
  rewrite (numeral_scan_digits (c :: b) ds w2 Hn (c_spaces_stop _ Hw2)).
  rewrite decide_False by lia. rewrite decide_False by done.
  by rewrite decide_True by (by apply skip_c_spaces_nil_iff).
Qed.

Lemma pylong_from_string_iff s z : pylong_from_string s = Ok z <-> int_literal s z.
Proof. split; [apply pylong_from_string_literal | apply int_literal_pylong_from_string]. Qed.

(** ** [int()] on the submitted text *)

(** (C29) On a text of characters U+0001..U+007F, [int(s)] returns [z]
    exactly when [s] is whitespace, an optional sign, digits with single
    underscores between them (at most 4300 digits) and whitespace, and [z]
    is the signed value of the digits. *)
Theorem py_int_grammar (s : string) (z : Z) :
  Forall (fun c => (0 < code c < 128)%N) (list_ascii_of_string s) ->
  py_int s = Ok z <-> int_literal (list_ascii_of_string s) z.
Proof. intros Hplain. unfold py_int. rewrite int_of_chars_plain by done. apply pylong_from_string_iff. Qed.

Example py_int_grammar_witness :
  Forall (fun c => (0 < code c < 128)%N) (list_ascii_of_string " -1_000 ") /\
  (py_int " -1_000 " = Ok (-1000)%Z <-> int_literal (list_ascii_of_string " -1_000 ") (-1000)%Z).
Proof.
  assert (H : Forall (fun c => (0 < code c < 128)%N) (list_ascii_of_string " -1_000 "))
    by decide_prop.
  split; [exact H | exact (py_int_grammar " -1_000 " (-1000)%Z H)].
Defined.
