(* ===== verification/PyDate.v ===== *)
(** * PyDate: the [DateField] parse, [datetime.strptime(s, "%Y-%m-%d").date()]

    [BookBorrowForm.borrow_date] (src/app.py, line 48) is a WTForms
    [DateField] with its default format "%Y-%m-%d".  It parses the
    submitted text with CPython's [_strptime]: the format is compiled to
    the regular expression
      (?P<Y>\d\d\d\d)-(?P<m>1[0-2]|0[1-9]|[1-9])-(?P<d>3[01]|[12]\d|0[1-9]|[1-9]| [1-9])
    which [re.match] tries at the start of the string with leftmost,
    priority-ordered backtracking; a match that stops before the end of
    the string raises "unconverted data remains"; the groups are read
    with [int]; and [datetime.date(year, month, day)] checks the fields
    ([_check_date_fields]: year in 1..9999, month in 1..12, day in
    1..days in that month).

    The matcher is modelled as a function returning every match in
    priority order (a list, the backtracking search flattened), and
    [re.match] takes the first. *)

From S2P Require Import Prelude PyStr PyInt.


(** [datetime.date]: a proleptic Gregorian date. *)
Record date := mkDate { date_year : Z; date_month : Z; date_day : Z }.

#[export] Instance date_eq_dec : EqDecision date.
Proof. solve_decision. Defined.

(** The [ValueError]s of the parse. *)
Inductive date_error :=
| NoMatch             (* "time data ... does not match format '%Y-%m-%d'" *)
| UnconvertedData     (* "unconverted data remains: ..." *)
| YearOutOfRange      (* "year 0 is out of range" *)
| MonthOutOfRange     (* "month must be in 1..12" *)
| DayOutOfRange.      (* "day is out of range for month" *)

#[export] Instance date_error_eq_dec : EqDecision date_error.
Proof. solve_decision. Defined.

Definition MINYEAR : Z := 1.
Definition MAXYEAR : Z := 9999.

(** [_is_leap]. *)
Definition is_leap (y : Z) : bool :=
  ((y mod 4 =? 0) && (negb (y mod 100 =? 0) || (y mod 400 =? 0)))%Z.

(** [_days_in_month] with its table [_DAYS_IN_MONTH]. *)
Definition days_in_month (y m : Z) : Z :=
  if ((m =? 2) && is_leap y)%Z then 29
  else nth (Z.to_nat m) [-1; 31; 28; 31; 30; 31; 30; 31; 31; 30; 31; 30; 31]%Z 0%Z.

(** [_check_date_fields], in its order of tests. *)
Definition check_date_fields (y m d : Z) : result date_error date :=
  if decide (MINYEAR <= y <= MAXYEAR)%Z then
    if decide (1 <= m <= 12)%Z then
      if decide (1 <= d <= days_in_month y m)%Z then Ok (mkDate y m d)
      else Err DayOutOfRange
    else Err MonthOutOfRange
  else Err YearOutOfRange.

(** The dates [datetime.date] accepts. *)
Definition valid_date (d : date) : Prop :=
  (MINYEAR <= date_year d <= MAXYEAR)%Z /\ (1 <= date_month d <= 12)%Z /\
  (1 <= date_day d <= days_in_month (date_year d) (date_month d))%Z.

#[export] Instance valid_date_dec d : Decision (valid_date d).
Proof. unfold valid_date. apply _. Defined.

(** ** The regular expression of "%Y-%m-%d" *)

(** A match of a group: the matched text and the rest of the input. *)
Definition matches := list (list ascii * list ascii).

(** A character class [[lo-hi]]. *)
Definition in_class (lo hi c : ascii) : bool := ((code lo <=? code c) && (code c <=? code hi))%N.

(** [\d\d\d\d]. *)
Definition re_Y (s : list ascii) : matches :=
  match s with
  | a :: b :: c :: d :: r =>
      if forallb is_decimal [a; b; c; d] then [([a; b; c; d], r)] else []
  | _ => []
  end.

(** A two-character alternative [x[lo-hi]]. *)
Definition re_pair (x lo hi : ascii) (s : list ascii) : matches :=
  match s with
  | c1 :: c2 :: r => if ((c1 =? x)%char && in_class lo hi c2) then [([c1; c2], r)] else []
  | _ => []
  end.

(** A one-character alternative [[lo-hi]]. *)
Definition re_one (lo hi : ascii) (s : list ascii) : matches :=
  match s with
  | c :: r => if in_class lo hi c then [([c], r)] else []
  | [] => []
  end.

(** [1[0-2]|0[1-9]|[1-9]]. *)
Definition re_m (s : list ascii) : matches :=
  re_pair "1" "0" "2" s ++ re_pair "0" "1" "9" s ++ re_one "1" "9" s.

(** [3[01]|[12]\d|0[1-9]|[1-9]| [1-9]]. *)
Definition re_d (s : list ascii) : matches :=
  re_pair "3" "0" "1" s ++ re_pair "1" "0" "9" s ++ re_pair "2" "0" "9" s
  ++ re_pair "0" "1" "9" s ++ re_one "1" "9" s ++ re_pair " " "1" "9" s.

(** A literal character of the format. *)
Definition re_lit (x : ascii) (s : list ascii) : list (unit * list ascii) :=
  match s with c :: r => if (c =? x)%char then [(tt, r)] else [] | [] => [] end.

(** Every match of the whole pattern, in the order backtracking finds them. *)
Definition format_regex_all (s : list ascii) : list (list ascii * list ascii * list ascii * list ascii) :=
  '(yt, r1) ← re_Y s;
  '(_, r2) ← re_lit "-" r1;
  '(mt, r3) ← re_m r2;
  '(_, r4) ← re_lit "-" r3;
  '(dt, r5) ← re_d r4;
  [(yt, mt, dt, r5)].

(** [format_regex.match(data_string)]. *)
Definition format_regex_match (s : list ascii) :=
  head_opt (format_regex_all s).

(** [_strptime(data_string, "%Y-%m-%d")] followed by [.date()]. *)
Definition strptime_ymd (s : list ascii) : result date_error date :=
  match format_regex_match s with
  | None => Err NoMatch
  | Some (yt, mt, dt, rest) =>
      if decide (rest = []) then
        match int_of_chars yt, int_of_chars mt, int_of_chars dt with
        | Ok y, Ok m, Ok d => check_date_fields y m d
        | _, _, _ => Err NoMatch
        end
      else Err UnconvertedData
  end.

(** [date.isoformat()], i.e. "%04d-%02d-%02d": [zero_pad k v] is the last [k]
    decimal digits of [v], zero-padded. *)
Fixpoint zero_pad (k : nat) (v : Z) : list ascii :=
  match k with
  | O => []
  | S k' => zero_pad k' (v / 10) ++ [digit_char (v mod 10)]
  end.

Definition isoformat (d : date) : list ascii :=
  zero_pad 4 (date_year d) ++ "-"%char :: zero_pad 2 (date_month d)
  ++ "-"%char :: zero_pad 2 (date_day d).

(** ** Examples of the parse *)

Example strptime_iso : strptime_ymd (list_ascii_of_string "2024-01-10") = Ok (mkDate 2024 1 10).
Proof. reflexivity. Qed.
Example strptime_short : strptime_ymd (list_ascii_of_string "2024-1-5") = Ok (mkDate 2024 1 5).
Proof. reflexivity. Qed.
Example strptime_space_day : strptime_ymd (list_ascii_of_string "2024-01- 5") = Ok (mkDate 2024 1 5).
Proof. reflexivity. Qed.
Example strptime_feb29 : strptime_ymd (list_ascii_of_string "2023-02-29") = Err DayOutOfRange.
Proof. reflexivity. Qed.
Example strptime_leap : strptime_ymd (list_ascii_of_string "2000-02-29") = Ok (mkDate 2000 2 29).
Proof. reflexivity. Qed.
Example strptime_year0 : strptime_ymd (list_ascii_of_string "0000-01-01") = Err YearOutOfRange.
Proof. reflexivity. Qed.
Example strptime_day32 : strptime_ymd (list_ascii_of_string "2024-01-32") = Err UnconvertedData.
Proof. reflexivity. Qed.
Example strptime_slash : strptime_ymd (list_ascii_of_string "2024/01/10") = Err NoMatch.
Proof. reflexivity. Qed.

(** ** Lemmas *)

Lemma check_date_fields_Ok y m d dt :
  check_date_fields y m d = Ok dt <-> dt = mkDate y m d /\ valid_date dt.
Proof.
  unfold check_date_fields, valid_date.
  repeat case_decide; split; intros H'; simplify_eq/=;
    first [ by split | by destruct H' as [-> _]
          | destruct H' as [-> (? & ? & ?)]; simpl in *; lia ].
Qed.

Lemma is_decimal_digit_mod v : is_decimal (digit_char (v mod 10)) = true.
Proof. apply is_decimal_digit_char. pose proof (Z.mod_pos_bound v 10). lia. Qed.

Lemma digit_value_mod v : digit_value (digit_char (v mod 10)) = (v mod 10)%Z.
Proof. apply digit_value_char. pose proof (Z.mod_pos_bound v 10). lia. Qed.

Lemma zero_pad_decimal k v : Forall (fun c => is_decimal c = true) (zero_pad k v).
Proof.
  revert v. induction k as [|k IH]; intros v; simpl; [constructor|].
  apply Forall_app. split; [apply IH|]. constructor; [apply is_decimal_digit_mod|constructor].
Qed.

Lemma length_zero_pad k v : List.length (zero_pad k v) = k.
Proof. revert v. induction k; intros; simpl; [done|]. rewrite length_app, IHk. simpl. lia. Qed.

Lemma horner_snoc acc ds d : horner acc (ds ++ [d]) = (10 * horner acc ds + d)%Z.
Proof. unfold horner. by rewrite fold_left_app. Qed.

Lemma horner_zero_pad k v :
  horner 0 (map digit_value (zero_pad k v)) = (v mod 10 ^ Z.of_nat k)%Z.
Proof.
  revert v. induction k as [|k IH]; intros v; [simpl; by rewrite Z.mod_1_r|].
  cbn [zero_pad]. rewrite map_app. cbn [map]. rewrite horner_snoc, IH, digit_value_mod.
  rewrite Nat2Z.inj_succ, Z.pow_succ_r by lia.
  rewrite Z.rem_mul_r; [lia|lia|]. apply Z.pow_pos_nonneg; lia.
Qed.

(** [int] reads a zero-padded field back. *)
Lemma int_of_chars_zero_pad k v :
  (0 < k <= int_max_str_digits)%nat -> int_of_chars (zero_pad k v) = Ok (v mod 10 ^ Z.of_nat k)%Z.
Proof.
  intros Hk. pose proof (zero_pad_decimal k v) as Hd.
  rewrite int_of_chars_plain by (by apply decimal_chars_plain).
  rewrite pylong_digits; [by rewrite horner_zero_pad| |done|rewrite length_zero_pad; lia].
  intros E. apply (f_equal (@List.length ascii)) in E. rewrite length_zero_pad in E. simpl in E. lia.
Qed.

Lemma re_Y_pad y r : re_Y (zero_pad 4 y ++ r) = [(zero_pad 4 y, r)].
Proof.
  cbn [zero_pad app]. unfold re_Y. cbn [forallb].
  by rewrite !is_decimal_digit_mod.
Qed.

Lemma re_m_pad m r : (1 <= m <= 12)%Z -> head_opt (re_m (zero_pad 2 m ++ r)) = Some (zero_pad 2 m, r).
Proof.
  intros Hm. revert r. pattern m. apply (Z_range_Forall _ 1 12); [|lia].
  enumerate_range; intros r; reflexivity.
Qed.

Lemma re_d_pad d r : (1 <= d <= 31)%Z -> head_opt (re_d (zero_pad 2 d ++ r)) = Some (zero_pad 2 d, r).
Proof.
  intros Hd. revert r. pattern d. apply (Z_range_Forall _ 1 31); [|lia].
  enumerate_range; intros r; reflexivity.
Qed.

Lemma days_in_month_le y m : (days_in_month y m <= 31)%Z.
Proof.
  unfold days_in_month. destruct (_ && _); [lia|].
  destruct (Z.to_nat m) as [|[|[|[|[|[|[|[|[|[|[|[|[|[]]]]]]]]]]]]]]; simpl; lia.
Qed.

(** The pattern matches an ISO date as its three zero-padded fields, with
    nothing left over. *)
Lemma format_regex_isoformat y m d :
  (1 <= m <= 12)%Z -> (1 <= d <= 31)%Z ->
  format_regex_match (zero_pad 4 y ++ "-"%char :: zero_pad 2 m ++ "-"%char :: zero_pad 2 d)
  = Some (zero_pad 4 y, zero_pad 2 m, zero_pad 2 d, []).
Proof.
  intros Hm Hd. unfold format_regex_match, format_regex_all.
  eapply head_opt_bind; [by rewrite re_Y_pad|]. cbn beta iota.
  eapply head_opt_bind; [reflexivity|]. cbn beta iota.
  eapply head_opt_bind; [by apply re_m_pad|]. cbn beta iota.
  eapply head_opt_bind; [reflexivity|]. cbn beta iota.
  eapply head_opt_bind; [rewrite <-(app_nil_r (zero_pad 2 d)); by apply re_d_pad|].
  reflexivity.
Qed.

(** ** Properties of the date parse *)

(** What [strptime_ymd] returns passed [_check_date_fields]. *)
Lemma strptime_ymd_Ok_valid (s : list ascii) (dt : date) :
  strptime_ymd s = Ok dt -> valid_date dt.
Proof.
  unfold strptime_ymd. intros H.
  repeat case_match; simplify_eq. by apply check_date_fields_Ok in H as [_ ?].
Qed.


(** The parse of the ISO form of any fields in range: the regex matches
    and the digits read back, leaving [_check_date_fields] to decide. *)
Lemma strptime_ymd_isoformat_fields y m d :
  (1 <= y <= 9999)%Z -> (1 <= m <= 12)%Z -> (1 <= d <= 31)%Z ->
  strptime_ymd (isoformat (mkDate y m d)) = check_date_fields y m d.
Proof.
  intros Hy Hm Hd. unfold strptime_ymd, isoformat. cbn [date_year date_month date_day].
  rewrite format_regex_isoformat by lia. rewrite decide_True by done.
  rewrite !int_of_chars_zero_pad by (unfold int_max_str_digits; lia).
  by rewrite !Z.mod_small by (simpl; lia).
Qed.

(** Within the year and month range, [_check_date_fields] accepts
    exactly the days of the month. *)
Lemma check_date_fields_day y m d :
  (1 <= y <= 9999)%Z -> (1 <= m <= 12)%Z ->
  (exists dt, check_date_fields y m d = Ok dt) <-> (1 <= d <= days_in_month y m)%Z.
Proof.
  intros Hy Hm. unfold check_date_fields.
  rewrite decide_True by (unfold MINYEAR, MAXYEAR; lia). rewrite decide_True by done.
  case_decide; split; try naive_solver.
Qed.

(** (C19) Every valid date, printed in ISO form
    "YYYY-MM-DD", parses back to itself. *)
Theorem strptime_ymd_isoformat (d : date) :
  valid_date d -> strptime_ymd (isoformat d) = Ok d.
Proof.
  intros Hv. pose proof Hv as (Hy & Hm & Hd). pose proof (days_in_month_le (date_year d) (date_month d)).
  destruct d as [y m dd]. cbn [date_year date_month date_day] in *.
  rewrite strptime_ymd_isoformat_fields by (unfold MINYEAR, MAXYEAR in *; lia).
  by apply check_date_fields_Ok.
Qed.

Example strptime_ymd_isoformat_witness :
  valid_date (mkDate 2024 1 10) /\ strptime_ymd (isoformat (mkDate 2024 1 10)) = Ok (mkDate 2024 1 10).
Proof.
  assert (H : valid_date (mkDate 2024 1 10)) by (vm_compute; repeat split; congruence).
  split; [exact H | exact (strptime_ymd_isoformat _ H)].
Defined.

(** (C20) The calendar the DateField parse accepts: for a year in
    1..9999, a month in 1..12 and a day in 1..31 written in ISO form, the
    parse succeeds exactly when the day exists in the proleptic Gregorian
    calendar: days 1..28 always, 29 and 30 except in February, 31 in
    January, March, May, July, August, October and December, and
    February 29 in the years divisible by 4 and not by 100 unless by 400. *)
Theorem strptime_ymd_calendar y m d :
  (1 <= y <= 9999)%Z -> (1 <= m <= 12)%Z -> (1 <= d <= 31)%Z ->
  (exists dt, strptime_ymd (isoformat (mkDate y m d)) = Ok dt) <->
  (d <= 28 \/ (m <> 2 /\ d <= 30) \/
   ((m = 1 \/ m = 3 \/ m = 5 \/ m = 7 \/ m = 8 \/ m = 10 \/ m = 12) /\ d = 31) \/
   (m = 2 /\ d = 29 /\ (4 | y) /\ (~ (100 | y) \/ (400 | y))))%Z.
Proof.
  intros Hy Hm Hd. rewrite strptime_ymd_isoformat_fields, check_date_fields_day by done.
  rewrite <-!Z.mod_divide by lia. unfold days_in_month, is_leap.
  assert (Hm' : (m = 1 \/ m = 2 \/ m = 3 \/ m = 4 \/ m = 5 \/ m = 6 \/ m = 7 \/ m = 8 \/
                 m = 9 \/ m = 10 \/ m = 11 \/ m = 12)%Z) by lia.
  repeat destruct Hm' as [->|Hm']; try (subst m); simpl;
    try (destruct (Z.eqb_spec (y mod 4) 0), (Z.eqb_spec (y mod 100) 0), (Z.eqb_spec (y mod 400) 0);
         simpl); lia.
Qed.

Example strptime_ymd_calendar_witness :
  (exists dt, strptime_ymd (isoformat (mkDate 2000 2 29)) = Ok dt) /\
  ~ (exists dt, strptime_ymd (isoformat (mkDate 1900 2 29)) = Ok dt).
Proof.
  split.
  - apply (strptime_ymd_calendar 2000 2 29); [lia | lia | lia |].
    right; right; right. split; [done|]. split; [done|].
    split; [exists 500%Z; lia|]. right. exists 5%Z; lia.
  - rewrite (strptime_ymd_calendar 1900 2 29) by lia.
    intros [H|[[H _]|[[H _]|(_ & _ & _ & [H|(k & Hk)])]]]; try lia.
    apply H. exists 19%Z; lia.
Defined.
