(* ===== verification/PyDateSpec.v ===== *)
(** * PyDateSpec: the texts the [DateField] accepts, stated declaratively

    PyDate models [datetime.strptime(s, "%Y-%m-%d")] the way CPython
    runs it: a regular expression with ordered alternatives, the first
    match taken, "unconverted data remains" when it stops short of the
    end, [int] on the groups, [_check_date_fields].  This file states the
    accepted texts without any of that machinery: a year of four decimal
    digits, a month of one or two digits with value 1..12, a day of one or
    two digits with value 1..31 or a space and one digit, separated by
    "-", and a valid date.  The theorem [strptime_ymd_spec] shows the two
    agree: the first-match semantics never rejects a text of this
    language, and accepts nothing else.  It describes the [borrow_date]
    field of [BookBorrowForm] (src/app.py, line 48). *)

From S2P Require Import Prelude PyStr PyInt PyDate.


(** A run of decimal digits and the number it denotes. *)
Definition digits_text (t : list ascii) (v : Z) : Prop :=
  Forall (fun c => is_decimal c = true) t /\ v = horner 0 (map digit_value t).

(** [%Y]: four digits. *)
Definition year_text (t : list ascii) (y : Z) : Prop :=
  List.length t = 4%nat /\ digits_text t y.

(** [%m]: one or two digits, a month number. *)
Definition month_text (t : list ascii) (m : Z) : Prop :=
  (List.length t = 1%nat \/ List.length t = 2%nat) /\ digits_text t m /\ (1 <= m <= 12)%Z.

(** [%d]: one or two digits, or a space and one digit, a day number. *)
Definition day_text (t : list ascii) (d : Z) : Prop :=
  ((List.length t = 1%nat \/ List.length t = 2%nat) /\ digits_text t d /\ (1 <= d <= 31)%Z) \/
  (exists c, t = [" "%char; c] /\ is_decimal c = true /\ d = digit_value c /\ (1 <= d)%Z).

(** The texts "%Y-%m-%d" reads as the date [d]. *)
Definition date_text (s : list ascii) (d : date) : Prop :=
  exists yt mt dt,
    s = yt ++ "-"%char :: mt ++ "-"%char :: dt /\
    year_text yt (date_year d) /\ month_text mt (date_month d) /\ day_text dt (date_day d) /\
    valid_date d.

(** ** Digits and their values *)

Lemma digit_char_value c : is_decimal c = true -> digit_char (digit_value c) = c.
Proof. destruct c as [[] [] [] [] [] [] [] []]; intros H; try discriminate H; reflexivity. Qed.

Lemma digit_value_range c : is_decimal c = true -> (0 <= digit_value c <= 9)%Z.
Proof. destruct c as [[] [] [] [] [] [] [] []]; intros H; try discriminate H; vm_compute; split; discriminate. Qed.

(** A run of digits is the zero-padded numeral of its value. *)
Lemma digits_zero_pad t :
  Forall (fun c => is_decimal c = true) t -> t = zero_pad (List.length t) (horner 0 (map digit_value t)).
Proof.
  induction t as [|c t IH] using rev_ind; [done|]. intros Ht.
  apply Forall_app in Ht as [Ht Hc]. inversion Hc as [|? ? Hc' _]; subst.
  rewrite length_app, Nat.add_1_r, map_app. cbn [map]. rewrite horner_snoc. cbn [zero_pad].
  pose proof (digit_value_range c Hc') as Hr.
  rewrite Z.mul_comm, Z.div_add_l, Z.div_small, Z.add_0_r by lia.
  rewrite Z.add_comm, Z.mod_add, Z.mod_small by lia.
  rewrite digit_char_value by done. by rewrite <-IH.
Qed.

Lemma digits_value_bound t :
  Forall (fun c => is_decimal c = true) t ->
  (0 <= horner 0 (map digit_value t) < 10 ^ Z.of_nat (List.length t))%Z.
Proof.
  intros Ht. pose proof (horner_zero_pad (List.length t) (horner 0 (map digit_value t))) as E.
  rewrite <-(digits_zero_pad t Ht) in E. rewrite E.
  apply Z.mod_pos_bound. apply Z.pow_pos_nonneg; lia.
Qed.

(** [int] reads a short run of digits as its value. *)
Lemma int_of_chars_digits t :
  t <> [] -> Forall (fun c => is_decimal c = true) t -> (List.length t <= int_max_str_digits)%nat ->
  int_of_chars t = Ok (horner 0 (map digit_value t)).
Proof.
  intros Hne Ht Hlen. rewrite int_of_chars_plain by (by apply decimal_chars_plain).
  by apply pylong_digits.
Qed.

(** ** What each group of the pattern matches *)

Lemma in_class_decimal lo hi c :
  (48 <= code lo)%N -> (code hi <= 57)%N -> in_class lo hi c = true -> is_decimal c = true.
Proof.
  unfold in_class, is_decimal. intros Hlo Hhi [H1 H2]%andb_prop.
  apply N.leb_le in H1, H2. apply andb_true_intro; split; apply N.leb_le; lia.
Qed.

(** A class of the pattern's digit classes holds only digits. *)
Ltac class_decimal :=
  match goal with
  | H : in_class ?lo ?hi ?c = true |- is_decimal ?c = true =>
      apply (in_class_decimal lo hi c); [vm_compute; discriminate | vm_compute; discriminate | exact H]
  end.

Lemma re_Y_sound s p r :
  (p, r) ∈ re_Y s -> s = p ++ r /\ List.length p = 4%nat /\ Forall (fun c => is_decimal c = true) p.
Proof.
  unfold re_Y. destruct s as [|a [|b [|c [|d s]]]]; try by intros ?%not_elem_of_nil.
  destruct (forallb _ _) eqn:E; [|by intros ?%not_elem_of_nil].
  intros [= -> ->]%list_elem_of_singleton. split; [done|]. split; [done|].
  rewrite List.Forall_forall. by apply forallb_forall.
Qed.

Lemma re_lit_sound x s u r : (u, r) ∈ re_lit x s -> s = x :: r.
Proof.
  unfold re_lit. destruct s as [|c s]; [by intros ?%not_elem_of_nil|].
  destruct (c =? x)%char eqn:E; [|by intros ?%not_elem_of_nil].
  apply Ascii.eqb_eq in E as ->. by intros [= _ ->]%list_elem_of_singleton.
Qed.

Lemma re_pair_sound x lo hi s p r :
  (p, r) ∈ re_pair x lo hi s -> exists c, s = x :: c :: r /\ p = [x; c] /\ in_class lo hi c = true.
Proof.
  unfold re_pair. destruct s as [|c1 [|c2 s]]; try by intros ?%not_elem_of_nil.
  destruct ((c1 =? x)%char && in_class lo hi c2) eqn:E; [|by intros ?%not_elem_of_nil].
  apply andb_prop in E as [E1 E2]. apply Ascii.eqb_eq in E1 as ->.
  intros [= -> ->]%list_elem_of_singleton. eauto.
Qed.

Lemma re_one_sound lo hi s p r :
  (p, r) ∈ re_one lo hi s -> exists c, s = c :: r /\ p = [c] /\ in_class lo hi c = true.
Proof.
  unfold re_one. destruct s as [|c s]; [by intros ?%not_elem_of_nil|].
  destruct (in_class lo hi c) eqn:E; [|by intros ?%not_elem_of_nil].
  intros [= -> ->]%list_elem_of_singleton. eauto.
Qed.

(** A one- or two-digit group. *)
Definition short_digits (p : list ascii) : Prop :=
  (List.length p = 1%nat \/ List.length p = 2%nat) /\ Forall (fun c => is_decimal c = true) p.

Lemma re_m_sound s p r : (p, r) ∈ re_m s -> s = p ++ r /\ short_digits p.
Proof.
  unfold re_m, short_digits. rewrite !elem_of_app.
  intros [(c & -> & -> & Hc)%re_pair_sound|[(c & -> & -> & Hc)%re_pair_sound
         |(c & -> & -> & Hc)%re_one_sound]];
    (split; [done|]); (split; [simpl; lia|]); repeat constructor; first [reflexivity | class_decimal].
Qed.

Lemma re_d_sound s p r :
  (p, r) ∈ re_d s ->
  s = p ++ r /\ (short_digits p \/ exists c, p = [" "%char; c] /\ in_class "1" "9" c = true).
Proof.
  unfold re_d, short_digits. rewrite !elem_of_app.
  intros [H|[H|[H|[H|[H|H]]]]];
    first [ apply re_pair_sound in H as (c & -> & -> & Hc)
          | apply re_one_sound in H as (c & -> & -> & Hc) ];
    (split; [done|]);
    first [ right; by exists c
          | left; (split; [simpl; lia|]); repeat constructor; try class_decimal ].
Qed.

(** What a match of the whole pattern consists of. *)
Lemma format_regex_all_sound s yt mt dt r :
  (yt, mt, dt, r) ∈ format_regex_all s ->
  s = yt ++ "-"%char :: mt ++ "-"%char :: dt ++ r /\
  List.length yt = 4%nat /\ Forall (fun c => is_decimal c = true) yt /\ short_digits mt /\
  (short_digits dt \/ exists c, dt = [" "%char; c] /\ in_class "1" "9" c = true).
Proof.
  unfold format_regex_all. intros Hin.
  repeat match goal with
  | H : _ ∈ _ ≫= _ |- _ => apply list_elem_of_bind in H as ([? ?] & H & ?); cbn beta iota in H
  end.
  apply list_elem_of_singleton in Hin. simplify_eq.
  repeat match goal with
  | H : (_, _) ∈ re_Y _ |- _ => apply re_Y_sound in H as (-> & ? & ?)
  | H : (_, _) ∈ re_lit _ _ |- _ => apply re_lit_sound in H as ->
  | H : (_, _) ∈ re_m _ |- _ => apply re_m_sound in H as (-> & ?)
  | H : (_, _) ∈ re_d _ |- _ => apply re_d_sound in H as (-> & ?)
  end.
  done.
Qed.

(** ** Reading the groups *)

Lemma int_of_chars_space_digit c : is_decimal c = true -> int_of_chars [" "%char; c] = Ok (digit_value c).
Proof.
  intros Hc. rewrite int_of_chars_plain.
  - change (pylong_from_string [" "%char; c]) with (pylong_from_string [c]).
    rewrite pylong_digits; [reflexivity | discriminate | by repeat constructor
                           | simpl; unfold int_max_str_digits; lia].
  - constructor; [vm_compute; split; reflexivity|]. constructor; [by apply decimal_plain|constructor].
Qed.

(** What [int] returns for a group of digits is the group's value. *)
Lemma int_of_chars_digits_eq t v :
  Forall (fun c => is_decimal c = true) t -> (0 < List.length t <= 4)%nat ->
  int_of_chars t = Ok v -> digits_text t v.
Proof.
  intros Ht Hl. rewrite int_of_chars_digits; [intros [= <-]; by split| |done|].
  - intros ->. simpl in Hl. lia.
  - unfold int_max_str_digits. lia.
Qed.

(** A group of digits is the zero-padded numeral of its value. *)
Lemma digits_text_zero_pad t v : digits_text t v -> t = zero_pad (List.length t) v.
Proof. intros [Ht ->]. by apply digits_zero_pad. Qed.

(** ** The texts are matched in full *)

Lemma re_Y_year yt y r : year_text yt y -> re_Y (yt ++ r) = [(yt, r)].
Proof. intros [Hl Hd]. rewrite (digits_text_zero_pad _ _ Hd), Hl. apply re_Y_pad. Qed.

Lemma re_m_month mt m r : month_text mt m -> head_opt (re_m (mt ++ "-"%char :: r)) = Some (mt, "-"%char :: r).
Proof.
  intros (Hl & Hd & Hm). rewrite (digits_text_zero_pad _ _ Hd).
  destruct Hl as [Hl|Hl]; rewrite Hl; [|by apply re_m_pad].
  pose proof (digits_value_bound mt (proj1 Hd)) as Hb. rewrite Hl, <-(proj2 Hd) in Hb.
  revert r. pattern m. apply (Z_range_Forall _ 1 9); [enumerate_range; intros r; reflexivity|].
  simpl in Hb. lia.
Qed.

Lemma re_d_day dt d : day_text dt d -> head_opt (re_d dt) = Some (dt, []).
Proof.
  intros [(Hl & Hd & Hr)|(c & -> & Hc & -> & Hr)].
  - rewrite (digits_text_zero_pad _ _ Hd). destruct Hl as [Hl|Hl]; rewrite Hl.
    + pose proof (digits_value_bound dt (proj1 Hd)) as Hb. rewrite Hl, <-(proj2 Hd) in Hb.
      pattern d. apply (Z_range_Forall _ 1 9); [enumerate_range; reflexivity|]. simpl in Hb. lia.
    + rewrite <-(app_nil_r (zero_pad 2 d)). by apply re_d_pad.
  - rewrite <-(digit_char_value c Hc). pose proof (digit_value_range c Hc).
    pattern (digit_value c). apply (Z_range_Forall _ 1 9); [enumerate_range; reflexivity|]. lia.
Qed.

Lemma format_regex_date_text yt mt dt y m d :
  year_text yt y -> month_text mt m -> day_text dt d ->
  format_regex_match (yt ++ "-"%char :: mt ++ "-"%char :: dt) = Some (yt, mt, dt, []).
Proof.
  intros Hy Hm Hd. unfold format_regex_match, format_regex_all.
  eapply head_opt_bind; [by rewrite (re_Y_year _ _ _ Hy)|]. cbn beta iota.
  eapply head_opt_bind; [reflexivity|]. cbn beta iota.
  eapply head_opt_bind; [by apply (re_m_month _ m)|]. cbn beta iota.
  eapply head_opt_bind; [reflexivity|]. cbn beta iota.
  eapply head_opt_bind; [by apply (re_d_day _ d)|]. reflexivity.
Qed.

Lemma day_text_int dt d : day_text dt d -> int_of_chars dt = Ok d.
Proof.
  intros [(Hl & [Ht ->] & _)|(c & -> & Hc & -> & _)]; [|by apply int_of_chars_space_digit].
  apply int_of_chars_digits; [by intros ->; destruct Hl as [Hl|Hl]; simpl in Hl| done|].
  unfold int_max_str_digits. lia.
Qed.

Lemma short_text_int t v : (0 < List.length t <= 4)%nat -> digits_text t v -> int_of_chars t = Ok v.
Proof.
  intros Hl [Ht ->]. apply int_of_chars_digits; [by intros ->; simpl in Hl; lia|done|].
  unfold int_max_str_digits. lia.
Qed.

(** ** Both directions *)

Lemma strptime_ymd_date_text s d : strptime_ymd s = Ok d -> date_text s d.
Proof.
  unfold strptime_ymd.
  destruct (format_regex_match s) as [[[[yt mt] dt] rest]|] eqn:Hm; [|done].
  case_decide as Hr; [subst rest|done].
  destruct (int_of_chars yt) as [y|] eqn:Hy; [|done].
  destruct (int_of_chars mt) as [m|] eqn:Hmo; [|done].
  destruct (int_of_chars dt) as [dd|] eqn:Hd; [|done].
  intros (-> & Hv)%check_date_fields_Ok.
  apply head_opt_Some in Hm as [tl Hl].
  assert (Hin : (yt, mt, dt, []) ∈ format_regex_all s) by (rewrite Hl; constructor).
  destruct (format_regex_all_sound _ _ _ _ _ Hin) as (-> & Hly & Hdy & [Hlm Hdm] & Hsd).
  pose proof Hv as (_ & Hmr & Hdr). pose proof (days_in_month_le y m). simpl in *.
  exists yt, mt, dt. rewrite app_nil_r. split; [done|]. refine (conj _ (conj _ (conj _ Hv))).
  all: cbn [date_year date_month date_day].
  - split; [done|]. apply int_of_chars_digits_eq; [done|lia|done].
  - split; [done|]. split; [apply int_of_chars_digits_eq; [done|lia|done]|lia].
  - destruct Hsd as [[Hld Hdd]|(c & -> & Hc)].
    + left. split; [done|]. split; [apply int_of_chars_digits_eq; [done|lia|done]|lia].
    + right. assert (Hc' : is_decimal c = true) by class_decimal.
      rewrite int_of_chars_space_digit in Hd by done. injection Hd as <-.
      exists c. repeat split; try done; lia.
Qed.

Lemma date_text_strptime_ymd s d : date_text s d -> strptime_ymd s = Ok d.
Proof.
  intros (yt & mt & dt & -> & Hy & Hm & Hd & Hv).
  unfold strptime_ymd. rewrite (format_regex_date_text _ _ _ _ _ _ Hy Hm Hd).
  rewrite decide_True by done.
  rewrite (short_text_int yt (date_year d)) by (destruct Hy as [Hl Hy]; rewrite ?Hl; lia || done).
  rewrite (short_text_int mt (date_month d)) by (destruct Hm as ([Hl|Hl] & ? & _); rewrite ?Hl; lia || done).
  rewrite (day_text_int _ _ Hd). apply check_date_fields_Ok. by destruct d.
Qed.

(** ** The parse of the [borrow_date] field *)

(** (C32) [datetime.strptime(s, "%Y-%m-%d").date()] returns [d] exactly
    when [s] is a year of four digits, "-", a month of one or two digits,
    "-", and a day of one or two digits or of a space and a digit, whose
    values make the valid date [d]: the first-match semantics of the
    pattern neither rejects such a text nor accepts any other. *)
Theorem strptime_ymd_spec (s : list ascii) (d : date) :
  strptime_ymd s = Ok d <-> date_text s d.
Proof. split; [apply strptime_ymd_date_text | apply date_text_strptime_ymd]. Qed.

Example strptime_ymd_spec_example :
  date_text (list_ascii_of_string "2024-1- 5") (mkDate 2024 1 5).
Proof. apply strptime_ymd_date_text. reflexivity. Qed.
