(* ===== verification/Fields.v ===== *)
(** * Fields: the WTForms fields and the [DataRequired] validator

    The three forms of src/app.py (lines 33-56) are declared with WTForms
    fields: [StringField], [SelectField] (with a [coerce] function) and
    [DateField], each with [validators=[DataRequired()]], inside a
    [FlaskForm], which adds a [csrf_token] field.  This file models how
    WTForms processes one field from the submitted form data
    ([Field.process] with [process_formdata]) and validates it
    ([Field.validate]: [pre_validate], then the validator chain).

    Two behaviours of the library shape what the user sees:
    - a coercion or parse failure is recorded in [process_errors], and
      [SelectField.pre_validate] adds "Not a valid choice." when the data
      is not one of the choices;
    - [DataRequired], when the data is falsy (None, "", whitespace only,
      0), clears the errors collected so far and raises [StopValidation]
      with "This field is required.".  A malformed year or date therefore
      reports only "This field is required.". *)

From S2P Require Import Prelude PyStr PyInt PyDate.


(** ** Requests, as far as a [FlaskForm] looks at them *)

(** The HTTP methods. *)
Inductive Method := GET | HEAD | POST | PUT | PATCH | DELETE | OPTIONS.

#[export] Instance Method_eq_dec : EqDecision Method.
Proof. solve_decision. Defined.

(** [FlaskForm.is_submitted]: [request.method in SUBMIT_METHODS]. *)
Definition is_submitted (m : Method) : bool :=
  bool_decide (m ∈ [POST; PUT; PATCH; DELETE]).

(** [request.form]: a [MultiDict], the submitted pairs in order (a key may
    occur several times). *)
Definition FormData := list (string * string).

(** [MultiDict.getlist(key)]. *)
Definition getlist (fd : FormData) (k : string) : list string :=
  map snd (List.filter (fun kv => kv.1 == k) fd).

(** ** Messages *)

Definition msg_required : string := "This field is required.".
Definition msg_not_valid_choice : string := "Not a valid choice.".
Definition msg_could_not_coerce : string := "Invalid Choice: could not coerce.".
Definition msg_not_valid_date : string := "Not a valid date value.".

(** ** Interfaces *)

(** The truth test [DataRequired] applies to [field.data]:
    [field.data and (not isinstance(field.data, str) or field.data.strip())]. *)
Class DataRequiredTest (A : Type) := required_ok : A -> bool.

(** A [str] passes when it has a non-whitespace character. *)
#[export] Instance required_str : DataRequiredTest string := strip_truthy.
(** An [int] passes when it is non-zero. *)
#[export] Instance required_int : DataRequiredTest Z := fun z => negb (z =? 0)%Z.
(** A [datetime.date] is always truthy. *)
#[export] Instance required_date : DataRequiredTest date := fun _ => true.

(** The [coerce] callable of a [SelectField]: [None] when it raises
    [ValueError]. *)
Class Coerce (A : Type) := coerce : string -> option A.

(** [coerce=str] (the default): the submitted text itself. *)
#[export] Instance coerce_str : Coerce string := Some.
(** [coerce=int]. *)
#[export] Instance coerce_int : Coerce Z := fun s => option_of_result (py_int s).

(** ** One field *)

(** [field.data] and [field.errors] after [process] and [validate]. *)
Record field_state (A : Type) := mkField { fdata : option A; ferrors : list string }.
Arguments mkField {A} _ _.
Arguments fdata {A} _.
Arguments ferrors {A} _.

(** The validator chain [[DataRequired()]] after [pre_validate] left the
    errors [errs]: on failure the errors are replaced by the one message. *)
Definition run_data_required {A} `{DataRequiredTest A} (data : option A) (errs : list string) :
    list string :=
  match data with
  | Some a => if required_ok a then errs else [msg_required]
  | None => [msg_required]
  end.

(** [StringField]: [process_formdata] keeps [valuelist[0]] when there is
    one; there is no [pre_validate]. *)
Definition string_field (fd : FormData) (name : string) : field_state string :=
  let data := head_opt (getlist fd name) in
  mkField data (run_data_required data []).

(** [SelectField.process_formdata]: [coerce(valuelist[0])]; a [ValueError]
    leaves [data] at its default [None] and records a process error. *)
Definition select_process {A} `{Coerce A} (fd : FormData) (name : string) :
    option A * list string :=
  match getlist fd name with
  | [] => (None, [])
  | v :: _ =>
      match coerce v with
      | Some a => (Some a, [])
      | None => (None, [msg_could_not_coerce])
      end
  end.

(** [SelectField.pre_validate]: [data] must equal one of the choice values
    (the values as [coerce] returns them). *)
Definition select_pre_validate {A} `{EqDecision A} (choices : list (A * string))
    (data : option A) : list string :=
  if existsb (fun c => Some c.1 == data) choices then [] else [msg_not_valid_choice].

Definition select_field {A} `{Coerce A, EqDecision A, DataRequiredTest A}
    (choices : list (A * string)) (fd : FormData) (name : string) : field_state A :=
  let '(data, perrs) := select_process fd name in
  mkField data (run_data_required data (perrs ++ select_pre_validate choices data)).

(** [DateField.process_formdata]: [strptime(" ".join(valuelist), "%Y-%m-%d")]. *)
Definition date_process (fd : FormData) (name : string) : option date * list string :=
  match getlist fd name with
  | [] => (None, [])
  | vs =>
      match strptime_ymd (list_ascii_of_string (join " " vs)) with
      | Ok d => (Some d, [])
      | Err _ => (None, [msg_not_valid_date])
      end
  end.

Definition date_field (fd : FormData) (name : string) : field_state date :=
  let '(data, perrs) := date_process fd name in
  mkField data (run_data_required data perrs).

(** The [csrf_token] field: Flask-WTF's check of the submitted token
    against the session, given as its outcome ([None] when the token is
    valid, else the [ValidationError] message). *)
Definition csrf_field (csrf : option string) : list string :=
  match csrf with None => [] | Some m => [m] end.

(** An entry of [form.errors]: fields without errors are left out. *)
Definition field_errors (name : string) (errs : list string) : list (string * list string) :=
  match errs with [] => [] | _ => [(name, errs)] end.


(** ** Lemmas *)

Lemma run_data_required_nil {A} `{DataRequiredTest A} (data : option A) errs :
  run_data_required data errs = [] <->
  errs = [] /\ exists a, data = Some a /\ required_ok a = true.
Proof.
  destruct data as [a|]; simpl; [|split; [discriminate|intros (_ & ? & ? & _); done]].
  destruct (required_ok a) eqn:E; split.
  - intros ->. eauto.
  - by intros [-> _].
  - discriminate.
  - intros (_ & a' & [= <-] & Ha'). congruence.
Qed.

(** A failed [DataRequired] reports its message and nothing else. *)
Lemma run_data_required_fail {A} `{DataRequiredTest A} (data : option A) errs :
  (forall a, data = Some a -> required_ok a = false) ->
  run_data_required data errs = [msg_required].
Proof. destruct data as [a|]; simpl; [|done]. intros Ha. by rewrite (Ha a). Qed.

Lemma select_pre_validate_nil {A} `{EqDecision A} (choices : list (A * string)) data :
  select_pre_validate choices data = [] <-> exists a, data = Some a /\ a ∈ choices.*1.
Proof.
  unfold select_pre_validate. destruct (existsb _ _) eqn:E; split; try done.
  - intros _. apply existsb_exists in E as [[a l] [Hin Ha]]. simpl in Ha.
    case_bool_decide; [|done]. subst. exists a. split; [done|].
    apply list_elem_of_fmap. exists (a, l). split; [done|]. by apply list_elem_of_In.
  - intros (a & -> & Hin). apply list_elem_of_fmap in Hin as [[a' l] [-> Hin]].
    apply list_elem_of_In in Hin. exfalso. rewrite <-not_true_iff_false in E.
    apply E, existsb_exists. exists (a', l). split; [done|]. simpl. by case_bool_decide.
Qed.

Section SelectField.
Context {A : Type} `{Coerce A, EqDecision A, DataRequiredTest A}.
Context (choices : list (A * string)) (fd : FormData) (name : string).

(** A [SelectField] validates exactly when the first submitted value
    coerces to one of the choices and that choice passes [DataRequired];
    its data is then that choice. *)
Lemma select_field_valid :
  ferrors (select_field choices fd name) = [] <->
  exists v rest a, getlist fd name = v :: rest /\ coerce v = Some a /\
    (a ∈ choices.*1) /\ required_ok a = true /\ fdata (select_field choices fd name) = Some a.
Proof.
  unfold select_field, select_process.
  destruct (getlist fd name) as [|v rest]; cbn [fdata ferrors].
  { split; [discriminate|naive_solver]. }
  destruct (coerce v) as [a|] eqn:Hc; cbn [fdata ferrors].
  - rewrite run_data_required_nil. cbn [app]. rewrite select_pre_validate_nil. naive_solver.
  - rewrite run_data_required_nil. naive_solver.
Qed.

(** A submitted value that [coerce] rejects is reported as a missing
    value: the coercion message is cleared by [DataRequired]. *)
Lemma select_field_uncoercible v rest :
  getlist fd name = v :: rest -> coerce v = None ->
  select_field choices fd name = mkField None [msg_required].
Proof. intros Hg Hc. unfold select_field, select_process. by rewrite Hg, Hc. Qed.
End SelectField.

(** A [StringField] validates exactly when its first submitted value has a
    non-whitespace character; its data is that value, unstripped. *)
Lemma string_field_valid fd name :
  ferrors (string_field fd name) = [] <->
  exists v, head_opt (getlist fd name) = Some v /\ strip_truthy v = true /\
    fdata (string_field fd name) = Some v.
Proof. unfold string_field. cbn [fdata ferrors]. rewrite run_data_required_nil. naive_solver. Qed.

(** A [DateField] validates exactly when its submitted values, joined by a
    space, parse as a date. *)
Lemma date_field_valid fd name :
  ferrors (date_field fd name) = [] <->
  exists d, getlist fd name <> [] /\
    strptime_ymd (list_ascii_of_string (join " " (getlist fd name))) = Ok d /\
    fdata (date_field fd name) = Some d.
Proof.
  unfold date_field, date_process.
  destruct (getlist fd name) as [|v rest]; cbn [fdata ferrors];
    [split; [discriminate|naive_solver]|].
  destruct (strptime_ymd _) eqn:E; cbn [fdata ferrors]; rewrite run_data_required_nil; naive_solver.
Qed.

(** A date that does not parse is reported as a missing value: the
    "Not a valid date value." message is cleared by [DataRequired]. *)
Lemma date_field_unparsable fd name e :
  getlist fd name <> [] ->
  strptime_ymd (list_ascii_of_string (join " " (getlist fd name))) = Err e ->
  date_field fd name = mkField None [msg_required].
Proof.
  unfold date_field, date_process. destruct (getlist fd name); [done|]. intros _ E. by rewrite E.
Qed.

(** A [SelectField] whose choices all pass [DataRequired] validates with
    data [a] exactly when its first submitted value coerces to the choice
    [a]. *)
Lemma select_field_ok {A} `{Coerce A, EqDecision A, DataRequiredTest A}
    (choices : list (A * string)) fd name a :
  (forall x, x ∈ choices.*1 -> required_ok x = true) ->
  (ferrors (select_field choices fd name) = [] /\ fdata (select_field choices fd name) = Some a) <->
  exists s, head_opt (getlist fd name) = Some s /\ coerce s = Some a /\ a ∈ choices.*1.
Proof.
  intros Hreq. rewrite select_field_valid. split.
  - intros [(v & rest & a' & Hg & Hc & Hin & _ & Hd) Hd']. rewrite Hd in Hd'. simplify_eq.
    exists v. by rewrite Hg.
  - intros (v & Hg & Hc & Hin). destruct (getlist fd name) as [|v' rest] eqn:E; simplify_eq/=.
    assert (Hd : fdata (select_field choices fd name) = Some a).
    { unfold select_field, select_process. by rewrite E, Hc. }
    split; [|done]. exists v, rest, a. repeat split; eauto.
Qed.

Lemma coerce_str_Some s a : coerce (A:=string) s = Some a <-> s = a.
Proof. unfold coerce, coerce_str. split; congruence. Qed.

Lemma coerce_int_Some s z : coerce (A:=Z) s = Some z <-> py_int s = Ok z.
Proof. unfold coerce, coerce_int. destruct (py_int s); simpl; split; congruence. Qed.

(** A [StringField] validates with data [v] exactly when [v] is its first
    submitted value and has a non-whitespace character. *)
Lemma string_field_ok fd name v :
  (ferrors (string_field fd name) = [] /\ fdata (string_field fd name) = Some v) <->
  head_opt (getlist fd name) = Some v /\ strip_truthy v = true.
Proof.
  unfold string_field. cbn [fdata ferrors]. rewrite run_data_required_nil.
  split; [intros [(_ & a & -> & Ha) [= <-]]; done|intros [-> Hv]; eauto].
Qed.

(** A [DateField] validates with data [d] exactly when its values, joined
    by a space, parse to [d]. *)
Lemma date_field_ok fd name d :
  (ferrors (date_field fd name) = [] /\ fdata (date_field fd name) = Some d) <->
  getlist fd name <> [] /\ strptime_ymd (list_ascii_of_string (join " " (getlist fd name))) = Ok d.
Proof.
  rewrite date_field_valid. split.
  - intros [(d' & Hne & Hp & Hd) Hd']. rewrite Hd in Hd'. simplify_eq. done.
  - intros [Hne Hp]. assert (Hd : fdata (date_field fd name) = Some d).
    { unfold date_field, date_process. destruct (getlist fd name); [done|]. by rewrite Hp. }
    split; [|done]. eauto.
Qed.

(** A value that coerces to something outside the choices, and is truthy,
    is reported as "Not a valid choice.". *)
Lemma select_field_not_choice {A} `{Coerce A, EqDecision A, DataRequiredTest A}
    (choices : list (A * string)) fd name s rest a :
  getlist fd name = s :: rest -> coerce s = Some a -> a ∉ choices.*1 -> required_ok a = true ->
  select_field choices fd name = mkField (Some a) [msg_not_valid_choice].
Proof.
  intros Hg Hc Hn Hr. unfold select_field, select_process. rewrite Hg, Hc. simpl.
  rewrite Hr. f_equal. unfold select_pre_validate.
  destruct (existsb _ _) eqn:E; [|done]. exfalso. apply Hn.
  destruct (proj1 (select_pre_validate_nil choices (Some a))) as (a' & [= <-] & ?); [|done].
  unfold select_pre_validate. by rewrite E.
Qed.

