(* ===== verification/Db.v ===== *)
(** * Db: the [book] and [book_borrow] tables in SQLite

    src/app.py (lines 10-30) declares two Flask-SQLAlchemy models stored in
    the SQLite file library.db: [Book] (table [book]) and [BookBorrow]
    (table [book_borrow]).  The handlers use the store through
    [db.session.add(obj); db.session.commit()] (an INSERT) and through
    [Model.query ... .all()] (a SELECT).

    - Each table's [id] is an INTEGER PRIMARY KEY, SQLite's rowid: an
      INSERT without an id takes one more than the largest rowid, or 1 in
      an empty table.  At the largest rowid 2^63-1 SQLite switches to
      trying random unused rowids; that branch is modelled as an error and
      is shown unreachable below 2^63-1 rows.
    - [book.serial_number] is UNIQUE: an INSERT that repeats one fails with
      [IntegrityError] and the session's transaction is rolled back, so the
      store is unchanged.
    - [book_borrow.book_id] is declared a FOREIGN KEY, but SQLite does not
      enforce foreign keys unless [PRAGMA foreign_keys=ON], which the
      application never issues: the INSERT does not check it.
    - A SELECT without ORDER BY on these tables scans them in rowid order,
      which is the order of the lists below.

    The rowid logic is generic: [HasRowId] is the interface a row type
    offers, and the section [RowidTable] proves its lemmas once for both
    tables. *)

From S2P Require Import Prelude PyStr PyDate.


(** [class Book(db.Model)]. *)
Module Book.
Record t := mk {
  id : Z;
  name : string;
  author : string;
  serial_number : string;
  department : string;
  major : string;
  year : Z
}.
End Book.

(** [class BookBorrow(db.Model)]. *)
Module BookBorrow.
Record t := mk {
  id : Z;
  student_name : string;
  student_id : string;
  department : string;
  year : Z;
  book_id : Z;
  borrow_date : date
}.
End BookBorrow.

#[export] Instance Book_eq_dec : EqDecision Book.t.
Proof. solve_decision. Defined.
#[export] Instance BookBorrow_eq_dec : EqDecision BookBorrow.t.
Proof. solve_decision. Defined.

(** The database file: the rows of each table in rowid order. *)
Record Db := mkDb { book_table : list Book.t; book_borrow_table : list BookBorrow.t }.

(** [db.create_all()] on a new file. *)
Definition empty_db : Db := mkDb [] [].

(** The exceptions a commit or a query can raise. *)
Inductive db_error :=
| IntegrityError (message : string)   (* sqlalchemy.exc.IntegrityError *)
| DatabaseFull                        (* SQLITE_FULL: no rowid left *)
| TooManyVariables.                   (* sqlalchemy.exc.OperationalError *)

#[export] Instance db_error_eq_dec : EqDecision db_error.
Proof. solve_decision. Defined.

(** ** Rowid tables *)

(** What a row type offers the generic table code: its rowid. *)
Class HasRowId (R : Type) := row_id : R -> Z.

#[export] Instance Book_rowid : HasRowId Book.t := Book.id.
#[export] Instance BookBorrow_rowid : HasRowId BookBorrow.t := BookBorrow.id.

(** The largest rowid SQLite allocates by itself. *)
Definition max_rowid : Z := 2 ^ 63 - 1.

(** [max(rowid)] of a column, [None] on an empty table. *)
Definition list_max_opt (l : list Z) : option Z :=
  fold_left (fun acc z => Some (match acc with None => z | Some m => Z.max m z end)) l None.

Section RowidTable.
Context {R : Type} `{HasRowId R}.

(** The rowid of a new row ([OP_NewRowid]). *)
Definition new_rowid (tbl : list R) : result db_error Z :=
  match list_max_opt (map row_id tbl) with
  | None => Ok 1%Z
  | Some m => if decide (m < max_rowid)%Z then Ok (m + 1)%Z else Err DatabaseFull
  end.

(** The rowids of a table where no row was ever deleted: 1, 2, ..., n. *)
Definition dense_rowids (tbl : list R) : Prop :=
  map row_id tbl = map (fun i => Z.of_nat (S i)) (seq 0 (List.length tbl)).

(** A rowid that names a row of the table. *)
Definition has_rowid (tbl : list R) (i : Z) : bool :=
  existsb (fun r => row_id r == i) tbl.

End RowidTable.

Arguments dense_rowids {_ _} _.

(** ** The two INSERTs *)

Definition unique_serial_message : string := "UNIQUE constraint failed: book.serial_number".

(** [db.session.add(Book(name=..., ...)); db.session.commit()]
    (src/app.py, lines 67-76). *)
Definition insert_book (db : Db) (name author serial_number department major : string)
    (year : Z) : result db_error Db :=
  i ← new_rowid (book_table db);
  if existsb (fun b => Book.serial_number b == serial_number) (book_table db)
  then Err (IntegrityError unique_serial_message)
  else Ok (mkDb (book_table db ++ [Book.mk i name author serial_number department major year])
                (book_borrow_table db)).

(** [db.session.add(BookBorrow(...)); db.session.commit()]
    (src/app.py, lines 86-95).  The foreign key is not checked. *)
Definition insert_book_borrow (db : Db) (student_name student_id department : string)
    (year book_id : Z) (borrow_date : date) : result db_error Db :=
  i ← new_rowid (book_borrow_table db);
  Ok (mkDb (book_table db)
           (book_borrow_table db
              ++ [BookBorrow.mk i student_name student_id department year book_id borrow_date])).

(** ** The store invariant *)

(** No row was deleted (rowids 1..n in each table), serial numbers are
    unique, and every borrow names a book of the [book] table. *)
Definition db_wf (db : Db) : Prop :=
  dense_rowids (book_table db) /\ dense_rowids (book_borrow_table db) /\
  NoDup (map Book.serial_number (book_table db)) /\
  Forall (fun r => BookBorrow.book_id r ∈ map Book.id (book_table db)) (book_borrow_table db).

#[export] Instance db_wf_dec d : Decision (db_wf d).
Proof. unfold db_wf, dense_rowids. apply _. Defined.

(** Fewer rows than SQLite has rowids, in both tables. *)
Definition below_rowid_limit (db : Db) : Prop :=
  (Z.of_nat (List.length (book_table db)) < max_rowid)%Z /\
  (Z.of_nat (List.length (book_borrow_table db)) < max_rowid)%Z.

#[export] Instance below_rowid_limit_dec d : Decision (below_rowid_limit d).
Proof. unfold below_rowid_limit. apply _. Defined.

(** ** Lemmas *)

Section RowidLemmas.
Context {R : Type} `{HasRowId R}.

Lemma list_max_opt_seq n :
  list_max_opt (map (fun i => Z.of_nat (S i)) (seq 0 n)) =
  match n with O => None | S _ => Some (Z.of_nat n) end.
Proof.
  induction n as [|n IH]; [done|].
  rewrite seq_S, map_app. unfold list_max_opt in *. rewrite fold_left_app, IH.
  simpl. destruct n; f_equal; lia.
Qed.

(** With dense rowids and fewer than 2^63-1 rows, the new row takes the
    rowid [n + 1]. *)
Lemma new_rowid_dense tbl :
  dense_rowids tbl -> (Z.of_nat (List.length tbl) < max_rowid)%Z ->
  new_rowid tbl = Ok (Z.of_nat (S (List.length tbl))).
Proof.
  unfold new_rowid, dense_rowids. intros -> Hlen. rewrite list_max_opt_seq.
  destruct (List.length tbl) as [|n]; [done|].
  rewrite decide_True by lia. f_equal. lia.
Qed.

Lemma dense_rowids_snoc tbl r :
  dense_rowids tbl -> row_id r = Z.of_nat (S (List.length tbl)) -> dense_rowids (tbl ++ [r]).
Proof.
  unfold dense_rowids. intros Hd Hr.
  rewrite length_app, Nat.add_1_r, seq_S, !map_app, Hd. simpl. by rewrite Hr.
Qed.

(** The rowid [n + 1] names no row of a dense table of [n] rows. *)
Lemma dense_rowids_fresh tbl :
  dense_rowids tbl -> Z.of_nat (S (List.length tbl)) ∉ map row_id tbl.
Proof.
  unfold dense_rowids. intros -> Hi.
  apply list_elem_of_In, in_map_iff in Hi as (k & Hk & Hin%in_seq). lia.
Qed.

Lemma has_rowid_iff tbl i : has_rowid tbl i = true <-> i ∈ map row_id tbl.
Proof. apply existsb_key_iff. Qed.
End RowidLemmas.

Lemma empty_db_wf : db_wf empty_db.
Proof. repeat split; constructor. Qed.

Section Inserts.
Context (db : Db) (Hwf : db_wf db) (Hlim : below_rowid_limit db).

(** A book with a new serial number is appended with rowid [n + 1]. *)
Lemma insert_book_fresh name author serial_number department major year :
  serial_number ∉ map Book.serial_number (book_table db) ->
  insert_book db name author serial_number department major year =
  Ok (mkDb (book_table db ++ [Book.mk (Z.of_nat (S (List.length (book_table db))))
                                 name author serial_number department major year])
           (book_borrow_table db)).
Proof.
  intros Hfresh. destruct Hwf as (Hb & _), Hlim as (Hl & _).
  unfold insert_book. rewrite (new_rowid_dense _ Hb Hl). simpl.
  by rewrite (proj2 (existsb_key_false _ _ _) Hfresh).
Qed.

(** A repeated serial number fails with [IntegrityError]. *)
Lemma insert_book_duplicate name author serial_number department major year :
  serial_number ∈ map Book.serial_number (book_table db) ->
  insert_book db name author serial_number department major year =
  Err (IntegrityError unique_serial_message).
Proof.
  intros Hdup. destruct Hwf as (Hb & _), Hlim as (Hl & _).
  unfold insert_book. rewrite (new_rowid_dense _ Hb Hl). simpl.
  by rewrite (proj2 (existsb_key_iff _ _ _) Hdup).
Qed.

Lemma insert_book_borrow_ok student_name student_id department year book_id borrow_date :
  insert_book_borrow db student_name student_id department year book_id borrow_date =
  Ok (mkDb (book_table db)
           (book_borrow_table db
              ++ [BookBorrow.mk (Z.of_nat (S (List.length (book_borrow_table db))))
                    student_name student_id department year book_id borrow_date])).
Proof.
  destruct Hwf as (_ & Hr & _), Hlim as (_ & Hl).
  unfold insert_book_borrow. by rewrite (new_rowid_dense _ Hr Hl).
Qed.
End Inserts.

Lemma insert_book_Ok_inv db db' name author serial_number department major year :
  insert_book db name author serial_number department major year = Ok db' ->
  exists i, db' = mkDb (book_table db ++ [Book.mk i name author serial_number department major year])
                       (book_borrow_table db).
Proof.
  unfold insert_book. destruct (new_rowid _) as [i|]; simpl; [|discriminate].
  destruct existsb; [discriminate|]. intros [= <-]. eauto.
Qed.

Lemma insert_book_borrow_Ok_inv db db' student_name student_id department year book_id borrow_date :
  insert_book_borrow db student_name student_id department year book_id borrow_date = Ok db' ->
  exists i, db' = mkDb (book_table db)
                       (book_borrow_table db
                          ++ [BookBorrow.mk i student_name student_id department year book_id borrow_date]).
Proof.
  unfold insert_book_borrow. destruct (new_rowid _) as [i|]; simpl; [|discriminate].
  intros [= <-]. eauto.
Qed.

(** Rowids allocated this way are positive. *)
Lemma dense_rowids_pos {R} `{HasRowId R} (tbl : list R) i :
  dense_rowids tbl -> i ∈ map row_id tbl -> (0 < i)%Z.
Proof.
  unfold dense_rowids. intros -> Hi. apply list_elem_of_In, in_map_iff in Hi as (k & <- & _). lia.
Qed.

(** [insert_book] keeps the invariant. *)
Lemma insert_book_wf db db' name author serial_number department major year :
  db_wf db -> insert_book db name author serial_number department major year = Ok db' ->
  db_wf db'.
Proof.
  intros (Hb & Hr & Hs & Hf) Hins. unfold insert_book in Hins.
  destruct (new_rowid (book_table db)) as [i|] eqn:Hi; [|discriminate]. simpl in Hins.
  destruct existsb eqn:Hex; [discriminate|]. injection Hins as <-.
  apply existsb_key_false in Hex.
  assert (Hi' : i = Z.of_nat (S (List.length (book_table db)))).
  { unfold new_rowid in Hi. rewrite Hb, list_max_opt_seq in Hi.
    destruct (List.length (book_table db)); simplify_eq; [done|].
    case_decide; simplify_eq. lia. }
  repeat split; simpl.
  - by apply dense_rowids_snoc.
  - done.
  - rewrite map_app. apply list.NoDup_app. split; [done|]. split; [|apply NoDup_singleton].
    intros x Hx ->%list_elem_of_singleton. done.
  - eapply list.Forall_impl; [exact Hf|]. intros r Hr'. rewrite map_app. apply elem_of_app. by left.
Qed.

(** [insert_book_borrow] keeps the invariant when the borrowed book exists. *)
Lemma insert_book_borrow_wf db db' student_name student_id department year book_id borrow_date :
  db_wf db -> book_id ∈ map Book.id (book_table db) ->
  insert_book_borrow db student_name student_id department year book_id borrow_date = Ok db' ->
  db_wf db'.
Proof.
  intros (Hb & Hr & Hs & Hf) Hbook Hins. unfold insert_book_borrow in Hins.
  destruct (new_rowid (book_borrow_table db)) as [i|] eqn:Hi; [|discriminate]. simpl in Hins.
  injection Hins as <-.
  assert (Hi' : i = Z.of_nat (S (List.length (book_borrow_table db)))).
  { unfold new_rowid in Hi. rewrite Hr, list_max_opt_seq in Hi.
    destruct (List.length (book_borrow_table db)); simplify_eq; [done|].
    case_decide; simplify_eq. lia. }
  repeat split; simpl; try done.
  - by apply dense_rowids_snoc.
  - apply Forall_app. split; [done|]. by constructor.
Qed.

(** In a well-formed database no borrow row names the rowid the next
    book will take. *)
Lemma db_wf_next_book_unborrowed db r :
  db_wf db -> r ∈ book_borrow_table db ->
  BookBorrow.book_id r <> Z.of_nat (S (List.length (book_table db))).
Proof.
  intros (Hb & _ & _ & Hf) Hr Heq. eapply Forall_forall in Hf; [|by apply list_elem_of_In].
  rewrite Heq in Hf. by apply (dense_rowids_fresh (book_table db)).
Qed.
