(* ===== verification/Forms.v ===== *)
(** * Forms: [AddBookForm], [BookBorrowForm] and [BookSuggestionForm]

    src/app.py, lines 33-56.  Each form is a module with a record [t] of
    its processed fields (the [csrf_token] field of [FlaskForm] last, as
    WTForms adds it after the declared fields), [process] (the
    constructor [Form()] run on the request's form data), [errors]
    ([form.errors]), [validate] ([form.validate()]) and [submitted_data]
    ([form.validate_on_submit()] followed by the reads of
    [form.<field>.data] the handler makes).  The [submit] fields have no
    validator and no effect on validation; they are not modelled. *)

From S2P Require Import Prelude PyStr PyInt PyDate Fields.

(** The choices of the select fields. *)
Definition department_choices : list (string * string) :=
  [("CS", "Computer Science"); ("ENG", "English"); ("MATH", "Mathematics")].
Definition major_choices : list (string * string) :=
  [("SE", "Software Engineering"); ("AI", "Artificial Intelligence"); ("DS", "Data Science")].
Definition year_choices : list (Z * string) :=
  [(1%Z, "1st Year"); (2%Z, "2nd Year"); (3%Z, "3rd Year"); (4%Z, "4th Year")].

Module AddBookForm.
Record t := mk {
  name : field_state string;
  author : field_state string;
  serial_number : field_state string;
  department : field_state string;
  major : field_state string;
  year : field_state Z;
  csrf_token : list string
}.

Definition process (fd : FormData) (csrf : option string) : t :=
  mk (string_field fd "name") (string_field fd "author") (string_field fd "serial_number")
     (select_field department_choices fd "department")
     (select_field major_choices fd "major")
     (select_field year_choices fd "year")
     (csrf_field csrf).

Definition errors (f : t) : list (string * list string) :=
  field_errors "name" (ferrors (name f)) ++ field_errors "author" (ferrors (author f))
  ++ field_errors "serial_number" (ferrors (serial_number f))
  ++ field_errors "department" (ferrors (department f))
  ++ field_errors "major" (ferrors (major f)) ++ field_errors "year" (ferrors (year f))
  ++ field_errors "csrf_token" (csrf_token f).

Definition validate (f : t) : bool := bool_decide (errors f = []).

(** The values the handler passes to [Book(...)]. *)
Record values := mkValues {
  v_name : string; v_author : string; v_serial_number : string;
  v_department : string; v_major : string; v_year : Z
}.

Definition submitted_data (m : Method) (f : t) : option values :=
  if is_submitted m && validate f then
    match fdata (name f), fdata (author f), fdata (serial_number f),
          fdata (department f), fdata (major f), fdata (year f) with
    | Some n, Some a, Some s, Some d, Some mj, Some y => Some (mkValues n a s d mj y)
    | _, _, _, _, _, _ => None
    end
  else None.
End AddBookForm.

Module BookBorrowForm.
Record t := mk {
  student_name : field_state string;
  student_id : field_state string;
  department : field_state string;
  year : field_state Z;
  book : field_state Z;
  borrow_date : field_state date;
  csrf_token : list string
}.

(** [book_choices] is [form.book.choices], set by the handler before
    [validate_on_submit]. *)
Definition process (book_choices : list (Z * string)) (fd : FormData) (csrf : option string) : t :=
  mk (string_field fd "student_name") (string_field fd "student_id")
     (select_field department_choices fd "department")
     (select_field year_choices fd "year")
     (select_field book_choices fd "book")
     (date_field fd "borrow_date")
     (csrf_field csrf).

Definition errors (f : t) : list (string * list string) :=
  field_errors "student_name" (ferrors (student_name f))
  ++ field_errors "student_id" (ferrors (student_id f))
  ++ field_errors "department" (ferrors (department f))
  ++ field_errors "year" (ferrors (year f)) ++ field_errors "book" (ferrors (book f))
  ++ field_errors "borrow_date" (ferrors (borrow_date f))
  ++ field_errors "csrf_token" (csrf_token f).

Definition validate (f : t) : bool := bool_decide (errors f = []).

Record values := mkValues {
  v_student_name : string; v_student_id : string; v_department : string;
  v_year : Z; v_book : Z; v_borrow_date : date
}.

Definition submitted_data (m : Method) (f : t) : option values :=
  if is_submitted m && validate f then
    match fdata (student_name f), fdata (student_id f), fdata (department f),
          fdata (year f), fdata (book f), fdata (borrow_date f) with
    | Some n, Some i, Some d, Some y, Some b, Some dt => Some (mkValues n i d y b dt)
    | _, _, _, _, _, _ => None
    end
  else None.
End BookBorrowForm.

Module BookSuggestionForm.
Record t := mk {
  student_name : field_state string;
  student_id : field_state string;
  department : field_state string;
  year : field_state Z;
  csrf_token : list string
}.

Definition process (fd : FormData) (csrf : option string) : t :=
  mk (string_field fd "student_name") (string_field fd "student_id")
     (select_field department_choices fd "department")
     (select_field year_choices fd "year")
     (csrf_field csrf).

Definition errors (f : t) : list (string * list string) :=
  field_errors "student_name" (ferrors (student_name f))
  ++ field_errors "student_id" (ferrors (student_id f))
  ++ field_errors "department" (ferrors (department f))
  ++ field_errors "year" (ferrors (year f))
  ++ field_errors "csrf_token" (csrf_token f).

Definition validate (f : t) : bool := bool_decide (errors f = []).

(** The handler reads [student_id], [department] and [year]. *)
Record values := mkValues { v_student_id : string; v_department : string; v_year : Z }.

Definition submitted_data (m : Method) (f : t) : option values :=
  if is_submitted m && validate f then
    match fdata (student_id f), fdata (department f), fdata (year f) with
    | Some i, Some d, Some y => Some (mkValues i d y)
    | _, _, _ => None
    end
  else None.
End BookSuggestionForm.

Definition sample_borrow_form : FormData :=
  [("student_name", "Ann"); ("student_id", "S1"); ("department", "CS"); ("year", " 2");
   ("book", "1"); ("borrow_date", "2024-01-10")].

(** ** Lemmas *)

(** [form.errors] is empty exactly when no field has an error. *)
Lemma field_errors_nil name errs : field_errors name errs = [] <-> errs = [].
Proof. destruct errs; simpl; split; congruence. Qed.

Lemma app_nil_iff {A} (l1 l2 : list A) : l1 ++ l2 = [] <-> l1 = [] /\ l2 = [].
Proof. destruct l1, l2; simpl; intuition congruence. Qed.

Ltac errors_nil := rewrite ?app_nil_iff, ?field_errors_nil.

Section AddBookFormLemmas.
Import AddBookForm.

Lemma add_book_submitted_Some m f v :
  submitted_data m f = Some v <->
  is_submitted m = true /\ errors f = [] /\
  fdata (name f) = Some (v_name v) /\ fdata (author f) = Some (v_author v) /\
  fdata (serial_number f) = Some (v_serial_number v) /\
  fdata (department f) = Some (v_department v) /\ fdata (major f) = Some (v_major v) /\
  fdata (year f) = Some (v_year v).
Proof.
  unfold submitted_data, validate. destruct v.
  destruct (is_submitted m); simpl; [|naive_solver].
  case_bool_decide; simpl; [|naive_solver].
  repeat case_match; split; intros; simplify_eq; naive_solver.
Qed.

(** [form.validate()] holds exactly when every field passes. *)
Lemma add_book_errors_nil f :
  errors f = [] <->
  ferrors (name f) = [] /\ ferrors (author f) = [] /\ ferrors (serial_number f) = [] /\
  ferrors (department f) = [] /\ ferrors (major f) = [] /\ ferrors (year f) = [] /\
  csrf_token f = [].
Proof. unfold errors. errors_nil. done. Qed.
(** A form with an error, or a request that is not a submission, yields
    no data: the handler takes its re-render branch. *)
Lemma add_book_invalid m f : errors f <> [] -> submitted_data m f = None.
Proof.
  intros Herr. destruct (submitted_data m f) as [v|] eqn:E; [|done].
  by apply add_book_submitted_Some in E as (_ & ? & _).
Qed.

Lemma add_book_unsubmitted m f : is_submitted m = false -> submitted_data m f = None.
Proof. intros Hs. unfold submitted_data. by rewrite Hs. Qed.
(** A request whose CSRF check failed never validates. *)
Lemma add_book_csrf_failed m fd e : submitted_data m (process fd (Some e)) = None.
Proof.
  apply add_book_invalid. rewrite add_book_errors_nil. intros (_ & _ & _ & _ & _ & _ & H). discriminate H.
Qed.
End AddBookFormLemmas.

Section BookBorrowFormLemmas.
Import BookBorrowForm.

Lemma borrow_submitted_Some m f v :
  submitted_data m f = Some v <->
  is_submitted m = true /\ errors f = [] /\
  fdata (student_name f) = Some (v_student_name v) /\
  fdata (student_id f) = Some (v_student_id v) /\
  fdata (department f) = Some (v_department v) /\ fdata (year f) = Some (v_year v) /\
  fdata (book f) = Some (v_book v) /\ fdata (borrow_date f) = Some (v_borrow_date v).
Proof.
  unfold submitted_data, validate. destruct v.
  destruct (is_submitted m); simpl; [|naive_solver].
  case_bool_decide; simpl; [|naive_solver].
  repeat case_match; split; intros; simplify_eq; naive_solver.
Qed.

Lemma borrow_errors_nil f :
  errors f = [] <->
  ferrors (student_name f) = [] /\ ferrors (student_id f) = [] /\
  ferrors (department f) = [] /\ ferrors (year f) = [] /\ ferrors (book f) = [] /\
  ferrors (borrow_date f) = [] /\ csrf_token f = [].
Proof. unfold errors. errors_nil. done. Qed.
(** A form with an error, or a request that is not a submission, yields
    no data: the handler takes its re-render branch. *)
Lemma borrow_invalid m f : errors f <> [] -> submitted_data m f = None.
Proof.
  intros Herr. destruct (submitted_data m f) as [v|] eqn:E; [|done].
  by apply borrow_submitted_Some in E as (_ & ? & _).
Qed.

Lemma borrow_unsubmitted m f : is_submitted m = false -> submitted_data m f = None.
Proof. intros Hs. unfold submitted_data. by rewrite Hs. Qed.
(** A request whose CSRF check failed never validates. *)
Lemma borrow_csrf_failed book_choices m fd e : submitted_data m (process book_choices fd (Some e)) = None.
Proof.
  apply borrow_invalid. rewrite borrow_errors_nil. intros (_ & _ & _ & _ & _ & _ & H). discriminate H.
Qed.
End BookBorrowFormLemmas.

Section BookSuggestionFormLemmas.
Import BookSuggestionForm.

Lemma suggestion_submitted_Some m f v :
  submitted_data m f = Some v <->
  is_submitted m = true /\ errors f = [] /\
  fdata (student_id f) = Some (v_student_id v) /\
  fdata (department f) = Some (v_department v) /\ fdata (year f) = Some (v_year v).
Proof.
  unfold submitted_data, validate. destruct v.
  destruct (is_submitted m); simpl; [|naive_solver].
  case_bool_decide; simpl; [|naive_solver].
  repeat case_match; split; intros; simplify_eq; naive_solver.
Qed.

Lemma suggestion_errors_nil f :
  errors f = [] <->
  ferrors (student_name f) = [] /\ ferrors (student_id f) = [] /\
  ferrors (department f) = [] /\ ferrors (year f) = [] /\ csrf_token f = [].
Proof. unfold errors. errors_nil. done. Qed.
(** A form with an error, or a request that is not a submission, yields
    no data: the handler takes its re-render branch. *)
Lemma suggestion_invalid m f : errors f <> [] -> submitted_data m f = None.
Proof.
  intros Herr. destruct (submitted_data m f) as [v|] eqn:E; [|done].
  by apply suggestion_submitted_Some in E as (_ & ? & _).
Qed.

Lemma suggestion_unsubmitted m f : is_submitted m = false -> submitted_data m f = None.
Proof. intros Hs. unfold submitted_data. by rewrite Hs. Qed.
End BookSuggestionFormLemmas.

(** ** What the forms accept *)

Lemma csrf_field_nil csrf : csrf_field csrf = [] <-> csrf = None.
Proof. destruct csrf; simpl; split; congruence. Qed.

Lemma department_choices_required x : x ∈ department_choices.*1 -> required_ok x = true.
Proof. rewrite list_elem_of_In. simpl. by intros [<-|[<-|[<-|[]]]]. Qed.

Lemma major_choices_required x : x ∈ major_choices.*1 -> required_ok x = true.
Proof. rewrite list_elem_of_In. simpl. by intros [<-|[<-|[<-|[]]]]. Qed.

Lemma year_choices_required x : x ∈ year_choices.*1 -> required_ok x = true.
Proof. rewrite list_elem_of_In. simpl. by intros [<-|[<-|[<-|[<-|[]]]]]. Qed.

Lemma year_choices_range z : z ∈ year_choices.*1 <-> (1 <= z <= 4)%Z.
Proof.
  rewrite list_elem_of_In. simpl. split; [intros [<-|[<-|[<-|[<-|[]]]]]; lia|].
  intros Hz. assert (H : (z = 1 \/ z = 2 \/ z = 3 \/ z = 4)%Z) by lia.
  destruct H as [-> | [-> | [-> | ->]]]; tauto.
Qed.

Lemma nonzero_required (l : list (Z * string)) x :
  (forall y, y ∈ l.*1 -> y <> 0%Z) -> x ∈ l.*1 -> required_ok x = true.
Proof. intros Hnz Hx. unfold required_ok, required_int. apply negb_true_iff, Z.eqb_neq. auto. Qed.

Ltac use_field_ok E D :=
  first [ destruct (proj1 (string_field_ok _ _ _) (conj E D)) as [? ?]
        | destruct (proj1 (date_field_ok _ _ _) (conj E D)) as [? ?]
        | destruct (proj1 (select_field_ok _ _ _ _ department_choices_required) (conj E D))
            as (? & ? & ?%coerce_str_Some & ?); subst
        | destruct (proj1 (select_field_ok _ _ _ _ major_choices_required) (conj E D))
            as (? & ? & ?%coerce_str_Some & ?); subst
        | destruct (proj1 (select_field_ok _ _ _ _ year_choices_required) (conj E D))
            as (? & ? & ?%coerce_int_Some & ?) ].

(** What [AddBookForm.submitted_data] requires of the request, field by field. *)
Lemma add_book_submitted_iff m fd csrf v :
  AddBookForm.submitted_data m (AddBookForm.process fd csrf) = Some v <->
  is_submitted m = true /\ csrf = None /\
  head_opt (getlist fd "name") = Some (AddBookForm.v_name v) /\
  strip_truthy (AddBookForm.v_name v) = true /\
  head_opt (getlist fd "author") = Some (AddBookForm.v_author v) /\
  strip_truthy (AddBookForm.v_author v) = true /\
  head_opt (getlist fd "serial_number") = Some (AddBookForm.v_serial_number v) /\
  strip_truthy (AddBookForm.v_serial_number v) = true /\
  head_opt (getlist fd "department") = Some (AddBookForm.v_department v) /\
  AddBookForm.v_department v ∈ department_choices.*1 /\
  head_opt (getlist fd "major") = Some (AddBookForm.v_major v) /\
  AddBookForm.v_major v ∈ major_choices.*1 /\
  (exists s, head_opt (getlist fd "year") = Some s /\ py_int s = Ok (AddBookForm.v_year v)) /\
  AddBookForm.v_year v ∈ year_choices.*1.
Proof.
  rewrite add_book_submitted_Some, add_book_errors_nil.
  cbn [AddBookForm.process AddBookForm.name AddBookForm.author AddBookForm.serial_number
       AddBookForm.department AddBookForm.major AddBookForm.year AddBookForm.csrf_token].
  rewrite csrf_field_nil. split.
  - intros (Hm & (E1 & E2 & E3 & E4 & E5 & E6 & Ec) & D1 & D2 & D3 & D4 & D5 & D6).
    use_field_ok E1 D1. use_field_ok E2 D2. use_field_ok E3 D3.
    use_field_ok E4 D4. use_field_ok E5 D5. use_field_ok E6 D6.
    repeat split; eauto.
  - intros (Hm & Hc & H1 & T1 & H2 & T2 & H3 & T3 & H4 & I4 & H5 & I5 & (s & H6 & P6) & I6).
    destruct (proj2 (string_field_ok fd "name" _) (conj H1 T1)).
    destruct (proj2 (string_field_ok fd "author" _) (conj H2 T2)).
    destruct (proj2 (string_field_ok fd "serial_number" _) (conj H3 T3)).
    destruct (proj2 (select_field_ok department_choices fd "department"
      (AddBookForm.v_department v) department_choices_required)) as [? ?].
    { exists (AddBookForm.v_department v). by rewrite coerce_str_Some. }
    destruct (proj2 (select_field_ok major_choices fd "major"
      (AddBookForm.v_major v) major_choices_required)) as [? ?].
    { exists (AddBookForm.v_major v). by rewrite coerce_str_Some. }
    destruct (proj2 (select_field_ok year_choices fd "year"
      (AddBookForm.v_year v) year_choices_required)) as [? ?].
    { exists s. by rewrite coerce_int_Some. }
    repeat split; done.
Qed.

(** (C13) [AddBookForm().validate_on_submit()] succeeds, and
    the handler reads the values [v], exactly when the request is a
    submission with a valid CSRF token, the first [name], [author] and
    [serial_number] values are [v]'s and have a non-whitespace character,
    the first [department] and [major] values are [v]'s and are among the
    choices, and the first [year] value is text that [int] reads as [v]'s
    year, one of 1..4. *)
Theorem add_book_form_accepts m fd csrf v :
  AddBookForm.submitted_data m (AddBookForm.process fd csrf) = Some v <->
  is_submitted m = true /\ csrf = None /\
  head_opt (getlist fd "name") = Some (AddBookForm.v_name v) /\
  strip_truthy (AddBookForm.v_name v) = true /\
  head_opt (getlist fd "author") = Some (AddBookForm.v_author v) /\
  strip_truthy (AddBookForm.v_author v) = true /\
  head_opt (getlist fd "serial_number") = Some (AddBookForm.v_serial_number v) /\
  strip_truthy (AddBookForm.v_serial_number v) = true /\
  head_opt (getlist fd "department") = Some (AddBookForm.v_department v) /\
  AddBookForm.v_department v ∈ department_choices.*1 /\
  head_opt (getlist fd "major") = Some (AddBookForm.v_major v) /\
  AddBookForm.v_major v ∈ major_choices.*1 /\
  (exists s, head_opt (getlist fd "year") = Some s /\ py_int s = Ok (AddBookForm.v_year v)) /\
  AddBookForm.v_year v ∈ year_choices.*1.
Proof. apply add_book_submitted_iff. Qed.

(** What [BookBorrowForm.submitted_data] requires of the request, field by field. *)
Lemma borrow_submitted_iff (book_choices : list (Z * string)) m fd csrf v :
  (forall y, y ∈ book_choices.*1 -> y <> 0%Z) ->
  BookBorrowForm.submitted_data m (BookBorrowForm.process book_choices fd csrf) = Some v <->
  is_submitted m = true /\ csrf = None /\
  head_opt (getlist fd "student_name") = Some (BookBorrowForm.v_student_name v) /\
  strip_truthy (BookBorrowForm.v_student_name v) = true /\
  head_opt (getlist fd "student_id") = Some (BookBorrowForm.v_student_id v) /\
  strip_truthy (BookBorrowForm.v_student_id v) = true /\
  head_opt (getlist fd "department") = Some (BookBorrowForm.v_department v) /\
  BookBorrowForm.v_department v ∈ department_choices.*1 /\
  (exists s, head_opt (getlist fd "year") = Some s /\ py_int s = Ok (BookBorrowForm.v_year v)) /\
  BookBorrowForm.v_year v ∈ year_choices.*1 /\
  (exists s, head_opt (getlist fd "book") = Some s /\ py_int s = Ok (BookBorrowForm.v_book v)) /\
  BookBorrowForm.v_book v ∈ book_choices.*1 /\
  getlist fd "borrow_date" <> [] /\
  strptime_ymd (list_ascii_of_string (join " " (getlist fd "borrow_date")))
    = Ok (BookBorrowForm.v_borrow_date v).
Proof.
  intros Hnz. pose proof (fun x => nonzero_required book_choices x Hnz) as Hreq.
  rewrite borrow_submitted_Some, borrow_errors_nil.
  cbn [BookBorrowForm.process BookBorrowForm.student_name BookBorrowForm.student_id
       BookBorrowForm.department BookBorrowForm.year BookBorrowForm.book
       BookBorrowForm.borrow_date BookBorrowForm.csrf_token].
  rewrite csrf_field_nil. split.
  - intros (Hm & (E1 & E2 & E3 & E4 & E5 & E6 & Ec) & D1 & D2 & D3 & D4 & D5 & D6).
    use_field_ok E1 D1. use_field_ok E2 D2. use_field_ok E3 D3. use_field_ok E4 D4.
    destruct (proj1 (select_field_ok _ _ _ _ Hreq) (conj E5 D5))
      as (? & ? & ?%coerce_int_Some & ?).
    use_field_ok E6 D6.
    repeat split; eauto.
  - intros (Hm & Hc & H1 & T1 & H2 & T2 & H3 & I3 & (s & H4 & P4) & I4 & (b & H5 & P5) & I5 & N6 & P6).
    destruct (proj2 (string_field_ok fd "student_name" _) (conj H1 T1)).
    destruct (proj2 (string_field_ok fd "student_id" _) (conj H2 T2)).
    destruct (proj2 (select_field_ok department_choices fd "department"
      (BookBorrowForm.v_department v) department_choices_required)) as [? ?].
    { exists (BookBorrowForm.v_department v). by rewrite coerce_str_Some. }
    destruct (proj2 (select_field_ok year_choices fd "year"
      (BookBorrowForm.v_year v) year_choices_required)) as [? ?].
    { exists s. by rewrite coerce_int_Some. }
    destruct (proj2 (select_field_ok book_choices fd "book" (BookBorrowForm.v_book v) Hreq))
      as [? ?].
    { exists b. by rewrite coerce_int_Some. }
    destruct (proj2 (date_field_ok fd "borrow_date" _) (conj N6 P6)).
    repeat split; done.
Qed.

(** (C14) With book choices whose ids are non-zero (rowids
    are), [BookBorrowForm().validate_on_submit()] succeeds with values [v]
    exactly when the request is a submission with a valid CSRF token, the
    student's name and id are non-blank first values, the department and
    year are among their choices, the first [book] value is text that
    [int] reads as one of the offered book ids, and the [borrow_date]
    values, joined by a space, parse as [v]'s date. *)
Theorem borrow_form_accepts (book_choices : list (Z * string)) m fd csrf v :
  (forall y, y ∈ book_choices.*1 -> y <> 0%Z) ->
  BookBorrowForm.submitted_data m (BookBorrowForm.process book_choices fd csrf) = Some v <->
  is_submitted m = true /\ csrf = None /\
  head_opt (getlist fd "student_name") = Some (BookBorrowForm.v_student_name v) /\
  strip_truthy (BookBorrowForm.v_student_name v) = true /\
  head_opt (getlist fd "student_id") = Some (BookBorrowForm.v_student_id v) /\
  strip_truthy (BookBorrowForm.v_student_id v) = true /\
  head_opt (getlist fd "department") = Some (BookBorrowForm.v_department v) /\
  BookBorrowForm.v_department v ∈ department_choices.*1 /\
  (exists s, head_opt (getlist fd "year") = Some s /\ py_int s = Ok (BookBorrowForm.v_year v)) /\
  BookBorrowForm.v_year v ∈ year_choices.*1 /\
  (exists s, head_opt (getlist fd "book") = Some s /\ py_int s = Ok (BookBorrowForm.v_book v)) /\
  BookBorrowForm.v_book v ∈ book_choices.*1 /\
  getlist fd "borrow_date" <> [] /\
  strptime_ymd (list_ascii_of_string (join " " (getlist fd "borrow_date")))
    = Ok (BookBorrowForm.v_borrow_date v).
Proof. apply borrow_submitted_iff. Qed.

Example borrow_form_accepts_witness :
  (forall y, y ∈ [(1%Z, "Intro to Algorithms by Cormen")].*1 -> y <> 0%Z) /\
  BookBorrowForm.submitted_data POST
    (BookBorrowForm.process [(1%Z, "Intro to Algorithms by Cormen")] sample_borrow_form None)
  = Some (BookBorrowForm.mkValues "Ann" "S1" "CS" 2 1 (mkDate 2024 1 10)).
Proof.
  assert (Hnz : forall y, y ∈ [(1%Z, "Intro to Algorithms by Cormen")].*1 -> y <> 0%Z).
  { intros y Hy. apply list_elem_of_In in Hy. simpl in Hy. destruct Hy as [<-|[]]. lia. }
  split; [exact Hnz|]. apply (borrow_form_accepts _ _ _ _ _ Hnz).
  repeat split; try reflexivity; try (eexists; split; reflexivity); try decide_prop.
Defined.

