(* ===== verification/Suggest.v ===== *)
(** * Suggest: the suggestion query of [book_suggestions]

    src/app.py, lines 105-118: the books the student already borrowed are
    every [BookBorrow] row with the submitted [student_id] (whatever their
    department or year), and the suggestions are the [Book] rows of the
    submitted department and year whose id is not among them, in table
    order.

    SQLAlchemy sends [Book.id.in_(borrowed_book_ids)] as one bound
    parameter per list element (an empty list becomes a constant false
    test), next to the two parameters for department and year.  SQLite
    refuses a statement with more than [SQLITE_MAX_VARIABLE_NUMBER]
    parameters (32766 by default since SQLite 3.32.0) with
    "too many SQL variables", which SQLAlchemy raises as
    [OperationalError]: a student with 32765 or more borrow rows gets an
    error instead of suggestions.

    [suggestion_spec] states what spec.md (section 4.3) promises; the
    refinement theorem shows the query computes exactly those books. *)

From S2P Require Import Prelude PyStr PyDate Db.


(** [SQLITE_MAX_VARIABLE_NUMBER]. *)
Definition sqlite_max_variable_number : Z := 32766.

(** [BookBorrow.query.filter_by(student_id=student_id).all()]. *)
Definition borrowed_books (db : Db) (student_id : string) : list BookBorrow.t :=
  List.filter (fun r => BookBorrow.student_id r == student_id) (book_borrow_table db).

(** [[borrow.book_id for borrow in borrowed_books]]. *)
Definition borrowed_book_ids (db : Db) (student_id : string) : list Z :=
  map BookBorrow.book_id (borrowed_books db student_id).

(** The WHERE clause: [Book.department == department, Book.year == year,
    ~Book.id.in_(borrowed_book_ids)]. *)
Definition suggestion_filter (department : string) (year : Z) (ids : list Z) (b : Book.t) : bool :=
  (Book.department b == department) && (Book.year b == year)
  && negb (bool_decide (Book.id b ∈ ids)).

(** [Book.query.filter(...).all()]. *)
Definition suggested_books (db : Db) (department : string) (year : Z) (ids : list Z) :
    result db_error (list Book.t) :=
  if decide (sqlite_max_variable_number < 2 + Z.of_nat (List.length ids))%Z then Err TooManyVariables
  else Ok (List.filter (suggestion_filter department year ids) (book_table db)).

(** Lines 105-120 of [book_suggestions], after validation. *)
Definition suggestions (db : Db) (student_id department : string) (year : Z) :
    result db_error (list Book.t) :=
  suggested_books db department year (borrowed_book_ids db student_id).

(** ** The contract *)

(** The student has a borrow row for the book. *)
Definition already_borrowed (db : Db) (student_id : string) (b : Book.t) : Prop :=
  exists r, r ∈ book_borrow_table db /\ BookBorrow.student_id r = student_id /\
            BookBorrow.book_id r = Book.id b.

(** spec.md 4.3: a suggestion is a book of the submitted department and
    year that the student has not borrowed. *)
Definition suggestion_spec (db : Db) (student_id department : string) (year : Z) (b : Book.t) :
    Prop :=
  b ∈ book_table db /\ Book.department b = department /\ Book.year b = year /\
  ~ already_borrowed db student_id b.

(** The query succeeds when its parameters fit. *)
Definition within_parameter_limit (db : Db) (student_id : string) : Prop :=
  (2 + Z.of_nat (List.length (borrowed_books db student_id)) <= sqlite_max_variable_number)%Z.

(** What the query reads of a borrow row: its student and its book. *)
Definition borrow_key (r : BookBorrow.t) : string * Z := (BookBorrow.student_id r, BookBorrow.book_id r).

(** A small database: two CS year-2 books, the first borrowed by S1. *)
Definition sample_db : Db :=
  mkDb [Book.mk 1 "Intro to Algorithms" "Cormen" "SN-001" "CS" "SE" 2;
        Book.mk 2 "Algorithm Design" "Kleinberg" "SN-002" "CS" "SE" 2]
       [BookBorrow.mk 1 "Ann" "S1" "CS" 2 1 (mkDate 2024 1 10)].

(** A student with 32765 borrow rows. *)
Definition heavy_borrower_db : Db :=
  mkDb [Book.mk 1 "Intro to Algorithms" "Cormen" "SN-001" "CS" "SE" 2]
       (repeat (BookBorrow.mk 1 "Ann" "S1" "CS" 2 1 (mkDate 2024 1 10)) (Z.to_nat 32765)).

(** ** Lemmas *)

Lemma borrowed_book_ids_iff db student_id i :
  i ∈ borrowed_book_ids db student_id <->
  exists r, r ∈ book_borrow_table db /\ BookBorrow.student_id r = student_id /\
            BookBorrow.book_id r = i.
Proof.
  unfold borrowed_book_ids, borrowed_books. rewrite list_elem_of_In, in_map_iff.
  setoid_rewrite filter_In. setoid_rewrite <-list_elem_of_In.
  split; intros (r & ? & ? & ?); exists r; repeat split; try done; by case_bool_decide.
Qed.

Lemma borrowed_book_ids_keys db student_id :
  borrowed_book_ids db student_id =
  map snd (List.filter (fun p => p.1 == student_id) (map borrow_key (book_borrow_table db))).
Proof.
  unfold borrowed_book_ids, borrowed_books. destruct db as [bs rs]. simpl.
  induction rs as [|r rs IH]; simpl; [done|]. by destruct (_ == _); simpl; rewrite IH.
Qed.

Lemma suggestion_filter_true db student_id department year b :
  suggestion_filter department year (borrowed_book_ids db student_id) b = true <->
  Book.department b = department /\ Book.year b = year /\ ~ already_borrowed db student_id b.
Proof.
  unfold suggestion_filter, already_borrowed.
  rewrite !andb_true_iff, negb_true_iff, !bool_decide_eq_true, bool_decide_eq_false.
  rewrite borrowed_book_ids_iff. tauto.
Qed.

Lemma suggestions_within db student_id department year :
  within_parameter_limit db student_id ->
  suggestions db student_id department year =
  Ok (List.filter (suggestion_filter department year (borrowed_book_ids db student_id))
                  (book_table db)).
Proof.
  unfold within_parameter_limit, suggestions, suggested_books, borrowed_book_ids.
  intros Hlim. rewrite length_map, decide_False by lia. done.
Qed.

Lemma filter_sublist {A} (p : A -> bool) (l : list A) : List.filter p l `sublist_of` l.
Proof.
  induction l as [|x l IH]; simpl; [done|].
  destruct (p x); [by apply sublist_skip | by apply sublist_cons].
Qed.

(** ** Properties of the query *)

(** The query's result, when it succeeds, characterised by the contract. *)
Lemma suggestions_characterised db student_id department year :
  within_parameter_limit db student_id ->
  exists l, suggestions db student_id department year = Ok l /\
    (forall b, b ∈ l <-> suggestion_spec db student_id department year b) /\
    l `sublist_of` book_table db.
Proof.
  intros Hlim. rewrite suggestions_within by done. eexists. split; [done|]. split.
  - intros b. rewrite list_elem_of_In, filter_In, <-list_elem_of_In, suggestion_filter_true.
    unfold suggestion_spec. tauto.
  - apply filter_sublist.
Qed.

(** A book among the suggestions is of the submitted department and year
    and has no borrow row of the student. *)
Lemma suggestions_Ok_elem db student_id department year l b :
  suggestions db student_id department year = Ok l -> b ∈ l ->
  ~ already_borrowed db student_id b /\ Book.department b = department /\ Book.year b = year.
Proof.
  unfold suggestions, suggested_books. intros Hq. case_decide; simplify_eq.
  rewrite list_elem_of_In, filter_In, <-list_elem_of_In, suggestion_filter_true. tauto.
Qed.

(** (C6) Refinement of spec.md 4.3: when the statement's
    parameters fit, the query succeeds and returns, in table order, exactly
    the books of the submitted department and year that the student has
    not borrowed. *)
Theorem suggestions_refine db student_id department year :
  within_parameter_limit db student_id ->
  exists l, suggestions db student_id department year = Ok l /\
    (forall b, b ∈ l <-> suggestion_spec db student_id department year b) /\
    l `sublist_of` book_table db.
Proof. apply suggestions_characterised. Qed.

(** (C16) A student with more borrow rows than the
    statement has room for (32764) gets [OperationalError], not a list. *)
Theorem suggestions_too_many db student_id department year :
  ~ within_parameter_limit db student_id ->
  suggestions db student_id department year = Err TooManyVariables.
Proof.
  unfold within_parameter_limit, suggestions, suggested_books, borrowed_book_ids.
  intros Hlim. rewrite length_map, decide_True by lia. done.
Qed.

(** (C9) A student with no borrow row is suggested
    exactly the books of the submitted department and year, in table
    order. *)
Theorem suggestions_no_history db student_id department year :
  borrowed_books db student_id = [] ->
  suggestions db student_id department year =
  Ok (List.filter (fun b => (Book.department b == department) && (Book.year b == year))
                  (book_table db)).
Proof.
  intros Hnone. unfold suggestions, suggested_books, borrowed_book_ids.
  rewrite Hnone, decide_False by (unfold sqlite_max_variable_number; cbn [map List.length]; lia).
  f_equal.
  apply filter_ext. intros b. unfold suggestion_filter.
  cbn [map]. rewrite (bool_decide_eq_false_2 (Book.id b ∈ [])) by apply not_elem_of_nil.
  by rewrite andb_true_r.
Qed.

(** (C8) A book the student has a borrow row for is never
    suggested, even when its department and year match. *)
Theorem suggestions_exclude_borrowed db student_id department year l r b :
  suggestions db student_id department year = Ok l ->
  r ∈ book_borrow_table db -> BookBorrow.student_id r = student_id ->
  BookBorrow.book_id r = Book.id b ->
  b ∉ l.
Proof. intros Hq Hr Hs Hb Hin. apply (suggestions_Ok_elem _ _ _ _ _ _ Hq Hin). by exists r. Qed.

(** (C30) spec.md 9: the suggestions read a borrow row only through its
    [student_id] and [book_id]; the department and year recorded on the
    borrow row play no part. *)
Theorem suggestions_ignore_borrow_details books t1 t2 student_id department year :
  map borrow_key t1 = map borrow_key t2 ->
  suggestions (mkDb books t1) student_id department year =
  suggestions (mkDb books t2) student_id department year.
Proof.
  intros Hk. unfold suggestions. rewrite !borrowed_book_ids_keys. simpl. by rewrite Hk.
Qed.

(** ** Witnesses *)

Example suggestions_refine_witness :
  within_parameter_limit sample_db "S1" /\
  exists l, suggestions sample_db "S1" "CS" 2 = Ok l /\
    (forall b, b ∈ l <-> suggestion_spec sample_db "S1" "CS" 2 b) /\ l `sublist_of` book_table sample_db.
Proof.
  assert (H : within_parameter_limit sample_db "S1").
  { unfold within_parameter_limit, sqlite_max_variable_number. vm_compute. discriminate. }
  split; [exact H | exact (suggestions_refine _ _ _ _ H)].
Defined.

Example suggestions_too_many_witness :
  ~ within_parameter_limit heavy_borrower_db "S1" /\
  suggestions heavy_borrower_db "S1" "CS" 2 = Err TooManyVariables.
Proof.
  assert (H : ~ within_parameter_limit heavy_borrower_db "S1").
  { unfold within_parameter_limit, sqlite_max_variable_number.
    assert (E : Z.of_nat (List.length (borrowed_books heavy_borrower_db "S1")) = 32765%Z)
      by (vm_compute; reflexivity).
    rewrite E. lia. }
  split; [exact H | exact (suggestions_too_many _ _ _ _ H)].
Defined.

Example suggestions_no_history_witness :
  borrowed_books sample_db "S2" = [] /\
  suggestions sample_db "S2" "CS" 2 = Ok (book_table sample_db).
Proof.
  assert (H : borrowed_books sample_db "S2" = []) by reflexivity.
  split; [exact H|]. rewrite (suggestions_no_history _ _ _ _ H). reflexivity.
Defined.

Example suggestions_exclude_borrowed_witness :
  suggestions sample_db "S1" "CS" 2 = Ok [Book.mk 2 "Algorithm Design" "Kleinberg" "SN-002" "CS" "SE" 2] /\
  Book.mk 1 "Intro to Algorithms" "Cormen" "SN-001" "CS" "SE" 2
    ∉ [Book.mk 2 "Algorithm Design" "Kleinberg" "SN-002" "CS" "SE" 2].
Proof.
  assert (Hq : suggestions sample_db "S1" "CS" 2
               = Ok [Book.mk 2 "Algorithm Design" "Kleinberg" "SN-002" "CS" "SE" 2]) by reflexivity.
  split; [exact Hq|].
  apply (suggestions_exclude_borrowed sample_db "S1" "CS" 2 _
           (BookBorrow.mk 1 "Ann" "S1" "CS" 2 1 (mkDate 2024 1 10)));
    first [exact Hq | reflexivity | by apply list_elem_of_here].
Defined.

Example suggestions_ignore_borrow_details_witness :
  map borrow_key (book_borrow_table sample_db) =
  map borrow_key [BookBorrow.mk 1 "Ann" "S1" "MATH" 4 1 (mkDate 2023 5 1)] /\
  suggestions sample_db "S1" "CS" 2 =
  suggestions (mkDb (book_table sample_db) [BookBorrow.mk 1 "Ann" "S1" "MATH" 4 1 (mkDate 2023 5 1)])
    "S1" "CS" 2.
Proof.
  assert (H : map borrow_key (book_borrow_table sample_db) =
              map borrow_key [BookBorrow.mk 1 "Ann" "S1" "MATH" 4 1 (mkDate 2023 5 1)])
    by reflexivity.
  split; [exact H | exact (suggestions_ignore_borrow_details _ _ _ _ _ _ H)].
Defined.
