(* ===== verification/App.v ===== *)
(** * App: the routes and handlers of src/app.py

    A request is dispatched on its path (Werkzeug's URL map built by the
    [@app.route] decorators, lines 59-126) to one of five view functions.
    A rule's methods are the declared ones plus HEAD when GET is declared
    and OPTIONS, which Flask answers itself; a request for a known path
    with another method gets 405.  The application state is the database
    file and the session's flash queue ([flash()] appends
    [(category, message)]); a handler returns the new state and the
    response.  When a commit raises, the exception escapes the handler:
    Flask answers 500 and the session rolls back, so the state is
    unchanged.  The templates are not in the repository; a rendered
    response is modelled by the template's context. *)

From S2P Require Import Prelude PyStr PyInt PyDate Fields Db Forms Suggest.


(** The parts of a request the application reads.  [csrf] is the outcome
    of Flask-WTF's token check ([None]: valid). *)
Record Request := mkRequest {
  method : Method; path : string; form : FormData; csrf : option string
}.

(** The context passed to [render_template]: the template, the form's
    errors (empty when the form was not validated) and its data lists. *)
Inductive View :=
| HomeView                                                          (* home.html *)
| AddBookView (errors : list (string * list string))                 (* add_book.html *)
| BorrowView (book_choices : list (Z * string)) (errors : list (string * list string))
                                                                    (* book_borrow.html *)
| SuggestionsView (errors : list (string * list string)) (suggestions : list Book.t).
                                                                    (* book_suggestions.html *)

Inductive Response :=
| Render (v : View)
| Redirect (location : string)
| PermanentRedirect (location : string)                  (* 308, Werkzeug's RequestRedirect *)
| NotFound
| MethodNotAllowed (allowed : list Method)
| OptionsResponse (allowed : list Method)
| InternalServerError (e : db_error).

(** The state shared by all requests: the database file and the flashed
    messages of the session. *)
Record AppState := mkState { db : Db; flashes : list (string * string) }.

(** [db.create_all()] at start-up, an empty session. *)
Definition init_state : AppState := mkState empty_db [].

(** [flash(message, category)]. *)
Definition flash (st : AppState) (message category : string) : AppState :=
  mkState (db st) (flashes st ++ [(category, message)]).

(** [form.errors] as the re-rendered template sees it: only a submitted
    form was validated. *)
Definition shown_errors (m : Method) (errs : list (string * list string)) :=
  if is_submitted m then errs else [].

(** ** The view functions *)

(** [index] (lines 59-61) and [home] (lines 124-126). *)
Definition index (st : AppState) (rq : Request) : AppState * Response := (st, Render HomeView).
Definition home (st : AppState) (rq : Request) : AppState * Response := (st, Render HomeView).

(** [add_book] (lines 63-79). *)
Definition add_book (st : AppState) (rq : Request) : AppState * Response :=
  let f := AddBookForm.process (form rq) (csrf rq) in
  match AddBookForm.submitted_data (method rq) f with
  | Some v =>
      match insert_book (db st) (AddBookForm.v_name v) (AddBookForm.v_author v)
              (AddBookForm.v_serial_number v) (AddBookForm.v_department v)
              (AddBookForm.v_major v) (AddBookForm.v_year v) with
      | Ok db' => (flash (mkState db' (flashes st)) "Book added successfully!" "success",
                   Redirect "/add_book")
      | Err e => (st, InternalServerError e)
      end
  | None => (st, Render (AddBookView (shown_errors (method rq) (AddBookForm.errors f))))
  end.

(** [form.book.choices = [(book.id, f"{book.name} by {book.author}") for
    book in Book.query.all()]] (line 84). *)
Definition book_choices (d : Db) : list (Z * string) :=
  map (fun b => (Book.id b, Book.name b +s+ " by " +s+ Book.author b)) (book_table d).

(** [book_borrow] (lines 81-98). *)
Definition book_borrow (st : AppState) (rq : Request) : AppState * Response :=
  let choices := book_choices (db st) in
  let f := BookBorrowForm.process choices (form rq) (csrf rq) in
  match BookBorrowForm.submitted_data (method rq) f with
  | Some v =>
      match insert_book_borrow (db st) (BookBorrowForm.v_student_name v)
              (BookBorrowForm.v_student_id v) (BookBorrowForm.v_department v)
              (BookBorrowForm.v_year v) (BookBorrowForm.v_book v)
              (BookBorrowForm.v_borrow_date v) with
      | Ok db' => (flash (mkState db' (flashes st)) "Book borrowed successfully!" "success",
                   Redirect "/book_borrow")
      | Err e => (st, InternalServerError e)
      end
  | None => (st, Render (BorrowView choices (shown_errors (method rq) (BookBorrowForm.errors f))))
  end.

(** [book_suggestions] (lines 100-122). *)
Definition book_suggestions (st : AppState) (rq : Request) : AppState * Response :=
  let f := BookSuggestionForm.process (form rq) (csrf rq) in
  let errs := shown_errors (method rq) (BookSuggestionForm.errors f) in
  match BookSuggestionForm.submitted_data (method rq) f with
  | Some v =>
      match suggestions (db st) (BookSuggestionForm.v_student_id v)
              (BookSuggestionForm.v_department v) (BookSuggestionForm.v_year v) with
      | Ok l => (st, Render (SuggestionsView errs l))
      | Err e => (st, InternalServerError e)
      end
  | None => (st, Render (SuggestionsView errs []))
  end.

(** ** Routing *)

Definition Handler := AppState -> Request -> AppState * Response.

(** The URL map: rule, declared methods, view function. *)
Definition url_map : list (string * list Method * Handler) :=
  [("/", [GET], index);
   ("/add_book", [GET; POST], add_book);
   ("/book_borrow", [GET; POST], book_borrow);
   ("/book_suggestions", [GET; POST], book_suggestions);
   ("/home", [GET], home)].

(** The methods a rule answers: HEAD with GET, and OPTIONS. *)
Definition rule_methods (ms : list Method) : list Method :=
  ms ++ (if bool_decide (GET ∈ ms) then [HEAD] else []) ++ [OPTIONS].

(** [path_info.lstrip("/")]. *)
Fixpoint lstrip_slashes (s : string) : string :=
  match s with
  | String c r => if (c =? "/")%char then lstrip_slashes r else s
  | EmptyString => EmptyString
  end.

(** The path [MapAdapter.match] hands to the matcher:
    [f"/{path_info.lstrip('/')}" if path_info else ""]. *)
Definition path_part (p : string) : string :=
  match p with
  | EmptyString => EmptyString
  | _ => String "/" (lstrip_slashes p)
  end.

(** [re.sub("/{2,}?", "/", path)], the matcher's [merge_slashes] retry:
    the lazy pattern matches two slashes, so each pair of slashes, from
    the left, becomes one. *)
Fixpoint merge_slash_pairs (s : string) : string :=
  match s with
  | String c s' =>
      match s' with
      | String c' r =>
          if (c =? "/")%char && (c' =? "/")%char then String "/" (merge_slash_pairs r)
          else String c (merge_slash_pairs s')
      | EmptyString => String c EmptyString
      end
  | EmptyString => EmptyString
  end.

(** The rule of the URL map for a path: every rule is static. *)
Definition find_rule (p : string) : option (string * list Method * Handler) :=
  List.find (fun r => r.1.1 == p) url_map.

(** [app.wsgi_app] for one request: Werkzeug's [MapAdapter.match] (the
    rule for the path and method; on no match the retry with slashes
    merged, which answers 308 to the merged path; 405 when a rule matched
    the path but not the method, 404 otherwise), then Flask's automatic
    OPTIONS answer or the view function. *)
Definition dispatch (st : AppState) (rq : Request) : AppState * Response :=
  let p := path_part (path rq) in
  match find_rule p with
  | Some (_, ms, h) =>
      let allowed := rule_methods ms in
      if bool_decide (method rq ∈ allowed) then
        if method rq == OPTIONS then (st, OptionsResponse allowed) else h st rq
      else (st, MethodNotAllowed allowed)
  | None =>
      let p' := merge_slash_pairs p in
      match find_rule p' with
      | Some (_, ms, _) =>
          let allowed := rule_methods ms in
          if bool_decide (method rq ∈ allowed) then (st, PermanentRedirect p')
          else (st, MethodNotAllowed allowed)
      | None => (st, NotFound)
      end
  end.

(** States the running application can be in: requests are handled one
    at a time (spec.md 5). *)
Inductive reachable : AppState -> Prop :=
| reachable_init : reachable init_state
| reachable_step st rq : reachable st -> reachable (dispatch st rq).1.

(** A sequence of requests from a state. *)
Fixpoint run (st : AppState) (rqs : list Request) : AppState * list Response :=
  match rqs with
  | [] => (st, [])
  | rq :: rqs' =>
      let '(st1, r) := dispatch st rq in
      let '(st2, rs) := run st1 rqs' in
      (st2, r :: rs)
  end.

(** ** The application invariant *)

(** What every stored book satisfies: the form's checks on its values. *)
Definition book_row_ok (b : Book.t) : Prop :=
  strip_truthy (Book.name b) = true /\ strip_truthy (Book.author b) = true /\
  strip_truthy (Book.serial_number b) = true /\
  Book.department b ∈ department_choices.*1 /\ Book.major b ∈ major_choices.*1 /\
  Book.year b ∈ year_choices.*1.

(** What every stored borrow satisfies. *)
Definition borrow_row_ok (r : BookBorrow.t) : Prop :=
  strip_truthy (BookBorrow.student_name r) = true /\ strip_truthy (BookBorrow.student_id r) = true /\
  BookBorrow.department r ∈ department_choices.*1 /\ BookBorrow.year r ∈ year_choices.*1 /\
  valid_date (BookBorrow.borrow_date r).

Definition app_wf (st : AppState) : Prop :=
  db_wf (db st) /\ Forall book_row_ok (book_table (db st)) /\
  Forall borrow_row_ok (book_borrow_table (db st)).

(** ** A request that can always be accepted *)

(** A serial number that no book of [l] has: one character longer than
    all their serial numbers together. *)
Definition fresh_serial (l : list string) : string := String "#" (foldr String.append "" l).

(** The values of a stored book, as the add-book form submits them: the
    row without its rowid. *)
Definition book_values (b : Book.t) : AddBookForm.values :=
  AddBookForm.mkValues (Book.name b) (Book.author b) (Book.serial_number b)
    (Book.department b) (Book.major b) (Book.year b).

(** An add-book submission with a serial number new to [d]. *)
Definition fresh_book_request (d : Db) : Request :=
  mkRequest POST "/add_book"
    [("name", "New book"); ("author", "Anon");
     ("serial_number", fresh_serial (map Book.serial_number (book_table d)));
     ("department", "CS"); ("major", "SE"); ("year", "1")] None.

(** ** Requests for the witnesses, after the scenario of spec.md 8 *)

Definition scenario_add_1 : Request :=
  mkRequest POST "/add_book"
    [("name", "Intro to Algorithms"); ("author", "Cormen"); ("serial_number", "SN-001");
     ("department", "CS"); ("major", "SE"); ("year", "2")] None.
Definition scenario_borrow : Request :=
  mkRequest POST "/book_borrow"
    [("student_name", "Ann"); ("student_id", "S1"); ("department", "CS"); ("year", "2");
     ("book", "1"); ("borrow_date", "2024-01-10")] None.
Definition scenario_add_2 : Request :=
  mkRequest POST "/add_book"
    [("name", "Algorithm Design"); ("author", "Kleinberg"); ("serial_number", "SN-002");
     ("department", "CS"); ("major", "SE"); ("year", "2")] None.
Definition scenario_suggest : Request :=
  mkRequest POST "/book_suggestions"
    [("student_name", "Ann"); ("student_id", "S1"); ("department", "CS"); ("year", "2")] None.


Definition bad_date_request : Request :=
  mkRequest POST "/book_borrow"
    [("student_name", "Ann"); ("student_id", "S1"); ("department", "CS"); ("year", "2");
     ("book", "1"); ("borrow_date", "2024-02-30")] None.

Definition bad_suggestion_year_request : Request :=
  mkRequest POST "/book_suggestions"
    [("student_name", "Ann"); ("student_id", "S1"); ("department", "CS"); ("year", "5")] None.

Definition new_book_suggest_request : Request :=
  mkRequest POST "/book_suggestions"
    [("student_name", "Ann"); ("student_id", "S1"); ("department", "CS"); ("year", "1")] None.

Definition scenario_add_3 : Request :=
  mkRequest POST "/add_book"
    [("name", "Linear Algebra"); ("author", "Strang"); ("serial_number", "SN-003");
     ("department", "MATH"); ("major", "DS"); ("year", "1")] None.

(** States and requests for the witnesses. *)
Definition scenario_state_1 : AppState := (dispatch init_state scenario_add_1).1.
Definition scenario_state_3 : AppState :=
  (run init_state [scenario_add_1; scenario_borrow; scenario_add_2]).1.
Definition scenario_two_books : AppState :=
  (run init_state [scenario_add_1; scenario_add_2]).1.
Definition scenario_values_1 : AddBookForm.values :=
  AddBookForm.mkValues "Intro to Algorithms" "Cormen" "SN-001" "CS" "SE" 2.
Definition scenario_borrow_values : BookBorrowForm.values :=
  BookBorrowForm.mkValues "Ann" "S1" "CS" 2 1 (mkDate 2024 1 10).
Definition unknown_book_request : Request :=
  mkRequest POST "/book_borrow"
    [("student_name", "Ann"); ("student_id", "S1"); ("department", "CS"); ("year", "2");
     ("book", "7"); ("borrow_date", "2024-01-10")] None.
Definition bad_year_request : Request :=
  mkRequest POST "/add_book"
    [("name", "Intro to Algorithms"); ("author", "Cormen"); ("serial_number", "SN-001");
     ("department", "CS"); ("major", "SE"); ("year", "second")] None.

(** ** Routing lemmas *)

(** A request the URL map routes to the view [h] is handled by [h]. *)
Lemma dispatch_route st rq p q ms h :
  path_part (path rq) = p -> find_rule p = Some (q, ms, h) ->
  method rq ∈ rule_methods ms -> method rq <> OPTIONS ->
  dispatch st rq = h st rq.
Proof.
  intros Hp Hf Hm Ho. unfold dispatch. cbv zeta. rewrite Hp, Hf.
  rewrite bool_decide_eq_true_2 by done. by rewrite bool_decide_eq_false_2.
Qed.

Lemma route_add_book : find_rule "/add_book" = Some ("/add_book", [GET; POST], add_book).
Proof. reflexivity. Qed.
Lemma route_book_borrow : find_rule "/book_borrow" = Some ("/book_borrow", [GET; POST], book_borrow).
Proof. reflexivity. Qed.
Lemma route_book_suggestions :
  find_rule "/book_suggestions" = Some ("/book_suggestions", [GET; POST], book_suggestions).
Proof. reflexivity. Qed.
Lemma route_index : find_rule "/" = Some ("/", [GET], index).
Proof. reflexivity. Qed.
Lemma route_home : find_rule "/home" = Some ("/home", [GET], home).
Proof. reflexivity. Qed.

(** The paths of the URL map. *)
Lemma url_map_paths : url_map.*1.*1 = ["/"; "/add_book"; "/book_borrow"; "/book_suggestions"; "/home"].
Proof. reflexivity. Qed.











(** A case analysis on a path of the URL map. *)
Ltac case_route Hp :=
  rewrite ?url_map_paths in Hp;
  repeat (apply elem_of_cons in Hp as [Hp|Hp]; [subst|]); [..|by apply not_elem_of_nil in Hp].

Lemma get_head_allowed m : m ∈ [GET; HEAD] -> m ∈ rule_methods [GET; POST] /\ m <> OPTIONS.
Proof. intros Hm. apply list_elem_of_In in Hm as [<-|[<-|[]]]; split; (decide_prop || done). Qed.

Lemma get_head_unsubmitted m : m ∈ [GET; HEAD] -> is_submitted m = false.
Proof. intros Hm. by apply list_elem_of_In in Hm as [<-|[<-|[]]]. Qed.

Lemma post_allowed : POST ∈ rule_methods [GET; POST].
Proof. by vm_compute; repeat constructor. Qed.

Ltac route_post R :=
  match goal with
  | Hp : path ?rq = _, Hm : method ?rq = POST |- context [dispatch ?st ?rq] =>
      rewrite (dispatch_route st rq _ _ _ _ ltac:(rewrite Hp; reflexivity) R)
        by (rewrite Hm; [apply post_allowed || done])
  end.

(** The rows of the book table as [book.id], the values of the [book]
    select. *)
Lemma book_choices_ids d : (book_choices d).*1 = map Book.id (book_table d).
Proof.
  unfold book_choices. induction (book_table d) as [|b l IH]; [done|]. cbn. by f_equal.
Qed.

Lemma book_choices_nonzero d :
  db_wf d -> forall y, y ∈ (book_choices d).*1 -> y <> 0%Z.
Proof.
  intros (Hb & _) y Hy. rewrite book_choices_ids in Hy.
  pose proof (dense_rowids_pos (book_table d) y Hb Hy). lia.
Qed.


(** ** Which views can change the state *)

Lemma book_suggestions_state st rq : (book_suggestions st rq).1 = st.
Proof. unfold book_suggestions. by repeat case_match. Qed.

(** A view function other than [add_book] and [book_borrow] returns the
    state it was given; those two run on an allowed method other than
    OPTIONS. *)
Lemma dispatch_state st rq :
  (dispatch st rq).1 = st \/
  (method rq ∈ rule_methods [GET; POST] /\ method rq <> OPTIONS /\
   ((path_part (path rq) = "/add_book" /\ dispatch st rq = add_book st rq) \/
    (path_part (path rq) = "/book_borrow" /\ dispatch st rq = book_borrow st rq))).
Proof.
  unfold dispatch. cbv zeta. destruct (find_rule _) as [[[p ms] h]|] eqn:E;
    [|left; by repeat case_match].
  apply find_some in E as [Hin Hp]. simpl in Hp. case_bool_decide as Hpath; [|done]. subst p.
  case_bool_decide as Hm; [|by left]. case_bool_decide as Ho; [by left|].
  simpl in Hin. destruct Hin as [Hr|[Hr|[Hr|[Hr|[Hr|[]]]]]]; injection Hr as <- <- <-;
    [by left | right; eauto | right; eauto | left; apply book_suggestions_state | by left].
Qed.

(** [add_book] and [book_borrow] change the state only when their form was
    submitted and valid. *)
Lemma add_book_state st rq :
  (add_book st rq).1 <> st ->
  exists v, AddBookForm.submitted_data (method rq) (AddBookForm.process (form rq) (csrf rq)) = Some v.
Proof. unfold add_book. destruct AddBookForm.submitted_data; [eauto|done]. Qed.

Lemma book_borrow_state st rq :
  (book_borrow st rq).1 <> st ->
  exists v, BookBorrowForm.submitted_data (method rq)
    (BookBorrowForm.process (book_choices (db st)) (form rq) (csrf rq)) = Some v.
Proof. unfold book_borrow. destruct BookBorrowForm.submitted_data; [eauto|done]. Qed.

(** A request that is not a submission renders the view's page with no
    errors and changes nothing. *)
Lemma add_book_unsubmitted_view st rq :
  is_submitted (method rq) = false -> add_book st rq = (st, Render (AddBookView [])).
Proof. intros Hs. unfold add_book, shown_errors. cbv zeta. by rewrite add_book_unsubmitted, Hs. Qed.

Lemma book_borrow_unsubmitted_view st rq :
  is_submitted (method rq) = false ->
  book_borrow st rq = (st, Render (BorrowView (book_choices (db st)) [])).
Proof. intros Hs. unfold book_borrow, shown_errors. cbv zeta. by rewrite borrow_unsubmitted, Hs. Qed.

Lemma book_suggestions_unsubmitted_view st rq :
  is_submitted (method rq) = false -> book_suggestions st rq = (st, Render (SuggestionsView [] [])).
Proof.
  intros Hs. unfold book_suggestions, shown_errors. cbv zeta. by rewrite suggestion_unsubmitted, Hs.
Qed.

(** A submission with a form error writes nothing and re-renders the
    form with its errors. *)
Lemma add_book_rejects st rq e :
  method rq = POST -> e ∈ AddBookForm.errors (AddBookForm.process (form rq) (csrf rq)) ->
  add_book st rq = (st, Render (AddBookView (AddBookForm.errors (AddBookForm.process (form rq) (csrf rq))))).
Proof.
  intros Hm He. unfold add_book, shown_errors. cbv zeta.
  by rewrite (add_book_invalid _ _ (elem_of_not_nil _ _ He)), Hm.
Qed.

Lemma book_borrow_rejects st rq e :
  method rq = POST ->
  e ∈ BookBorrowForm.errors (BookBorrowForm.process (book_choices (db st)) (form rq) (csrf rq)) ->
  book_borrow st rq =
  (st, Render (BorrowView (book_choices (db st))
                 (BookBorrowForm.errors (BookBorrowForm.process (book_choices (db st)) (form rq) (csrf rq))))).
Proof.
  intros Hm He. unfold book_borrow, shown_errors. cbv zeta.
  by rewrite (borrow_invalid _ _ (elem_of_not_nil _ _ He)), Hm.
Qed.

(** The book of an accepted borrow submission is a stored book. *)
Lemma borrow_submitted_book st rq v :
  db_wf (db st) ->
  BookBorrowForm.submitted_data (method rq)
    (BookBorrowForm.process (book_choices (db st)) (form rq) (csrf rq)) = Some v ->
  BookBorrowForm.v_book v ∈ map Book.id (book_table (db st)).
Proof.
  intros Hwf Hv. apply (borrow_submitted_iff _ _ _ _ _ (book_choices_nonzero _ Hwf)) in Hv.
  rewrite <-book_choices_ids. naive_solver.
Qed.

Lemma book_suggestions_rejects st rq e :
  method rq = POST ->
  e ∈ BookSuggestionForm.errors (BookSuggestionForm.process (form rq) (csrf rq)) ->
  book_suggestions st rq =
  (st, Render (SuggestionsView (BookSuggestionForm.errors (BookSuggestionForm.process (form rq) (csrf rq))) [])).
Proof.
  intros Hm He. unfold book_suggestions, shown_errors. cbv zeta.
  by rewrite (suggestion_invalid _ _ (elem_of_not_nil _ _ He)), Hm.
Qed.



Lemma submitted_allowed m : is_submitted m = true -> m ∈ rule_methods [GET; POST] -> m = POST.
Proof.
  unfold is_submitted. rewrite bool_decide_eq_true. intros H1 H2.
  apply list_elem_of_In in H1, H2. simpl in *. destruct m; naive_solver.
Qed.

(** ** The handlers *)

(** (C2) A valid add-book submission that repeats a serial
    number changes nothing (no row, no flash) and answers 500 with the
    [IntegrityError] of the UNIQUE constraint. *)
Theorem add_book_duplicate_serial st rq v :
  db_wf (db st) -> below_rowid_limit (db st) ->
  path rq = "/add_book" -> method rq = POST ->
  AddBookForm.submitted_data (method rq) (AddBookForm.process (form rq) (csrf rq)) = Some v ->
  AddBookForm.v_serial_number v ∈ map Book.serial_number (book_table (db st)) ->
  dispatch st rq = (st, InternalServerError (IntegrityError unique_serial_message)).
Proof.
  intros Hwf Hlim Hp Hm Hv Hdup. route_post route_add_book.
  unfold add_book. rewrite Hv, insert_book_duplicate by done. reflexivity.
Qed.

(** (C1) A valid add-book submission with a new serial number
    appends exactly one row to the [book] table, with the next rowid and the
    submitted values, leaves the [book_borrow] table alone, flashes
    "Book added successfully!" and redirects to [/add_book]. *)
Theorem add_book_inserts st rq v :
  db_wf (db st) -> below_rowid_limit (db st) ->
  path rq = "/add_book" -> method rq = POST ->
  AddBookForm.submitted_data (method rq) (AddBookForm.process (form rq) (csrf rq)) = Some v ->
  AddBookForm.v_serial_number v ∉ map Book.serial_number (book_table (db st)) ->
  dispatch st rq =
  (mkState (mkDb (book_table (db st)
                  ++ [Book.mk (Z.of_nat (S (List.length (book_table (db st)))))
                        (AddBookForm.v_name v) (AddBookForm.v_author v)
                        (AddBookForm.v_serial_number v) (AddBookForm.v_department v)
                        (AddBookForm.v_major v) (AddBookForm.v_year v)])
                 (book_borrow_table (db st)))
           (flashes st ++ [("success", "Book added successfully!")]),
   Redirect "/add_book").
Proof.
  intros Hwf Hlim Hp Hm Hv Hfresh. route_post route_add_book.
  unfold add_book. rewrite Hv, insert_book_fresh by done. reflexivity.
Qed.

(** (C4) A borrow submission whose [book] value is the
    text of a non-zero integer that is not the id of a current book is
    refused: nothing is written, and the form is re-rendered with
    "Not a valid choice." on the [book] field. *)
Theorem book_borrow_rejects_unknown_book st rq s rest i :
  path rq = "/book_borrow" -> method rq = POST ->
  getlist (form rq) "book" = s :: rest -> py_int s = Ok i -> i <> 0%Z ->
  i ∉ map Book.id (book_table (db st)) ->
  exists errs, dispatch st rq = (st, Render (BorrowView (book_choices (db st)) errs)) /\
               ("book", [msg_not_valid_choice]) ∈ errs.
Proof.
  intros Hp Hm Hg Hi Hnz Hn. route_post route_book_borrow.
  set (f := BookBorrowForm.process (book_choices (db st)) (form rq) (csrf rq)).
  assert (Hbook : BookBorrowForm.book f = mkField (Some i) [msg_not_valid_choice]).
  { unfold f. cbn [BookBorrowForm.book BookBorrowForm.process].
    apply (select_field_not_choice _ _ _ s rest).
    - exact Hg.
    - by apply coerce_int_Some.
    - by rewrite book_choices_ids.
    - by apply negb_true_iff, Z.eqb_neq. }
  assert (Herr : ("book", [msg_not_valid_choice]) ∈ BookBorrowForm.errors f).
  { unfold BookBorrowForm.errors. rewrite Hbook. cbn [ferrors field_errors].
    rewrite !elem_of_app, list_elem_of_singleton. tauto. }
  eexists. split; [exact (book_borrow_rejects st rq _ Hm Herr) | exact Herr].
Qed.

(** (C33) A POST to [/book_borrow] whose [borrow_date] values do not
    parse as a date (no match, unconverted data, or a day, month or year
    out of range) writes nothing and re-renders the form with the single
    message "This field is required." on [borrow_date]: [DataRequired]
    clears "Not a valid date value.". *)
Theorem book_borrow_bad_date st rq e :
  path rq = "/book_borrow" -> method rq = POST ->
  getlist (form rq) "borrow_date" <> [] ->
  strptime_ymd (list_ascii_of_string (join " " (getlist (form rq) "borrow_date"))) = Err e ->
  exists errs, dispatch st rq = (st, Render (BorrowView (book_choices (db st)) errs)) /\
               ("borrow_date", [msg_required]) ∈ errs.
Proof.
  intros Hp Hm Hne Hs. route_post route_book_borrow.
  set (f := BookBorrowForm.process (book_choices (db st)) (form rq) (csrf rq)).
  assert (Hd : BookBorrowForm.borrow_date f = mkField None [msg_required])
    by exact (date_field_unparsable _ _ e Hne Hs).
  assert (Herr : ("borrow_date", [msg_required]) ∈ BookBorrowForm.errors f).
  { unfold BookBorrowForm.errors. rewrite Hd. cbn [ferrors field_errors].
    rewrite !elem_of_app, list_elem_of_singleton. tauto. }
  eexists. split; [exact (book_borrow_rejects st rq _ Hm Herr) | exact Herr].
Qed.

(** (C3) A valid borrow submission appends exactly one row to
    the [book_borrow] table, with the next rowid and the submitted values,
    whose [book_id] is the id of a book of the [book] table; it flashes
    "Book borrowed successfully!" and redirects to [/book_borrow]. *)
Theorem book_borrow_inserts st rq v :
  db_wf (db st) -> below_rowid_limit (db st) ->
  path rq = "/book_borrow" -> method rq = POST ->
  BookBorrowForm.submitted_data (method rq)
    (BookBorrowForm.process (book_choices (db st)) (form rq) (csrf rq)) = Some v ->
  BookBorrowForm.v_book v ∈ map Book.id (book_table (db st)) /\
  dispatch st rq =
  (mkState (mkDb (book_table (db st))
                 (book_borrow_table (db st)
                  ++ [BookBorrow.mk (Z.of_nat (S (List.length (book_borrow_table (db st)))))
                        (BookBorrowForm.v_student_name v) (BookBorrowForm.v_student_id v)
                        (BookBorrowForm.v_department v) (BookBorrowForm.v_year v)
                        (BookBorrowForm.v_book v) (BookBorrowForm.v_borrow_date v)]))
           (flashes st ++ [("success", "Book borrowed successfully!")]),
   Redirect "/book_borrow").
Proof.
  intros Hwf Hlim Hp Hm Hv. split; [by eapply borrow_submitted_book|].
  route_post route_book_borrow. unfold book_borrow. rewrite Hv, insert_book_borrow_ok by done.
  reflexivity.
Qed.

(** (C5) A valid suggestion submission, for a student
    whose borrow rows fit in the statement, renders exactly the books of
    the submitted department and year that the student has not borrowed,
    in table order, with no form errors and no change of state. *)
Theorem book_suggestions_shows st rq v :
  path rq = "/book_suggestions" -> method rq = POST ->
  BookSuggestionForm.submitted_data (method rq) (BookSuggestionForm.process (form rq) (csrf rq))
    = Some v ->
  within_parameter_limit (db st) (BookSuggestionForm.v_student_id v) ->
  exists l, dispatch st rq = (st, Render (SuggestionsView [] l)) /\
    (forall b, b ∈ l <-> suggestion_spec (db st) (BookSuggestionForm.v_student_id v)
                           (BookSuggestionForm.v_department v) (BookSuggestionForm.v_year v) b) /\
    l `sublist_of` book_table (db st).
Proof.
  intros Hp Hm Hv Hlim. route_post route_book_suggestions.
  destruct (suggestions_characterised (db st) (BookSuggestionForm.v_student_id v)
              (BookSuggestionForm.v_department v) (BookSuggestionForm.v_year v) Hlim)
    as (l & Hq & Hspec & Hsub).
  exists l. split; [|done].
  pose proof Hv as (_ & Herr & _)%suggestion_submitted_Some.
  unfold book_suggestions, shown_errors. rewrite Hv, Hq, Herr. by destruct (is_submitted _).
Qed.

(** An accepted borrow submission appends its row and flashes. *)
Lemma book_borrow_accepted st rq v :
  db_wf (db st) -> below_rowid_limit (db st) ->
  path rq = "/book_borrow" -> method rq = POST ->
  BookBorrowForm.submitted_data (method rq)
    (BookBorrowForm.process (book_choices (db st)) (form rq) (csrf rq)) = Some v ->
  dispatch st rq =
  (mkState (mkDb (book_table (db st))
                 (book_borrow_table (db st)
                  ++ [BookBorrow.mk (Z.of_nat (S (List.length (book_borrow_table (db st)))))
                        (BookBorrowForm.v_student_name v) (BookBorrowForm.v_student_id v)
                        (BookBorrowForm.v_department v) (BookBorrowForm.v_year v)
                        (BookBorrowForm.v_book v) (BookBorrowForm.v_borrow_date v)]))
           (flashes st ++ [("success", "Book borrowed successfully!")]),
   Redirect "/book_borrow").
Proof.
  intros Hwf Hlim Hp Hm Hv. route_post route_book_borrow.
  unfold book_borrow. rewrite Hv, insert_book_borrow_ok by done. reflexivity.
Qed.

(** A suggestions page lists nothing, or the result of the query for the
    validated form. *)
Lemma dispatch_suggestions_view st rq errs l :
  path rq = "/book_suggestions" -> (dispatch st rq).2 = Render (SuggestionsView errs l) ->
  l = [] \/ exists v,
    BookSuggestionForm.submitted_data (method rq) (BookSuggestionForm.process (form rq) (csrf rq))
      = Some v /\
    suggestions (db st) (BookSuggestionForm.v_student_id v) (BookSuggestionForm.v_department v)
      (BookSuggestionForm.v_year v) = Ok l.
Proof.
  intros Hp. unfold dispatch. cbv zeta. rewrite Hp.
  change (path_part "/book_suggestions") with "/book_suggestions".
  rewrite route_book_suggestions. cbn iota.
  repeat case_bool_decide; try discriminate.
  unfold book_suggestions. cbv zeta.
  destruct (BookSuggestionForm.submitted_data _ _) as [v|]; [|intros [= _ <-]; by left].
  destruct (suggestions _ _ _ _) eqn:E; intros [=]; subst. right. by exists v.
Qed.


(** (C11) Only a POST to [/add_book] or [/book_borrow]
    can change the state; GET, HEAD, OPTIONS and every other route are
    read-only.  The path is the one Werkzeug matches: [path_part] drops
    extra leading slashes, so a POST to [//add_book] is a POST to
    [/add_book]. *)
Theorem dispatch_writes_only_post st rq :
  (dispatch st rq).1 <> st ->
  method rq = POST /\ (path_part (path rq) = "/add_book" \/ path_part (path rq) = "/book_borrow").
Proof.
  intros Hch. destruct (dispatch_state st rq) as [?|(Hal & _ & [[Hp Hd]|[Hp Hd]])]; [done| |];
    rewrite Hd in Hch.
  - destruct (add_book_state _ _ Hch) as [v Hv].
    apply add_book_submitted_Some in Hv as (Hs & _). split; [|by left].
    by apply submitted_allowed.
  - destruct (book_borrow_state _ _ Hch) as [v Hv].
    apply borrow_submitted_Some in Hv as (Hs & _). split; [|by right].
    by apply submitted_allowed.
Qed.

(** (C34) Composition of the borrow and suggestion pages: once a borrow
    submission for book [b] by student [i] is accepted, no suggestions
    page for a form whose [student_id] is [i] lists a book with id [b],
    whatever its department and year. *)
Theorem borrowed_book_not_suggested st rq1 v rq2 errs l :
  db_wf (db st) -> below_rowid_limit (db st) ->
  path rq1 = "/book_borrow" -> method rq1 = POST ->
  BookBorrowForm.submitted_data (method rq1)
    (BookBorrowForm.process (book_choices (db st)) (form rq1) (csrf rq1)) = Some v ->
  path rq2 = "/book_suggestions" ->
  head_opt (getlist (form rq2) "student_id") = Some (BookBorrowForm.v_student_id v) ->
  (dispatch (dispatch st rq1).1 rq2).2 = Render (SuggestionsView errs l) ->
  Forall (fun b => Book.id b <> BookBorrowForm.v_book v) l.
Proof.
  intros Hwf Hlim Hp1 Hm1 Hv Hp2 Hid Hr.
  rewrite (book_borrow_accepted st rq1 v Hwf Hlim Hp1 Hm1 Hv) in Hr.
  destruct (dispatch_suggestions_view _ _ _ _ Hp2 Hr) as [->|(w & Hw & Hq)]; [done|].
  apply suggestion_submitted_Some in Hw as (_ & _ & Hsid & _).
  change (head_opt (getlist (form rq2) "student_id") = Some (BookSuggestionForm.v_student_id w))
    in Hsid.
  rewrite Hid in Hsid. injection Hsid as Heq. rewrite <-Heq in Hq.
  apply Forall_forall. intros b Hb%list_elem_of_In Hbid.
  apply (suggestions_Ok_elem _ _ _ _ _ _ Hq Hb).
  unfold already_borrowed. cbn [fst db book_borrow_table].
  eexists. rewrite elem_of_app, list_elem_of_singleton.
  split; [right; reflexivity|]. cbn. split; congruence.
Qed.

(** (C35) Roundtrip of the book select (line 84): WTForms renders each
    choice [(book.id, label)] as an option whose value is [str(book.id)];
    a submission posting that value back makes the [book] field validate
    with data [book.id], for every id below the 4300-digit limit of [int]. *)
Theorem book_choice_roundtrip d fd i label :
  db_wf d -> (i, label) ∈ book_choices d -> (nb_digits i <= int_max_str_digits)%nat ->
  head_opt (getlist fd "book") = Some (py_str_of_int i) ->
  ferrors (select_field (book_choices d) fd "book") = [] /\
  fdata (select_field (book_choices d) fd "book") = Some i.
Proof.
  intros Hwf Hin Hn Hg. apply select_field_ok.
  - intros x Hx. apply negb_true_iff, Z.eqb_neq. by apply (book_choices_nonzero d Hwf).
  - exists (py_str_of_int i). rewrite coerce_int_Some, py_int_py_str by done.
    split; [done|]. split; [done|]. by apply list_elem_of_fmap_2' with (i, label).
Qed.

(** (C36) spec.md 5 and 9: nothing marks a book as borrowed, so the same
    borrow submission sent twice is accepted twice: both answers redirect
    and the borrow table gains two rows, with different ids, for the same
    student and book. *)
Theorem double_borrow_recorded st rq v :
  db_wf (db st) -> below_rowid_limit (db st) ->
  (Z.of_nat (S (List.length (book_borrow_table (db st)))) < max_rowid)%Z ->
  path rq = "/book_borrow" -> method rq = POST ->
  BookBorrowForm.submitted_data (method rq)
    (BookBorrowForm.process (book_choices (db st)) (form rq) (csrf rq)) = Some v ->
  (run st [rq; rq]).2 = [Redirect "/book_borrow"; Redirect "/book_borrow"] /\
  exists r1 r2, book_borrow_table (db (run st [rq; rq]).1) = book_borrow_table (db st) ++ [r1; r2] /\
    BookBorrow.id r1 <> BookBorrow.id r2 /\
    Forall (fun r => BookBorrow.student_id r = BookBorrowForm.v_student_id v /\
                     BookBorrow.book_id r = BookBorrowForm.v_book v) [r1; r2].
Proof.
  intros Hwf Hlim Hlim2 Hp Hm Hv. cbn [run].
  rewrite (book_borrow_accepted st rq v Hwf Hlim Hp Hm Hv).
  set (st1 := mkState _ _).
  assert (Hwf1 : db_wf (db st1)).
  { eapply insert_book_borrow_wf; [exact Hwf | by eapply borrow_submitted_book |].
    apply insert_book_borrow_ok; done. }
  assert (Hlim1 : below_rowid_limit (db st1)).
  { destruct Hlim as [Hb _]. split; [exact Hb|]. cbn. rewrite length_app. cbn. lia. }
  rewrite (book_borrow_accepted st1 rq v Hwf1 Hlim1 Hp Hm Hv).
  split; [reflexivity|]. cbn. rewrite <-app_assoc. do 2 eexists. split; [reflexivity|].
  rewrite length_app. cbn. split; [lia|]. repeat constructor.
Qed.

(** (C37) A POST to [/book_suggestions] whose [year] value is the text of
    an integer outside 1..4 (and not 0) writes nothing, runs no query and
    renders an empty suggestion list with "Not a valid choice." on
    [year]. *)
Theorem book_suggestions_bad_year st rq s rest z :
  path rq = "/book_suggestions" -> method rq = POST ->
  getlist (form rq) "year" = s :: rest -> py_int s = Ok z -> z <> 0%Z -> ~ (1 <= z <= 4)%Z ->
  exists errs, dispatch st rq = (st, Render (SuggestionsView errs [])) /\
               ("year", [msg_not_valid_choice]) ∈ errs.
Proof.
  intros Hp Hm Hg Hz Hnz Hr. route_post route_book_suggestions.
  set (f := BookSuggestionForm.process (form rq) (csrf rq)).
  assert (Hy : BookSuggestionForm.year f = mkField (Some z) [msg_not_valid_choice]).
  { apply (select_field_not_choice _ _ _ s rest); [exact Hg | by apply coerce_int_Some | |].
    - by rewrite year_choices_range.
    - by apply negb_true_iff, Z.eqb_neq. }
  assert (Herr : ("year", [msg_not_valid_choice]) ∈ BookSuggestionForm.errors f).
  { unfold BookSuggestionForm.errors. rewrite Hy. cbn [ferrors field_errors].
    rewrite !elem_of_app, list_elem_of_singleton. tauto. }
  eexists. split; [exact (book_suggestions_rejects st rq _ Hm Herr) | exact Herr].
Qed.

(** ** The invariant *)

Lemma add_book_wf st rq : app_wf st -> app_wf (add_book st rq).1.
Proof.
  intros (Hdb & Hb & Hr). unfold add_book.
  destruct (AddBookForm.submitted_data _ _) as [v|] eqn:Hv; [|done].
  destruct (insert_book _ _ _ _ _ _ _) as [d'|] eqn:Hi; [|done]. simpl.
  pose proof (insert_book_wf _ _ _ _ _ _ _ _ Hdb Hi) as Hdb'.
  apply insert_book_Ok_inv in Hi as [i ->].
  apply add_book_submitted_iff in Hv as (_ & _ & _ & ? & _ & ? & _ & ? & _ & ? & _ & ? & _ & ?).
  split; [done|]. split; [|done]. apply Forall_app. split; [done|].
  constructor; [|constructor]. by repeat split.
Qed.

Lemma book_borrow_wf st rq : app_wf st -> app_wf (book_borrow st rq).1.
Proof.
  intros (Hdb & Hb & Hr). unfold book_borrow.
  destruct (BookBorrowForm.submitted_data _ _) as [v|] eqn:Hv; [|done].
  destruct (insert_book_borrow _ _ _ _ _ _ _) as [d'|] eqn:Hi; [|done]. simpl.
  apply (borrow_submitted_iff _ _ _ _ _ (book_choices_nonzero _ Hdb)) in Hv
    as (_ & _ & _ & ? & _ & ? & _ & ? & _ & ? & _ & Hbook & _ & Hdate).
  rewrite book_choices_ids in Hbook.
  pose proof (insert_book_borrow_wf _ _ _ _ _ _ _ _ Hdb Hbook Hi) as Hdb'.
  apply insert_book_borrow_Ok_inv in Hi as [i ->].
  split; [done|]. split; [done|]. apply Forall_app. split; [done|].
  constructor; [|constructor].
  refine (conj _ (conj _ (conj _ (conj _ _)))); try done. by eapply strptime_ymd_Ok_valid.
Qed.

(** (C7) In every state the application can reach, the
    database has rowids 1..n in both tables, unique serial numbers, and
    borrows that name existing books; every stored book has non-blank
    name, author and serial number, a department and major among the
    choices and a year in 1..4; every borrow has a non-blank student name
    and id, a listed department, a year in 1..4 and a valid date. *)
Theorem reachable_app_wf st : reachable st -> app_wf st.
Proof.
  induction 1 as [|st rq _ IH].
  - split; [apply empty_db_wf|split; constructor].
  - destruct (dispatch_state st rq) as [->|(_ & _ & [[_ ->]|[_ ->]])];
      [done | by apply add_book_wf | by apply book_borrow_wf].
Qed.

Example reachable_app_wf_witness :
  reachable (dispatch init_state scenario_add_1).1 /\ app_wf (dispatch init_state scenario_add_1).1.
Proof.
  assert (H : reachable (dispatch init_state scenario_add_1).1) by (constructor; constructor).
  split; [exact H | exact (reachable_app_wf _ H)].
Defined.


(** (C15) A POST to [/add_book] whose [year] value is not
    an integer literal writes nothing and re-renders the form with the
    single message "This field is required." on [year]: the coercion
    error is cleared by [DataRequired]. *)
Theorem add_book_bad_year st rq s rest :
  path rq = "/add_book" -> method rq = POST ->
  getlist (form rq) "year" = s :: rest -> py_int s = Err InvalidLiteral ->
  exists errs, dispatch st rq = (st, Render (AddBookView errs)) /\ ("year", [msg_required]) ∈ errs.
Proof.
  intros Hp Hm Hg Hs. route_post route_add_book.
  set (f := AddBookForm.process (form rq) (csrf rq)).
  assert (Hy : AddBookForm.year f = mkField None [msg_required]).
  { unfold f. cbn [AddBookForm.year AddBookForm.process].
    apply (select_field_uncoercible _ _ _ s rest Hg). unfold coerce, coerce_int. by rewrite Hs. }
  assert (Herr : ("year", [msg_required]) ∈ AddBookForm.errors f).
  { unfold AddBookForm.errors. rewrite Hy. cbn [ferrors field_errors].
    rewrite !elem_of_app, list_elem_of_singleton. tauto. }
  eexists. split; [exact (add_book_rejects st rq _ Hm Herr) | exact Herr].
Qed.

(** ** Routing *)



(** (C22) A PUT, PATCH or DELETE to any route, or a POST to [/] or
    [/home], is answered 405 Method Not Allowed, with an Allow list that
    does not contain the method, and changes nothing. *)
Theorem dispatch_method_not_allowed st rq :
  path rq ∈ url_map.*1.*1 ->
  method rq ∈ [PUT; PATCH; DELETE] \/ (method rq = POST /\ path rq ∈ ["/"; "/home"]) ->
  exists allowed, dispatch st rq = (st, MethodNotAllowed allowed) /\ method rq ∉ allowed.
Proof.
  destruct rq as [m p fd c]; simpl. intros Hp Hm.
  destruct Hm as [Hm|[-> Hp']]; [apply list_elem_of_In in Hm as [<-|[<-|[<-|[]]]]|];
    case_route Hp; try (exfalso; revert Hp'; decide_prop);
    (eexists; split; [reflexivity | decide_prop]).
Qed.

(** (C23) Flask answers OPTIONS on every route itself, changing nothing,
    with the Allow list [MapAdapter.allowed_methods] gives: the rule's
    declared methods, HEAD with GET, and OPTIONS. *)
Theorem dispatch_options st rq :
  method rq = OPTIONS ->
  (path_part (path rq) ∈ ["/"; "/home"] ->
   dispatch st rq = (st, OptionsResponse [GET; HEAD; OPTIONS])) /\
  (path_part (path rq) ∈ ["/add_book"; "/book_borrow"; "/book_suggestions"] ->
   dispatch st rq = (st, OptionsResponse [GET; POST; HEAD; OPTIONS])).
Proof.
  intros Hm. split; intros Hp; unfold dispatch; cbv zeta; rewrite Hm;
    repeat (apply elem_of_cons in Hp as [Hp|Hp]; [rewrite Hp; reflexivity|]);
    by apply not_elem_of_nil in Hp.
Qed.

(** (C24) A GET or HEAD request renders its page with an empty form and
    no errors, and changes nothing: the home page on [/] and [/home], the
    add-book form, the borrow form with one choice per stored book, and
    the suggestion form with no suggestions. *)
Theorem get_renders_blank_forms st rq :
  method rq ∈ [GET; HEAD] ->
  (path rq ∈ ["/"; "/home"] -> dispatch st rq = (st, Render HomeView)) /\
  (path rq = "/add_book" -> dispatch st rq = (st, Render (AddBookView []))) /\
  (path rq = "/book_borrow" -> dispatch st rq = (st, Render (BorrowView (book_choices (db st)) []))) /\
  (path rq = "/book_suggestions" -> dispatch st rq = (st, Render (SuggestionsView [] []))).
Proof.
  intros Hm. pose proof (get_head_allowed _ Hm) as [Ha Ho].
  pose proof (get_head_unsubmitted _ Hm) as Hs.
  assert (Hget : method rq ∈ rule_methods [GET]) by
    (apply list_elem_of_In in Hm as [Hm|[Hm|[]]]; rewrite <-Hm; decide_prop).
  refine (conj _ (conj _ (conj _ _))); intros Hp.
  - apply list_elem_of_In in Hp as [Hp|[Hp|[]]]; symmetry in Hp;
      [rewrite (dispatch_route st rq _ _ _ _ ltac:(rewrite Hp; reflexivity) route_index) by done
      |rewrite (dispatch_route st rq _ _ _ _ ltac:(rewrite Hp; reflexivity) route_home) by done]; done.
  - rewrite (dispatch_route st rq _ _ _ _ ltac:(rewrite Hp; reflexivity) route_add_book) by done.
    by apply add_book_unsubmitted_view.
  - rewrite (dispatch_route st rq _ _ _ _ ltac:(rewrite Hp; reflexivity) route_book_borrow) by done.
    by apply book_borrow_unsubmitted_view.
  - rewrite (dispatch_route st rq _ _ _ _ ltac:(rewrite Hp; reflexivity) route_book_suggestions) by done.
    by apply book_suggestions_unsubmitted_view.
Qed.

(** (C25) A request whose CSRF check failed changes nothing, whatever
    its route, method and form data. *)
Theorem csrf_failure_writes_nothing st rq e :
  csrf rq = Some e -> (dispatch st rq).1 = st.
Proof.
  intros Hc. destruct (dispatch_state st rq) as [?|(_ & _ & [[_ ->]|[_ ->]])]; [done| |].
  - unfold add_book. cbv zeta. by rewrite Hc, add_book_csrf_failed.
  - unfold book_borrow. cbv zeta. by rewrite Hc, borrow_csrf_failed.
Qed.


(** (C27) A request either leaves the state as it was, or appends exactly
    one row to exactly one of the two tables and exactly one "success"
    message to the flash queue, keeping every earlier row and message. *)
Theorem dispatch_change_one_row st rq :
  (dispatch st rq).1 = st \/
  exists msg,
    flashes (dispatch st rq).1 = flashes st ++ [("success", msg)] /\
    ((exists b, db (dispatch st rq).1 = mkDb (book_table (db st) ++ [b]) (book_borrow_table (db st))) \/
     (exists r, db (dispatch st rq).1 = mkDb (book_table (db st)) (book_borrow_table (db st) ++ [r]))).
Proof.
  destruct (dispatch_state st rq) as [?|(_ & _ & [[_ ->]|[_ ->]])]; [by left| |].
  - unfold add_book. cbv zeta. destruct (AddBookForm.submitted_data _ _) as [v|]; [|by left].
    destruct (insert_book _ _ _ _ _ _ _) as [d'|] eqn:Hi; [|by left].
    apply insert_book_Ok_inv in Hi as [i ->]. right. eexists. split; [reflexivity|]. left. eauto.
  - unfold book_borrow. cbv zeta. destruct (BookBorrowForm.submitted_data _ _) as [v|]; [|by left].
    destruct (insert_book_borrow _ _ _ _ _ _ _) as [d'|] eqn:Hi; [|by left].
    apply insert_book_borrow_Ok_inv in Hi as [i ->]. right. eexists. split; [reflexivity|]. right. eauto.
Qed.

(** ** Composition of the handlers *)

(** The commit branch of [add_book], reached through the URL map. *)
Lemma add_book_fresh_dispatch st rq v :
  db_wf (db st) -> below_rowid_limit (db st) ->
  path rq = "/add_book" -> method rq = POST ->
  AddBookForm.submitted_data (method rq) (AddBookForm.process (form rq) (csrf rq)) = Some v ->
  AddBookForm.v_serial_number v ∉ map Book.serial_number (book_table (db st)) ->
  dispatch st rq =
  (mkState (mkDb (book_table (db st)
                  ++ [Book.mk (Z.of_nat (S (List.length (book_table (db st)))))
                        (AddBookForm.v_name v) (AddBookForm.v_author v)
                        (AddBookForm.v_serial_number v) (AddBookForm.v_department v)
                        (AddBookForm.v_major v) (AddBookForm.v_year v)])
                 (book_borrow_table (db st)))
           (flashes st ++ [("success", "Book added successfully!")]),
   Redirect "/add_book").
Proof.
  intros Hwf Hlim Hp Hm Hv Hfresh. route_post route_add_book.
  unfold add_book. rewrite Hv, insert_book_fresh by done. reflexivity.
Qed.

Lemma fresh_serial_fresh l : fresh_serial l ∉ l.
Proof.
  intros Hin. apply length_le_concat in Hin. unfold fresh_serial in Hin. simpl in Hin. lia.
Qed.

Lemma fresh_serial_truthy l : strip_truthy (fresh_serial l) = true.
Proof. apply strip_truthy_iff. intros Hsp. inversion Hsp as [|? ? Hc _]. discriminate Hc. Qed.

(** (C38) spec.md 8, first property, through the suggestion page: after an
    accepted add-book submission with a new serial number, a suggestion
    submission for the new book's department and year lists the new book,
    whichever student asks (within the parameter limit): no borrow row can
    name the rowid the book was given. *)
Theorem new_book_suggested st rq v rq2 w errs l :
  db_wf (db st) -> below_rowid_limit (db st) ->
  path rq = "/add_book" -> method rq = POST ->
  AddBookForm.submitted_data (method rq) (AddBookForm.process (form rq) (csrf rq)) = Some v ->
  AddBookForm.v_serial_number v ∉ map Book.serial_number (book_table (db st)) ->
  path rq2 = "/book_suggestions" -> method rq2 = POST ->
  BookSuggestionForm.submitted_data (method rq2) (BookSuggestionForm.process (form rq2) (csrf rq2))
    = Some w ->
  BookSuggestionForm.v_department w = AddBookForm.v_department v ->
  BookSuggestionForm.v_year w = AddBookForm.v_year v ->
  within_parameter_limit (db st) (BookSuggestionForm.v_student_id w) ->
  (dispatch (dispatch st rq).1 rq2).2 = Render (SuggestionsView errs l) ->
  Book.mk (Z.of_nat (S (List.length (book_table (db st))))) (AddBookForm.v_name v)
    (AddBookForm.v_author v) (AddBookForm.v_serial_number v) (AddBookForm.v_department v)
    (AddBookForm.v_major v) (AddBookForm.v_year v) ∈ l.
Proof.
  intros Hwf Hlim Hp Hm Hv Hfresh Hp2 Hm2 Hw Hd Hy Hpl Hr.
  rewrite (add_book_fresh_dispatch st rq v Hwf Hlim Hp Hm Hv Hfresh) in Hr. cbn [fst] in Hr.
  set (st1 := mkState _ _) in Hr.
  rewrite (dispatch_route st1 rq2 _ _ _ _ ltac:(rewrite Hp2; reflexivity) route_book_suggestions) in Hr
    by (rewrite Hm2; [apply post_allowed || done]).
  destruct (suggestions_characterised (db st1) (BookSuggestionForm.v_student_id w)
              (BookSuggestionForm.v_department w) (BookSuggestionForm.v_year w) Hpl)
    as (l' & Hq & Hspec & _).
  unfold book_suggestions in Hr. cbv zeta in Hr. rewrite Hw, Hq in Hr. injection Hr as _ <-.
  apply Hspec. rewrite Hd, Hy. unfold suggestion_spec, st1. cbn [db book_table].
  split; [rewrite elem_of_app, list_elem_of_singleton; by right|]. split; [done|]. split; [done|].
  intros (r & Hr & _ & Hid). exact (db_wf_next_book_unborrowed _ r Hwf Hr Hid).
Qed.

(** The row [add_book] stores for the values [v] under rowid [i]. *)
Lemma book_values_mk i v :
  book_values (Book.mk i (AddBookForm.v_name v) (AddBookForm.v_author v)
                 (AddBookForm.v_serial_number v) (AddBookForm.v_department v)
                 (AddBookForm.v_major v) (AddBookForm.v_year v)) = v.
Proof. by destruct v. Qed.

(** Two accepted add-book submissions with new, different serial numbers,
    one after the other. *)
Lemma run_two_fresh_adds st rqa rqb va vb :
  db_wf (db st) -> below_rowid_limit (db st) ->
  (Z.of_nat (S (List.length (book_table (db st)))) < max_rowid)%Z ->
  path rqa = "/add_book" -> method rqa = POST ->
  AddBookForm.submitted_data (method rqa) (AddBookForm.process (form rqa) (csrf rqa)) = Some va ->
  path rqb = "/add_book" -> method rqb = POST ->
  AddBookForm.submitted_data (method rqb) (AddBookForm.process (form rqb) (csrf rqb)) = Some vb ->
  AddBookForm.v_serial_number va ∉ map Book.serial_number (book_table (db st)) ->
  AddBookForm.v_serial_number vb ∉ map Book.serial_number (book_table (db st)) ->
  AddBookForm.v_serial_number va <> AddBookForm.v_serial_number vb ->
  (run st [rqa; rqb]).2 = [Redirect "/add_book"; Redirect "/add_book"] /\
  flashes (run st [rqa; rqb]).1
    = flashes st ++ [("success", "Book added successfully!"); ("success", "Book added successfully!")] /\
  book_borrow_table (db (run st [rqa; rqb]).1) = book_borrow_table (db st) /\
  map book_values (book_table (db (run st [rqa; rqb]).1)) = map book_values (book_table (db st)) ++ [va; vb].
Proof.
  intros Hwf Hlim Hlim2 Hpa Hma Hva Hpb Hmb Hvb Hfa Hfb Hab. cbn [run].
  rewrite (add_book_fresh_dispatch st rqa va Hwf Hlim Hpa Hma Hva Hfa).
  set (st1 := mkState _ _).
  assert (Hwf1 : db_wf (db st1)).
  { eapply insert_book_wf; [exact Hwf|]. by apply insert_book_fresh. }
  assert (Hlim1 : below_rowid_limit (db st1)).
  { destruct Hlim as [_ Hb]. split; [|exact Hb]. cbn. rewrite length_app. cbn. lia. }
  assert (Hfb1 : AddBookForm.v_serial_number vb ∉ map Book.serial_number (book_table (db st1))).
  { cbn [db book_table st1]. rewrite map_app, elem_of_app. intros [?|Hin]; [done|].
    cbn [map] in Hin. apply list_elem_of_singleton in Hin. by apply Hab. }
  rewrite (add_book_fresh_dispatch st1 rqb vb Hwf1 Hlim1 Hpb Hmb Hvb Hfb1).
  cbn. rewrite <-!app_assoc. split; [done|]. split; [done|]. split; [done|].
  rewrite !map_app. cbn. by rewrite !book_values_mk.
Qed.

(** (C39) Ordering of requests: two accepted add-book submissions with
    new, different serial numbers give, in either order, the same
    responses, the same flash queue, the same borrow table and the same
    books up to their order and rowids. *)
Theorem add_book_order_independent st rq1 rq2 v1 v2 :
  db_wf (db st) -> below_rowid_limit (db st) ->
  (Z.of_nat (S (List.length (book_table (db st)))) < max_rowid)%Z ->
  path rq1 = "/add_book" -> method rq1 = POST ->
  AddBookForm.submitted_data (method rq1) (AddBookForm.process (form rq1) (csrf rq1)) = Some v1 ->
  path rq2 = "/add_book" -> method rq2 = POST ->
  AddBookForm.submitted_data (method rq2) (AddBookForm.process (form rq2) (csrf rq2)) = Some v2 ->
  AddBookForm.v_serial_number v1 ∉ map Book.serial_number (book_table (db st)) ->
  AddBookForm.v_serial_number v2 ∉ map Book.serial_number (book_table (db st)) ->
  AddBookForm.v_serial_number v1 <> AddBookForm.v_serial_number v2 ->
  (run st [rq1; rq2]).2 = (run st [rq2; rq1]).2 /\
  flashes (run st [rq1; rq2]).1 = flashes (run st [rq2; rq1]).1 /\
  book_borrow_table (db (run st [rq1; rq2]).1) = book_borrow_table (db (run st [rq2; rq1]).1) /\
  map book_values (book_table (db (run st [rq1; rq2]).1))
    ≡ₚ map book_values (book_table (db (run st [rq2; rq1]).1)).
Proof.
  intros Hwf Hlim Hlim2 Hp1 Hm1 Hv1 Hp2 Hm2 Hv2 Hf1 Hf2 H12.
  destruct (run_two_fresh_adds st rq1 rq2 v1 v2) as (-> & -> & -> & ->); try done.
  destruct (run_two_fresh_adds st rq2 rq1 v2 v1) as (-> & -> & -> & ->); try done.
  split; [done|]. split; [done|]. split; [done|].
  apply Permutation_app_head. constructor.
Qed.

(** The book table grows by one row: the state is not the one before. *)
Lemma state_book_table_grows st d' f' b :
  book_table d' = book_table (db st) ++ [b] -> mkState d' f' <> st.
Proof.
  intros Hd <-. apply (f_equal List.length) in Hd. rewrite length_app in Hd. simpl in Hd. lia.
Qed.

Lemma state_borrow_table_grows st d' f' r :
  book_borrow_table d' = book_borrow_table (db st) ++ [r] -> mkState d' f' <> st.
Proof.
  intros Hd <-. apply (f_equal List.length) in Hd. rewrite length_app in Hd. simpl in Hd. lia.
Qed.

(** (C12) Exactly when the add-book page writes: in a well-formed state
    below the rowid limit, a request to [/add_book] changes the state
    if and only if it is a POST whose form validates with a serial number
    no stored book has. *)
Theorem add_book_write_iff st rq :
  db_wf (db st) -> below_rowid_limit (db st) -> path_part (path rq) = "/add_book" ->
  (dispatch st rq).1 <> st <->
  method rq = POST /\ exists v,
    AddBookForm.submitted_data (method rq) (AddBookForm.process (form rq) (csrf rq)) = Some v /\
    AddBookForm.v_serial_number v ∉ map Book.serial_number (book_table (db st)).
Proof.
  intros Hwf Hlim Hp. split.
  - intros Hch. destruct (dispatch_state st rq) as [?|(Hal & _ & [[_ Hd]|[Hp' _]])];
      [done| |congruence].
    rewrite Hd in Hch. destruct (add_book_state _ _ Hch) as [v Hv].
    pose proof Hv as (Hs & _)%add_book_submitted_Some.
    split; [by apply submitted_allowed|]. exists v. split; [done|]. intros Hdup. apply Hch.
    unfold add_book. cbv zeta. by rewrite Hv, insert_book_duplicate.
  - intros (Hm & v & Hv & Hf).
    rewrite (dispatch_route st rq _ _ _ _ Hp route_add_book) by (rewrite Hm; [apply post_allowed || done]).
    unfold add_book. cbv zeta. rewrite Hv, insert_book_fresh by done. cbn [flash db fst].
    by eapply state_book_table_grows.
Qed.

(** (C26) Exactly when the borrow page writes: in a well-formed state
    below the rowid limit, a request to [/book_borrow] changes the state
    if and only if it is a POST whose form validates against the current
    books; nothing else (no availability, no duplicate check) is
    consulted. *)
Theorem book_borrow_write_iff st rq :
  db_wf (db st) -> below_rowid_limit (db st) -> path_part (path rq) = "/book_borrow" ->
  (dispatch st rq).1 <> st <->
  method rq = POST /\ exists v,
    BookBorrowForm.submitted_data (method rq)
      (BookBorrowForm.process (book_choices (db st)) (form rq) (csrf rq)) = Some v.
Proof.
  intros Hwf Hlim Hp. split.
  - intros Hch. destruct (dispatch_state st rq) as [?|(Hal & _ & [[Hp' _]|[_ Hd]])];
      [done|congruence|].
    rewrite Hd in Hch. destruct (book_borrow_state _ _ Hch) as [v Hv].
    pose proof Hv as (Hs & _)%borrow_submitted_Some.
    split; [by apply submitted_allowed|]. by exists v.
  - intros (Hm & v & Hv).
    rewrite (dispatch_route st rq _ _ _ _ Hp route_book_borrow) by (rewrite Hm; [apply post_allowed || done]).
    unfold book_borrow. cbv zeta. rewrite Hv, insert_book_borrow_ok by done. cbn [flash db fst].
    by eapply state_borrow_table_grows.
Qed.

(** (C28) The borrow form's book choices are computed afresh on every
    request: after a valid add-book submission with a new serial number,
    a GET or HEAD of [/book_borrow] offers the earlier books and then the
    new one, as ("next rowid", "name by author"). *)
Theorem new_book_offered_for_borrow st rq v rq2 :
  db_wf (db st) -> below_rowid_limit (db st) ->
  path rq = "/add_book" -> method rq = POST ->
  AddBookForm.submitted_data (method rq) (AddBookForm.process (form rq) (csrf rq)) = Some v ->
  AddBookForm.v_serial_number v ∉ map Book.serial_number (book_table (db st)) ->
  path rq2 = "/book_borrow" -> method rq2 ∈ [GET; HEAD] ->
  dispatch (dispatch st rq).1 rq2 =
  ((dispatch st rq).1,
   Render (BorrowView (book_choices (db st) ++
                       [(Z.of_nat (S (List.length (book_table (db st)))),
                         AddBookForm.v_name v +s+ " by " +s+ AddBookForm.v_author v)]) [])).
Proof.
  intros Hwf Hlim Hp Hm Hv Hfresh Hp2 Hm2.
  rewrite (add_book_fresh_dispatch st rq v) by done. simpl fst.
  pose proof (get_head_allowed _ Hm2) as [Ha Ho].
  rewrite (dispatch_route _ rq2 _ _ _ _ ltac:(rewrite Hp2; reflexivity) route_book_borrow) by done.
  rewrite book_borrow_unsubmitted_view by (by apply get_head_unsubmitted).
  unfold book_choices. cbn [flash db book_table]. by rewrite map_app.
Qed.

(** (C31) Progress: whenever the database is well-formed and below the
    rowid limit (as in every reachable state with fewer than 2^63-1
    books), some request is accepted: it adds a book and redirects. *)
Theorem add_book_progress st :
  db_wf (db st) -> below_rowid_limit (db st) ->
  exists rq, (dispatch st rq).2 = Redirect "/add_book" /\
    List.length (book_table (db (dispatch st rq).1)) = S (List.length (book_table (db st))).
Proof.
  intros Hwf Hlim. exists (fresh_book_request (db st)).
  set (fresh := fresh_serial (map Book.serial_number (book_table (db st)))).
  assert (Hv : AddBookForm.submitted_data POST (AddBookForm.process
                 (form (fresh_book_request (db st))) None)
               = Some (AddBookForm.mkValues "New book" "Anon" fresh "CS" "SE" 1)).
  { apply add_book_submitted_iff. cbn [AddBookForm.v_name AddBookForm.v_author
      AddBookForm.v_serial_number AddBookForm.v_department AddBookForm.v_major AddBookForm.v_year].
    refine (conj eq_refl (conj eq_refl (conj eq_refl (conj eq_refl (conj eq_refl (conj eq_refl
      (conj eq_refl (conj (fresh_serial_truthy _) (conj eq_refl (conj _ (conj eq_refl
      (conj _ (conj _ _))))))))))))); [decide_prop | decide_prop | by exists "1" | decide_prop]. }
  rewrite (add_book_fresh_dispatch _ (fresh_book_request (db st)) _ Hwf Hlim eq_refl eq_refl Hv
             (fresh_serial_fresh _)).
  split; [done|]. cbn. rewrite length_app. simpl. lia.
Qed.

(** ** Witnesses *)

Example add_book_inserts_witness :
  AddBookForm.submitted_data POST (AddBookForm.process (form scenario_add_1) None)
    = Some scenario_values_1 /\
  dispatch init_state scenario_add_1 =
  (mkState (mkDb [Book.mk 1 "Intro to Algorithms" "Cormen" "SN-001" "CS" "SE" 2] [])
           [("success", "Book added successfully!")], Redirect "/add_book").
Proof.
  split; [reflexivity|].
  rewrite (add_book_inserts init_state scenario_add_1 scenario_values_1);
    [reflexivity | apply empty_db_wf | decide_prop | reflexivity | reflexivity | reflexivity
    | apply not_elem_of_nil].
Defined.

Example add_book_duplicate_serial_witness :
  db_wf (db scenario_state_1) /\
  dispatch scenario_state_1 scenario_add_1
  = (scenario_state_1, InternalServerError (IntegrityError unique_serial_message)).
Proof.
  assert (H : db_wf (db scenario_state_1)) by decide_prop. split; [exact H|].
  apply (add_book_duplicate_serial _ _ scenario_values_1);
    [exact H | decide_prop | reflexivity | reflexivity | reflexivity | decide_prop].
Defined.

Example book_borrow_inserts_witness :
  db_wf (db scenario_state_1) /\
  BookBorrowForm.v_book scenario_borrow_values ∈ map Book.id (book_table (db scenario_state_1)) /\
  (dispatch scenario_state_1 scenario_borrow).2 = Redirect "/book_borrow".
Proof.
  assert (H : db_wf (db scenario_state_1)) by decide_prop. split; [exact H|].
  destruct (book_borrow_inserts scenario_state_1 scenario_borrow scenario_borrow_values)
    as [Hin ->]; [exact H | decide_prop | reflexivity | reflexivity | reflexivity |].
  split; [exact Hin | reflexivity].
Defined.

Example book_borrow_rejects_unknown_book_witness :
  (7%Z ∉ map Book.id (book_table (db scenario_state_1))) /\
  exists errs, dispatch scenario_state_1 unknown_book_request
               = (scenario_state_1, Render (BorrowView (book_choices (db scenario_state_1)) errs)) /\
               ("book", [msg_not_valid_choice]) ∈ errs.
Proof.
  assert (H : 7%Z ∉ map Book.id (book_table (db scenario_state_1))) by decide_prop.
  split; [exact H|].
  apply (book_borrow_rejects_unknown_book _ _ "7" [] 7);
    [reflexivity | reflexivity | reflexivity | reflexivity | discriminate | exact H].
Defined.

Example book_suggestions_shows_witness :
  within_parameter_limit (db scenario_state_3) "S1" /\
  exists l, dispatch scenario_state_3 scenario_suggest = (scenario_state_3, Render (SuggestionsView [] l)) /\
    (forall b, b ∈ l <-> suggestion_spec (db scenario_state_3) "S1" "CS" 2 b) /\
    l `sublist_of` book_table (db scenario_state_3).
Proof.
  assert (H : within_parameter_limit (db scenario_state_3) "S1").
  { unfold within_parameter_limit, sqlite_max_variable_number. vm_compute. discriminate. }
  split; [exact H|].
  exact (book_suggestions_shows scenario_state_3 scenario_suggest
           (BookSuggestionForm.mkValues "S1" "CS" 2) eq_refl eq_refl eq_refl H).
Defined.


Example dispatch_writes_only_post_witness :
  (dispatch init_state scenario_add_1).1 <> init_state /\
  method scenario_add_1 = POST /\
  (path scenario_add_1 = "/add_book" \/ path scenario_add_1 = "/book_borrow").
Proof.
  assert (H : (dispatch init_state scenario_add_1).1 <> init_state) by (vm_compute; discriminate).
  split; [exact H | exact (dispatch_writes_only_post _ _ H)].
Defined.

Example add_book_bad_year_witness :
  py_int "second" = Err InvalidLiteral /\
  exists errs, dispatch init_state bad_year_request = (init_state, Render (AddBookView errs)) /\
               ("year", [msg_required]) ∈ errs.
Proof.
  split; [reflexivity|].
  apply (add_book_bad_year _ _ "second" []); reflexivity.
Defined.


Example dispatch_method_not_allowed_witness :
  exists allowed, dispatch scenario_state_1 (mkRequest PUT "/add_book" [] None)
                  = (scenario_state_1, MethodNotAllowed allowed) /\ PUT ∉ allowed.
Proof.
  apply (dispatch_method_not_allowed scenario_state_1 (mkRequest PUT "/add_book" [] None));
    [decide_prop | left; decide_prop].
Defined.

Example dispatch_options_witness :
  dispatch scenario_state_1 (mkRequest OPTIONS "/book_borrow" [] None)
  = (scenario_state_1, OptionsResponse [GET; POST; HEAD; OPTIONS]).
Proof.
  apply (proj2 (dispatch_options scenario_state_1 (mkRequest OPTIONS "/book_borrow" [] None) eq_refl)).
  decide_prop.
Defined.

Example get_renders_blank_forms_witness :
  dispatch scenario_state_1 (mkRequest HEAD "/book_borrow" [] None)
  = (scenario_state_1, Render (BorrowView [(1%Z, "Intro to Algorithms by Cormen")] [])).
Proof.
  destruct (get_renders_blank_forms scenario_state_1 (mkRequest HEAD "/book_borrow" [] None))
    as (_ & _ & Hb & _); [decide_prop|].
  rewrite Hb by reflexivity. reflexivity.
Defined.

Example csrf_failure_writes_nothing_witness :
  (dispatch init_state (mkRequest POST "/add_book" (form scenario_add_1)
                          (Some "The CSRF token is missing."))).1 = init_state.
Proof. by apply (csrf_failure_writes_nothing _ _ "The CSRF token is missing."). Defined.


Example new_book_offered_for_borrow_witness :
  dispatch scenario_state_1 (mkRequest GET "/book_borrow" [] None) =
  (scenario_state_1, Render (BorrowView [(1%Z, "Intro to Algorithms by Cormen")] [])).
Proof.
  exact (new_book_offered_for_borrow init_state scenario_add_1 scenario_values_1
           (mkRequest GET "/book_borrow" [] None) empty_db_wf ltac:(decide_prop)
           eq_refl eq_refl eq_refl (not_elem_of_nil _) eq_refl ltac:(decide_prop)).
Defined.

Example add_book_progress_witness :
  exists rq, (dispatch scenario_state_3 rq).2 = Redirect "/add_book" /\
    List.length (book_table (db (dispatch scenario_state_3 rq).1)) = 3%nat.
Proof.
  exact (add_book_progress scenario_state_3 ltac:(decide_prop) ltac:(decide_prop)).
Defined.

Example book_borrow_bad_date_witness :
  strptime_ymd (list_ascii_of_string "2024-02-30") = Err DayOutOfRange /\
  exists errs, dispatch scenario_state_1 bad_date_request
               = (scenario_state_1, Render (BorrowView (book_choices (db scenario_state_1)) errs)) /\
               ("borrow_date", [msg_required]) ∈ errs.
Proof.
  split; [reflexivity|].
  apply (book_borrow_bad_date _ _ DayOutOfRange); [reflexivity | reflexivity | discriminate | reflexivity].
Defined.

Example borrowed_book_not_suggested_witness :
  exists l, (dispatch (dispatch scenario_two_books scenario_borrow).1 scenario_suggest).2
            = Render (SuggestionsView [] l) /\ l <> [] /\ Forall (fun b => Book.id b <> 1%Z) l.
Proof.
  eexists. split; [vm_compute; reflexivity|]. split; [discriminate|].
  exact (borrowed_book_not_suggested scenario_two_books scenario_borrow scenario_borrow_values
           scenario_suggest [] _ ltac:(decide_prop) ltac:(decide_prop) eq_refl eq_refl
           ltac:(vm_compute; reflexivity) eq_refl eq_refl ltac:(vm_compute; reflexivity)).
Defined.

Example book_choice_roundtrip_witness :
  (1%Z, "Intro to Algorithms by Cormen") ∈ book_choices (db scenario_state_1) /\
  fdata (select_field (book_choices (db scenario_state_1)) [("book", py_str_of_int 1)] "book")
  = Some 1%Z.
Proof.
  assert (H : (1%Z, "Intro to Algorithms by Cormen") ∈ book_choices (db scenario_state_1))
    by decide_prop.
  split; [exact H|].
  exact (proj2 (book_choice_roundtrip (db scenario_state_1) [("book", py_str_of_int 1)] 1%Z _
                 ltac:(decide_prop) H ltac:(vm_compute; lia) eq_refl)).
Defined.

Example double_borrow_recorded_witness :
  (run scenario_state_1 [scenario_borrow; scenario_borrow]).2
  = [Redirect "/book_borrow"; Redirect "/book_borrow"] /\
  List.length (book_borrow_table (db (run scenario_state_1 [scenario_borrow; scenario_borrow]).1))
  = 2%nat.
Proof.
  destruct (double_borrow_recorded scenario_state_1 scenario_borrow scenario_borrow_values
              ltac:(decide_prop) ltac:(decide_prop) ltac:(vm_compute; reflexivity)
              eq_refl eq_refl ltac:(vm_compute; reflexivity)) as [Hr (r1 & r2 & Ht & _)].
  split; [exact Hr|]. rewrite Ht. reflexivity.
Defined.

Example book_suggestions_bad_year_witness :
  exists errs, dispatch scenario_state_1 bad_suggestion_year_request
               = (scenario_state_1, Render (SuggestionsView errs [])) /\
               ("year", [msg_not_valid_choice]) ∈ errs.
Proof.
  apply (book_suggestions_bad_year _ _ "5" [] 5%Z); [reflexivity | reflexivity | reflexivity |
    reflexivity | lia | lia].
Defined.

Example new_book_suggested_witness :
  Book.mk 3 "New book" "Anon" (fresh_serial (map Book.serial_number (book_table (db scenario_state_3))))
    "CS" "SE" 1
  ∈ match (dispatch (dispatch scenario_state_3 (fresh_book_request (db scenario_state_3))).1
             new_book_suggest_request).2 with
    | Render (SuggestionsView _ l) => l | _ => [] end.
Proof.
  exact (new_book_suggested scenario_state_3 (fresh_book_request (db scenario_state_3))
           (AddBookForm.mkValues "New book" "Anon"
              (fresh_serial (map Book.serial_number (book_table (db scenario_state_3)))) "CS" "SE" 1)
           new_book_suggest_request (BookSuggestionForm.mkValues "S1" "CS" 1) []
           _ ltac:(decide_prop) ltac:(decide_prop) eq_refl eq_refl ltac:(vm_compute; reflexivity)
           ltac:(decide_prop) eq_refl eq_refl ltac:(vm_compute; reflexivity) eq_refl eq_refl
           ltac:(unfold within_parameter_limit; decide_prop) ltac:(vm_compute; reflexivity)).
Defined.

Example add_book_order_independent_witness :
  (run scenario_state_1 [scenario_add_2; scenario_add_3]).2
  = (run scenario_state_1 [scenario_add_3; scenario_add_2]).2 /\
  map book_values (book_table (db (run scenario_state_1 [scenario_add_2; scenario_add_3]).1))
  ≡ₚ map book_values (book_table (db (run scenario_state_1 [scenario_add_3; scenario_add_2]).1)).
Proof.
  destruct (add_book_order_independent scenario_state_1 scenario_add_2 scenario_add_3
              (AddBookForm.mkValues "Algorithm Design" "Kleinberg" "SN-002" "CS" "SE" 2)
              (AddBookForm.mkValues "Linear Algebra" "Strang" "SN-003" "MATH" "DS" 1)
              ltac:(decide_prop) ltac:(decide_prop) ltac:(vm_compute; reflexivity)
              eq_refl eq_refl ltac:(vm_compute; reflexivity)
              eq_refl eq_refl ltac:(vm_compute; reflexivity)
              ltac:(decide_prop) ltac:(decide_prop) ltac:(discriminate))
    as (Hr & _ & _ & Hb).
  split; [exact Hr | exact Hb].
Defined.

Example add_book_write_iff_witness :
  (dispatch scenario_state_1 scenario_add_2).1 <> scenario_state_1 /\
  ~ (dispatch scenario_state_1 scenario_add_1).1 <> scenario_state_1.
Proof.
  split.
  - apply (add_book_write_iff scenario_state_1 scenario_add_2 ltac:(decide_prop) ltac:(decide_prop) eq_refl).
    split; [reflexivity|]. eexists. split; [vm_compute; reflexivity | decide_prop].
  - rewrite (add_book_write_iff scenario_state_1 scenario_add_1 ltac:(decide_prop) ltac:(decide_prop) eq_refl).
    intros (_ & v & Hv & Hf). vm_compute in Hv. injection Hv as <-. apply Hf. decide_prop.
Defined.

Example book_borrow_write_iff_witness :
  (dispatch scenario_state_1 scenario_borrow).1 <> scenario_state_1.
Proof.
  apply (book_borrow_write_iff scenario_state_1 scenario_borrow ltac:(decide_prop) ltac:(decide_prop) eq_refl).
  split; [reflexivity|]. eexists. vm_compute. reflexivity.
Defined.
